(** * Ledger and stock-allocation core of the marketplace backend (db.js)

    A shallow embedding of the request handlers of [src/db.js] that move
    money and stock: purchase, recharge approval and rejection, the support
    and refund workflow, renewals, premium upgrades and withdrawals.

    Conventions of the embedding.
    - The SQL store is a record of tables; a table is the list of its rows
      in rowid order.  [SELECT ... WHERE id = ?] followed by [rows[0]] is
      the first matching row, [UPDATE ... WHERE id = ?] rewrites every
      matching row.
    - A handler is a function from the store (and the request) to a
      response and the store it leaves behind.  A statement takes effect
      where [client.execute] is called.
    - JavaScript numbers that hold money are rationals ([Q]): an amount
      is the decimal its JSON or SQL text spells, and sums, differences
      and comparisons are exact.  [toFixed(2)] followed by [parseFloat] is
      [round2].  The product [amountToAdd * commissionRate] of the
      recharge approval is computed as the program computes it, in IEEE
      754 binary64 ([to_double]): [toFixed(2)] reads the cents off that
      product, and its binary error moves them (10.5 * 0.15 gives 1.57).
      Elsewhere the binary rounding of doubles is not modelled.  Numbers
      stay below the overflow threshold of binary64.
    - Instants are milliseconds since the epoch ([Z]).  A date string
      produced by [toLocaleDateString] is represented by the instant the
      handlers rebuild from it (local midnight of that day).
    - Display-only fields of a ledger entry (description, date) and socket
      notifications are left out. *)

From Stdlib Require Import ZArith QArith Qround List String Ascii Bool Lia Lqa.
From Stdlib Require Import DecimalString.
Import ListNotations.

Local Open Scope Z_scope.
Local Open Scope string_scope.

(** ** JavaScript values used by the handlers *)

Module Js.

(** A transaction id as it comes out of [JSON.parse]: a number
    ([Date.now()]), a string ([#ORD-...]) or absent. *)
Inductive id : Type :=
| IdNum (n : Z)
| IdStr (s : string)
| IdNone.

(** [a === b] on ids. *)
Definition strict_eq (a b : id) : bool :=
  match a, b with
  | IdNum x, IdNum y => Z.eqb x y
  | IdStr x, IdStr y => String.eqb x y
  | IdNone, IdNone => true
  | _, _ => false
  end.

(** Decimal rendering of an integer, as [String(n)] gives it for the
    integers below 1e21 that [Date.now()] produces. *)
Definition Z_to_string (n : Z) : string :=
  NilZero.string_of_int (Z.to_int n).

(** [String(x)]. *)
Definition String_ (x : id) : string :=
  match x with
  | IdNum n => Z_to_string n
  | IdStr s => s
  | IdNone => "undefined"
  end.

(** [String(x ?? '')]. *)
Definition String_or_empty (x : id) : string :=
  match x with
  | IdNone => ""
  | _ => String_ x
  end.

(** Truthiness of an id received in a request body. *)
Definition truthy (x : id) : bool :=
  match x with
  | IdNum n => negb (Z.eqb n 0)
  | IdStr s => negb (String.eqb s "")
  | IdNone => false
  end.

Definition is_space (c : ascii) : bool :=
  let n := nat_of_ascii c in
  orb (Nat.eqb n 32) (andb (Nat.leb 9 n) (Nat.leb n 13)).

Definition is_digit (c : ascii) : bool :=
  let n := nat_of_ascii c in
  andb (Nat.leb 48 n) (Nat.leb n 57).

Fixpoint drop_spaces (s : string) : string :=
  match s with
  | String c s' => if is_space c then drop_spaces s' else s
  | EmptyString => EmptyString
  end.

Fixpoint rev_string (s acc : string) : string :=
  match s with
  | EmptyString => acc
  | String c s' => rev_string s' (String c acc)
  end.

(** [s.trim()] for ASCII white space. *)
Definition trim (s : string) : string :=
  rev_string (drop_spaces (rev_string (drop_spaces s) "")) "".

Definition upper_char (c : ascii) : ascii :=
  let n := nat_of_ascii c in
  if andb (Nat.leb 97 n) (Nat.leb n 122) then ascii_of_nat (n - 32)%nat else c.

Fixpoint toUpperCase (s : string) : string :=
  match s with
  | EmptyString => EmptyString
  | String c s' => String (upper_char c) (toUpperCase s')
  end.

(** [s.slice(-6)]: the last six characters. *)
Definition slice_last6 (s : string) : string :=
  let n := String.length s in
  substring (n - 6)%nat 6%nat s.

(** Leading run of decimal digits of [s] and what follows it. *)
Fixpoint span_digits (s : string) : list ascii * string :=
  match s with
  | String c s' =>
      if is_digit c then let '(ds, r) := span_digits s' in (c :: ds, r)
      else ([], s)
  | EmptyString => ([], EmptyString)
  end.

Definition digit_value (c : ascii) : Z :=
  Z.of_nat (nat_of_ascii c) - 48.

(** [parseInt(ds, radix)] on a string of decimal digits: every decimal
    digit is a valid digit of radix 10 and of radix 16. *)
Definition parseInt_digits (radix : Z) (ds : list ascii) : Z :=
  fold_left (fun acc c => acc * radix + digit_value c) ds 0.

(** [s.match(/\d+/)]: the first maximal run of digits. *)
Fixpoint match_digits (s : string) : option (list ascii) :=
  match s with
  | EmptyString => None
  | String c s' =>
      if is_digit c then Some (fst (span_digits s)) else match_digits s'
  end.

Fixpoint starts_with (p s : string) : bool :=
  match p, s with
  | EmptyString, _ => true
  | String a p', String b s' => andb (Ascii.eqb a b) (starts_with p' s')
  | String _ _, EmptyString => false
  end.

(** One attempt of [/(\d+)\s+Días/] at the head of [s].  Digits and
    white space are disjoint classes, so the greedy match is the only
    candidate. *)
Definition match_dias_here (s : string) : option (list ascii) :=
  let '(ds, r) := span_digits s in
  match ds, r with
  | _ :: _, String c _ =>
      if andb (is_space c) (starts_with "Días" (drop_spaces r))
      then Some ds else None
  | _, _ => None
  end.

(** [s.match(/(\d+)\s+Días/)]: capture group 1 of the leftmost match. *)
Fixpoint match_dias (s : string) : option (list ascii) :=
  match match_dias_here s with
  | Some ds => Some ds
  | None =>
      match s with
      | EmptyString => None
      | String _ s' => match_dias s'
      end
  end.

End Js.

(** ** Money *)

Local Open Scope Q_scope.

(** [parseFloat(x.toFixed(2))]: the nearest multiple of 0.01, a tie going
    away from zero. *)
Definition round2_nonneg (x : Q) : Q :=
  Qmake (Qfloor (x * 100 + (1 # 2))) 100.

Definition round2 (x : Q) : Q :=
  if Qlt_le_dec x 0 then - round2_nonneg (- x) else round2_nonneg x.

(** *** binary64

    The value of a decimal literal, and the result of an arithmetic
    operation on doubles, is the exact result rounded to the nearest
    double, a tie going to the even significand. *)

(** [2 ^ e] for an integer [e] of either sign. *)
Definition pow2 (e : Z) : Q :=
  if (0 <=? e)%Z then inject_Z (2 ^ e) else 1 # Z.to_pos (2 ^ (- e)).

(** The nearest integer, a tie going to the even one. *)
Definition rne (x : Q) : Z :=
  let f := Qfloor x in
  match Qcompare (x - inject_Z f) (1 # 2) with
  | Lt => f
  | Gt => (f + 1)%Z
  | Eq => if Z.even f then f else (f + 1)%Z
  end.

(** For [x > 0], the exponent [e] with [2 ^ e <= x < 2 ^ (e + 1)]. *)
Definition binade (x : Q) : Z :=
  let e0 := (Z.log2 (Qnum x) - Z.log2 (Zpos (Qden x)))%Z in
  if Qle_bool (pow2 e0) x then e0 else (e0 - 1)%Z.

(** For [x > 0]: 53 significant bits, the unit in the last place never
    below [2 ^ -1074]. *)
Definition to_double_pos (x : Q) : Q :=
  let q := Z.max (binade x - 52) (-1074) in
  inject_Z (rne (x / pow2 q)) * pow2 q.

(** The double nearest to [x]. *)
Definition to_double (x : Q) : Q :=
  match Qnum x with
  | Z0 => 0
  | Zpos _ => to_double_pos x
  | Zneg _ => - to_double_pos (- x)
  end.

(** Comparisons of the handlers, as booleans. *)
Definition Qltb (a b : Q) : bool :=
  match a ?= b with Lt => true | _ => false end.

Definition Qgtb (a b : Q) : bool := Qltb b a.

Definition Qleb (a b : Q) : bool := negb (Qltb b a).

(** ** Data model *)

(** The JSON document stored in [product_stock.data].  [sd_quantity] is
    what [parseInt(data.quantity)] returns, [None] standing for [NaN]. *)
Record stock_data : Type := {
  sd_status : option string;
  sd_quantity : option Z;
  price_sold_per_unit : option Q;
  sd_payload : string
}.

(** An element of [credentialsList]: [{ stockId, productId, ...data }]. *)
Record credential : Type := {
  stockId : Z;
  c_productId : Z;
  c_data : stock_data
}.

(** The [details] document of a ledger entry. *)
Record details : Type := {
  d_productName : option string;
  d_provider : option string;
  d_duration : option string;
  d_purchaseDate : option Z;
  d_expirationDate : option Z;
  fullCredentials : option (list credential);
  d_delivery : option string;
  d_quantity : option Z;
  d_cost : option Q;
  supportMessage : option string;
  supportDate : option Z;
  refundDate : option Z;
  refundAmount : option Q;
  isRenovation : bool;
  d_planType : option string
}.

(** [{}] *)
Definition empty_details : details :=
  {| d_productName := None; d_provider := None; d_duration := None;
     d_purchaseDate := None; d_expirationDate := None;
     fullCredentials := None; d_delivery := None; d_quantity := None;
     d_cost := None; supportMessage := None; supportDate := None;
     refundDate := None; refundAmount := None; isRenovation := false;
     d_planType := None |}.

(** An entry of [transactions_history]. *)
Record transaction : Type := {
  tx_id : Js.id;
  orderCode : option string;
  tx_type : string;
  tx_status : string;
  tx_amount : Q;
  tx_details : option details;
  isCommission : bool;
  isRefund : bool;
  isWithdrawal : bool;
  isWithdrawalRefund : bool;
  isRenewal : bool;
  sourceUser : option string;
  targetUser : option string;
  originalAmount : option Q;
  buyerUserId : option Z;
  buyerTransactionId : Js.id
}.

(** A ledger entry with the five fields every creator sets and nothing
    else. *)
Definition plain_tx (i : Js.id) (ty st : string) (a : Q) : transaction :=
  {| tx_id := i; orderCode := None; tx_type := ty; tx_status := st;
     tx_amount := a; tx_details := None; isCommission := false;
     isRefund := false; isWithdrawal := false; isWithdrawalRefund := false;
     isRenewal := false; sourceUser := None; targetUser := None;
     originalAmount := None; buyerUserId := None;
     buyerTransactionId := Js.IdNone |}.

Definition with_status (st : string) (t : transaction) : transaction :=
  {| tx_id := tx_id t; orderCode := orderCode t; tx_type := tx_type t;
     tx_status := st; tx_amount := tx_amount t; tx_details := tx_details t;
     isCommission := isCommission t; isRefund := isRefund t;
     isWithdrawal := isWithdrawal t;
     isWithdrawalRefund := isWithdrawalRefund t; isRenewal := isRenewal t;
     sourceUser := sourceUser t; targetUser := targetUser t;
     originalAmount := originalAmount t; buyerUserId := buyerUserId t;
     buyerTransactionId := buyerTransactionId t |}.

Definition with_details (d : option details) (t : transaction) : transaction :=
  {| tx_id := tx_id t; orderCode := orderCode t; tx_type := tx_type t;
     tx_status := tx_status t; tx_amount := tx_amount t; tx_details := d;
     isCommission := isCommission t; isRefund := isRefund t;
     isWithdrawal := isWithdrawal t;
     isWithdrawalRefund := isWithdrawalRefund t; isRenewal := isRenewal t;
     sourceUser := sourceUser t; targetUser := targetUser t;
     originalAmount := originalAmount t; buyerUserId := buyerUserId t;
     buyerTransactionId := buyerTransactionId t |}.

Definition with_orderCode (c : option string) (t : transaction) : transaction :=
  {| tx_id := tx_id t; orderCode := c; tx_type := tx_type t;
     tx_status := tx_status t; tx_amount := tx_amount t;
     tx_details := tx_details t;
     isCommission := isCommission t; isRefund := isRefund t;
     isWithdrawal := isWithdrawal t;
     isWithdrawalRefund := isWithdrawalRefund t; isRenewal := isRenewal t;
     sourceUser := sourceUser t; targetUser := targetUser t;
     originalAmount := originalAmount t; buyerUserId := buyerUserId t;
     buyerTransactionId := buyerTransactionId t |}.

(** Rows of the tables. *)
Record user : Type := {
  u_id : Z;
  username : string;
  balance : Q;
  role : string;
  referred_by_user_id : option Z;
  premium_expires_at : option Z;
  transactions_history : list transaction
}.

Record product : Type := {
  p_id : Z;
  p_name : string;
  p_platform : string;
  stock : Z;
  creator_user_id : Z;
  p_duration : option string;
  p_delivery : option string;
  p_provider : option string
}.

Record stock_row : Type := {
  ps_id : Z;
  product_id : Z;
  provider_user_id : Z;
  data : stock_data;
  is_sold : bool;
  sold_to_user_id : option Z
}.

Record withdrawal : Type := {
  w_id : Z;
  w_user_id : Z;
  amount_original : Q;
  amount_final : Q;
  w_status : string
}.

Record order : Type := {
  purchase_id : Js.id;
  buyer_user_id : Z;
  o_provider_user_id : Z;
  o_product_id : Z;
  o_quantity : Z;
  total_price : Q
}.

(** The store.  [next_stock_id] and [next_withdrawal_id] are the rowids
    the next [INSERT] receives; [withdrawal_fee] is the
    [settings] row of that key, parsed. *)
Record db : Type := {
  users : list user;
  products : list product;
  product_stock : list stock_row;
  withdrawals : list withdrawal;
  orders : list order;
  withdrawal_fee : option Q;
  next_stock_id : Z;
  next_withdrawal_id : Z
}.

Definition set_users (us : list user) (s : db) : db :=
  {| users := us; products := products s; product_stock := product_stock s;
     withdrawals := withdrawals s; orders := orders s;
     withdrawal_fee := withdrawal_fee s; next_stock_id := next_stock_id s;
     next_withdrawal_id := next_withdrawal_id s |}.

Definition set_products (ps : list product) (s : db) : db :=
  {| users := users s; products := ps; product_stock := product_stock s;
     withdrawals := withdrawals s; orders := orders s;
     withdrawal_fee := withdrawal_fee s; next_stock_id := next_stock_id s;
     next_withdrawal_id := next_withdrawal_id s |}.

Definition set_product_stock (rs : list stock_row) (nxt : Z) (s : db) : db :=
  {| users := users s; products := products s; product_stock := rs;
     withdrawals := withdrawals s; orders := orders s;
     withdrawal_fee := withdrawal_fee s; next_stock_id := nxt;
     next_withdrawal_id := next_withdrawal_id s |}.

Definition set_withdrawals (ws : list withdrawal) (nxt : Z) (s : db) : db :=
  {| users := users s; products := products s;
     product_stock := product_stock s; withdrawals := ws; orders := orders s;
     withdrawal_fee := withdrawal_fee s; next_stock_id := next_stock_id s;
     next_withdrawal_id := nxt |}.

Definition set_orders (os : list order) (s : db) : db :=
  {| users := users s; products := products s;
     product_stock := product_stock s; withdrawals := withdrawals s;
     orders := os; withdrawal_fee := withdrawal_fee s;
     next_stock_id := next_stock_id s;
     next_withdrawal_id := next_withdrawal_id s |}.

(** What the host clock gives a handler: [Date.now()] and the instant of
    local midnight of the current day (the day [toLocaleDateString]
    prints). *)
Record clock : Type := {
  now : Z;
  today : Z
}.

(** Responses.  The error names are those of the specification's
    taxonomy; the number is the HTTP status that [res.status] receives. *)
Inductive error : Type :=
| NotFound
| InvalidInput
| InsufficientBalance
| InsufficientStock
| DuplicateRequest
| AlreadyProcessed
| NothingToRefund
| InternalError.

Inductive response (A : Type) : Type :=
| Ok (a : A)
| Fail (http : Z) (e : error).

Arguments Ok {A} a.
Arguments Fail {A} http e.

(** ** SQL statements on the tables *)

Definition find_user (uid : Z) (s : db) : option user :=
  find (fun u => Z.eqb (u_id u) uid) (users s).

(** [UPDATE users SET balance = ?, transactions_history = ? WHERE id = ?] *)
Definition write_ledger (b : Q) (h : list transaction) (u : user) : user :=
  {| u_id := u_id u; username := username u; balance := b; role := role u;
     referred_by_user_id := referred_by_user_id u;
     premium_expires_at := premium_expires_at u;
     transactions_history := h |}.

Definition update_user (uid : Z) (f : user -> user) (s : db) : db :=
  set_users (map (fun u => if Z.eqb (u_id u) uid then f u else u) (users s)) s.

Definition set_balance_history (uid : Z) (b : Q) (h : list transaction)
    (s : db) : db :=
  update_user uid (write_ledger b h) s.

(** [UPDATE users SET transactions_history = ? WHERE id = ?] *)
Definition set_history (uid : Z) (h : list transaction) (s : db) : db :=
  update_user uid (fun u => write_ledger (balance u) h u) s.

(** [UPDATE users SET balance = ? WHERE id = ?] *)
Definition set_balance (uid : Z) (b : Q) (s : db) : db :=
  update_user uid (fun u => write_ledger b (transactions_history u) u) s.

(** [UPDATE users SET balance = balance + ? WHERE id = ?] *)
Definition add_balance (uid : Z) (a : Q) (s : db) : db :=
  update_user uid
    (fun u => write_ledger (balance u + a) (transactions_history u) u) s.

Definition with_stock (n : Z) (p : product) : product :=
  {| p_id := p_id p; p_name := p_name p; p_platform := p_platform p;
     stock := n; creator_user_id := creator_user_id p;
     p_duration := p_duration p; p_delivery := p_delivery p;
     p_provider := p_provider p |}.

Definition update_product (pid : Z) (f : product -> product) (s : db) : db :=
  set_products
    (map (fun p => if Z.eqb (p_id p) pid then f p else p) (products s)) s.

Definition update_stock_rows (sel : stock_row -> bool)
    (f : stock_row -> stock_row) (s : db) : db :=
  set_product_stock
    (map (fun r => if sel r then f r else r) (product_stock s))
    (next_stock_id s) s.

(** [INSERT INTO product_stock ...]: the row takes the next rowid and goes
    to the end of the table. *)
Definition insert_stock (mk : Z -> stock_row) (s : db) : db :=
  set_product_stock (product_stock s ++ [mk (next_stock_id s)])
    (next_stock_id s + 1)%Z s.

(** ** Stock pool *)

(** [data.status === 'Sin publicar'] *)
Definition unpublished (d : stock_data) : bool :=
  match sd_status d with
  | Some st => String.eqb st "Sin publicar"
  | None => false
  end.

(** [parseInt(data.quantity) || 1] *)
Definition availableInRow (d : stock_data) : Z :=
  match sd_quantity d with
  | Some q => if Z.eqb q 0 then 1%Z else q
  | None => 1%Z
  end.

(** [SELECT id, data FROM product_stock WHERE product_id = ? AND is_sold = 0] *)
Definition unsold_rows (pid : Z) (s : db) : list stock_row :=
  filter (fun r => andb (Z.eqb (product_id r) pid) (negb (is_sold r)))
    (product_stock s).

(** The sum [updateProductStock] accumulates in [realStockCount]. *)
Fixpoint realStockCount (rows : list stock_row) : Z :=
  match rows with
  | [] => 0%Z
  | r :: rest =>
      ((if unpublished (data r) then 0 else availableInRow (data r))
       + realStockCount rest)%Z
  end.

(** [updateProductStock(productId)]: recompute the visible counter from
    the pool. *)
Definition updateProductStock (productId : Z) (s : db) : db :=
  update_product productId
    (with_stock (realStockCount (unsold_rows productId s))) s.

(** ** POST /user/purchase *)

Record purchase_req : Type := {
  pr_userId : Z;
  pr_productName : string;
  pr_amount : Q;
  pr_platform : string;
  pr_quantity : Z;
  pr_delivery : option string;
  pr_finalPricePerUnit : option Q;
  pr_planType : option string
}.

Definition with_quantity (q : Z) (d : stock_data) : stock_data :=
  {| sd_status := sd_status d; sd_quantity := Some q;
     price_sold_per_unit := price_sold_per_unit d;
     sd_payload := sd_payload d |}.

Definition with_price_sold (p : option Q) (d : stock_data) : stock_data :=
  {| sd_status := sd_status d; sd_quantity := sd_quantity d;
     price_sold_per_unit := p; sd_payload := sd_payload d |}.

Definition with_data (d : stock_data) (r : stock_row) : stock_row :=
  {| ps_id := ps_id r; product_id := product_id r;
     provider_user_id := provider_user_id r; data := d;
     is_sold := is_sold r; sold_to_user_id := sold_to_user_id r |}.

(** [SET is_sold = 1, sold_to_user_id = ?, data = ?] *)
Definition mark_sold (buyer : Z) (d : stock_data) (r : stock_row) : stock_row :=
  {| ps_id := ps_id r; product_id := product_id r;
     provider_user_id := provider_user_id r; data := d;
     is_sold := true; sold_to_user_id := Some buyer |}.

(** [SET is_sold = 0, sold_to_user_id = NULL] *)
Definition mark_unsold (r : stock_row) : stock_row :=
  {| ps_id := ps_id r; product_id := product_id r;
     provider_user_id := provider_user_id r; data := data r;
     is_sold := false; sold_to_user_id := None |}.

(** The inner [for (k = 0; k < needed; k++)]: one sold copy per unit. *)
Fixpoint insert_sold_copies (k : nat) (productId providerId buyer : Z)
    (soldCopy : stock_data) (s : db) (credentialsList : list credential)
    : db * list credential :=
  match k with
  | O => (s, credentialsList)
  | S k' =>
      let rid := next_stock_id s in
      let s' := insert_stock
                  (fun i => {| ps_id := i; product_id := productId;
                               provider_user_id := providerId;
                               data := soldCopy; is_sold := true;
                               sold_to_user_id := Some buyer |}) s in
      insert_sold_copies k' productId providerId buyer soldCopy s'
        (credentialsList
           ++ [{| stockId := rid; c_productId := productId;
                  c_data := soldCopy |}])
  end.

(** The allocation loop over [allStock.rows].  Every
    [updatesToExecute.push(client.execute(...))] calls [client.execute]
    when the element is built, so the [UPDATE] is applied there;
    [Promise.all] only waits for it. *)
Fixpoint allocate (rows : list stock_row) (numericQty : Z)
    (productId providerId buyer : Z) (price : option Q)
    (collectedCount : Z) (s : db) (credentialsList : list credential)
    : Z * db * list credential :=
  match rows with
  | [] => (collectedCount, s, credentialsList)
  | row :: rest =>
      if (collectedCount >=? numericQty)%Z then (collectedCount, s, credentialsList)
      else if unpublished (data row) then
        allocate rest numericQty productId providerId buyer price
          collectedCount s credentialsList
      else
        let needed := (numericQty - collectedCount)%Z in
        if (availableInRow (data row) >? needed)%Z then
          let updatedData :=
            with_quantity (availableInRow (data row) - needed) (data row) in
          let s1 := update_stock_rows (fun r => Z.eqb (ps_id r) (ps_id row))
                      (with_data updatedData) s in
          let soldCopy := with_price_sold price (with_quantity 1 (data row)) in
          let '(s2, creds) :=
            insert_sold_copies (Z.to_nat needed) productId providerId buyer
              soldCopy s1 credentialsList in
          allocate rest numericQty productId providerId buyer price
            (collectedCount + needed) s2 creds
        else
          let soldData := with_price_sold price (data row) in
          let s1 := update_stock_rows (fun r => Z.eqb (ps_id r) (ps_id row))
                      (mark_sold buyer soldData) s in
          allocate rest numericQty productId providerId buyer price
            (collectedCount + availableInRow (data row)) s1
            (credentialsList
               ++ [{| stockId := ps_id row; c_productId := productId;
                      c_data := soldData |}])
  end.

(** [SELECT ... FROM products WHERE name = ? AND platform = ? LIMIT 1] *)
Definition find_product (name platform_ : string) (s : db) : option product :=
  find (fun p => andb (String.eqb (p_name p) name)
                      (String.eqb (p_platform p) platform_)) (products s).

(** [product.duration.match(/\d+/)] and [parseInt(durationMatch[0])]. *)
Definition durationDays (durationStr : string) : Z :=
  match Js.match_digits durationStr with
  | Some ds => Js.parseInt_digits 10 ds
  | None => 30%Z
  end.

Definition oneDay : Z := (1000 * 60 * 60 * 24)%Z.

Definition str_is (o : option string) (v : string) : bool :=
  match o with
  | Some x => String.eqb x v
  | None => false
  end.

(** The handler.  [ordCode] is the six random characters of the buyer's
    [#ORD-] transaction id.  The answers are, in the order of the source:
    400 "Datos incompletos", 404 user, 400 "Saldo insuficiente", 404
    product, 409 "Stock insuficiente", 500 from the [catch]. *)
Definition user_purchase (clk : clock) (ordCode : string) (req : purchase_req)
    (s : db) : response (list credential) * db :=
  let numericUserId := pr_userId req in
  let numericQty := pr_quantity req in
  let numericAmount := pr_amount req in
  if orb (Z.eqb numericUserId 0) (String.eqb (pr_productName req) "")
  then (Fail 400 InvalidInput, s)
  else
  match find_user numericUserId s with
  | None => (Fail 404 NotFound, s)
  | Some user_ =>
  if Qltb (balance user_) numericAmount
  then (Fail 400 InsufficientBalance, s)
  else
  match find_product (pr_productName req) (pr_platform req) s with
  | None => (Fail 404 NotFound, s)
  | Some product_ =>
  let productId := p_id product_ in
  let providerId := creator_user_id product_ in
  let isOrderRequest :=
    orb (str_is (pr_delivery req) "A pedido")
        (str_is (p_delivery product_) "A pedido") in
  let '(collectedCount, s1, credentialsList) :=
    allocate (unsold_rows productId s) numericQty productId providerId
      numericUserId (pr_finalPricePerUnit req) 0 s [] in
  if (collectedCount <? numericQty)%Z
  then (Fail 409 InsufficientStock, s1)
  else
  let s2 := update_product productId
              (fun p => with_stock (stock p - numericQty) p) s1 in
  let buyerNewBalance := balance user_ - numericAmount in
  let transactionId := Js.IdStr ("#ORD-" ++ ordCode) in
  match p_duration product_ with
  | None => (Fail 500 InternalError, s2)
  | Some durationStr =>
  let expDate := (now clk + durationDays durationStr * oneDay)%Z in
  let newBuyerTransaction :=
    with_details
      (Some {| d_productName := Some (pr_productName req);
               d_provider := p_provider product_;
               d_duration := Some durationStr;
               d_purchaseDate := Some (today clk);
               d_expirationDate := Some expDate;
               fullCredentials := Some credentialsList;
               d_delivery :=
                 Some (if isOrderRequest then "A pedido" else "Autoentrega");
               d_quantity := Some numericQty;
               d_cost := Some numericAmount;
               supportMessage := None; supportDate := None;
               refundDate := None; refundAmount := None;
               isRenovation := false;
               d_planType := pr_planType req |})
      (plain_tx transactionId "debit" "Completada" numericAmount) in
  let s3 := set_balance_history numericUserId buyerNewBalance
              (newBuyerTransaction :: transactions_history user_) s2 in
  match find_user providerId s3 with
  | None => (Fail 500 InternalError, s3)
  | Some providerData =>
  let providerNewBalance := balance providerData + numericAmount in
  let newProviderTransaction :=
    {| tx_id := Js.IdNum (now clk); orderCode := None; tx_type := "credit";
       tx_status := "Completada"; tx_amount := numericAmount;
       tx_details := None; isCommission := true; isRefund := false;
       isWithdrawal := false; isWithdrawalRefund := false;
       isRenewal := false; sourceUser := Some (username user_);
       targetUser := None; originalAmount := Some numericAmount;
       buyerUserId := Some numericUserId;
       buyerTransactionId := transactionId |} in
  let s4 := set_balance_history providerId providerNewBalance
              (newProviderTransaction :: transactions_history providerData)
              s3 in
  let s5 :=
    if isOrderRequest
    then set_orders
           (orders s4
              ++ [{| purchase_id := transactionId;
                     buyer_user_id := numericUserId;
                     o_provider_user_id := providerId;
                     o_product_id := productId; o_quantity := numericQty;
                     total_price := numericAmount |}]) s4
    else s4 in
  (Ok credentialsList, s5)
  end end end end.

(** ** POST /admin/transaction/approve and /admin/transaction/reject *)

(** [tx.id === transactionId && tx.status === 'Pendiente'] *)
Definition pending_match (transactionId : Js.id) (t : transaction) : bool :=
  andb (Js.strict_eq (tx_id t) transactionId)
       (String.eqb (tx_status t) "Pendiente").

(** [history.some(tx => tx.status === 'Completada' && tx.type === 'credit')] *)
Definition hasPreviousRecharges (history : list transaction) : bool :=
  existsb (fun t => andb (String.eqb (tx_status t) "Completada")
                         (String.eqb (tx_type t) "credit")) history.

(** The [history.map] of the approval with the two variables its callback
    assigns: the result is [(updatedHistory, transactionFound,
    amountToAdd)]; [amountToAdd] keeps the amount of the last match. *)
Fixpoint approve_map (transactionId : Js.id) (history : list transaction)
    (transactionFound : bool) (amountToAdd : Q)
    : list transaction * bool * Q :=
  match history with
  | [] => ([], transactionFound, amountToAdd)
  | t :: rest =>
      if pending_match transactionId t then
        let '(h, f, a) := approve_map transactionId rest true (tx_amount t) in
        (with_status "Completada" t :: h, f, a)
      else
        let '(h, f, a) :=
          approve_map transactionId rest transactionFound amountToAdd in
        (t :: h, f, a)
  end.

(** The role table of the commission; [0.15] and [0.10] are the doubles
    these literals denote. *)
Definition commissionRate (referrerRole : string) : Q :=
  if String.eqb referrerRole "Distribuidor Premium" then to_double (15 # 100)
  else if orb (String.eqb referrerRole "distribuidor")
              (String.eqb referrerRole "proveedor") then to_double (10 # 100)
  else 0.

(** [referrerId && ...]: a stored id that is neither NULL nor 0. *)
Definition truthy_ref (r : option Z) : option Z :=
  match r with
  | Some i => if Z.eqb i 0 then None else Some i
  | None => None
  end.

Definition commission_tx (clk : clock) (commission amountToAdd : Q)
    (sourceName : string) : transaction :=
  {| tx_id := Js.IdNum (now clk + 1); orderCode := None; tx_type := "credit";
     tx_status := "Completada"; tx_amount := commission; tx_details := None;
     isCommission := true; isRefund := false; isWithdrawal := false;
     isWithdrawalRefund := false; isRenewal := false;
     sourceUser := Some sourceName; targetUser := None;
     originalAmount := Some amountToAdd; buyerUserId := None;
     buyerTransactionId := Js.IdNone |}.

(** Step 4 of the approval: the commission of the referrer.  [amountToAdd]
    is the double [JSON.parse] made of the amount, and
    [amountToAdd * commissionRate] is a product of doubles. *)
Definition pay_commission (clk : clock) (referrerId : Z) (amountToAdd : Q)
    (sourceName : string) (s : db) : db :=
  match find_user referrerId s with
  | None => s
  | Some referrer =>
      let commission :=
        round2 (to_double (to_double amountToAdd
                           * commissionRate (role referrer))) in
      if Qgtb commission 0 then
        set_balance_history referrerId (balance referrer + commission)
          (commission_tx clk commission amountToAdd sourceName
             :: transactions_history referrer) s
      else s
  end.

Definition admin_transaction_approve (clk : clock) (userId : Z)
    (transactionId : Js.id) (s : db) : response unit * db :=
  match find_user userId s with
  | None => (Fail 404 NotFound, s)
  | Some user_ =>
      let history := transactions_history user_ in
      let isFirstRecharge := negb (hasPreviousRecharges history) in
      let '(updatedHistory, transactionFound, amountToAdd) :=
        approve_map transactionId history false 0 in
      if negb transactionFound then (Fail 404 NotFound, s)
      else
        let newBalance := balance user_ + amountToAdd in
        let s1 := set_balance_history userId newBalance updatedHistory s in
        let s2 :=
          match truthy_ref (referred_by_user_id user_) with
          | Some referrerId =>
              if isFirstRecharge
              then pay_commission clk referrerId amountToAdd (username user_) s1
              else s1
          | None => s1
          end in
        (Ok tt, s2)
  end.

Definition admin_transaction_reject (userId : Z) (transactionId : Js.id)
    (s : db) : response unit * db :=
  match find_user userId s with
  | None => (Fail 404 NotFound, s)
  | Some user_ =>
      let history := transactions_history user_ in
      if negb (existsb (pending_match transactionId) history)
      then (Fail 404 NotFound, s)
      else
        (Ok tt,
         set_history userId
           (map (fun t => if pending_match transactionId t
                          then with_status "Rechazada" t else t) history) s)
  end.

(** ** POST /user/send-to-support *)

Definition nonblank (o : option string) : bool :=
  match o with
  | Some c => negb (String.eqb (Js.trim c) "")
  | None => false
  end.

(** [ensureOrderCode(tx)].  [base.toString(36)] is applied to a string, so
    it returns [base]; [rnd] is what the [Math.random()] branch yields. *)
Definition ensureOrderCode (rnd : string) (t : transaction) : transaction :=
  if nonblank (orderCode t) then t
  else
    let base := Js.trim (Js.String_or_empty (tx_id t)) in
    let code :=
      if String.eqb base "" then "#ORD-" ++ rnd
      else "#ORD-" ++ Js.toUpperCase (Js.slice_last6 base) in
    with_orderCode (Some code) t.

(** The test [match] of the loop, on the entry [ensureOrderCode] returned. *)
Definition support_match (incoming : string) (t : transaction) : bool :=
  let txIdStr := Js.trim (Js.String_or_empty (tx_id t)) in
  let txCodeStr :=
    Js.trim (match orderCode t with Some c => c | None => "" end) in
  orb (andb (negb (String.eqb txIdStr "")) (String.eqb txIdStr incoming))
      (andb (negb (String.eqb txCodeStr "")) (String.eqb txCodeStr incoming)).

Definition with_provider (p : option string) (d : details) : details :=
  {| d_productName := d_productName d; d_provider := p;
     d_duration := d_duration d; d_purchaseDate := d_purchaseDate d;
     d_expirationDate := d_expirationDate d;
     fullCredentials := fullCredentials d; d_delivery := d_delivery d;
     d_quantity := d_quantity d; d_cost := d_cost d;
     supportMessage := supportMessage d; supportDate := supportDate d;
     refundDate := refundDate d; refundAmount := refundAmount d;
     isRenovation := isRenovation d; d_planType := d_planType d |}.

Definition with_support (m : option string) (dt : option Z) (d : details)
    : details :=
  {| d_productName := d_productName d; d_provider := d_provider d;
     d_duration := d_duration d; d_purchaseDate := d_purchaseDate d;
     d_expirationDate := d_expirationDate d;
     fullCredentials := fullCredentials d; d_delivery := d_delivery d;
     d_quantity := d_quantity d; d_cost := d_cost d;
     supportMessage := m; supportDate := dt;
     refundDate := refundDate d; refundAmount := refundAmount d;
     isRenovation := isRenovation d; d_planType := d_planType d |}.

(** A string that is present and not empty. *)
Definition truthy_str (o : option string) : option string :=
  match o with
  | Some x => if String.eqb x "" then None else Some x
  | None => None
  end.

Definition user_exists (uid : Z) (s : db) : bool :=
  match find_user uid s with
  | Some _ => true
  | None => false
  end.

(** The provider name the auto-repair looks up: through the first
    credential's stock row joined with its provider, else through the
    first product of that name joined with its creator. *)
Definition currentRealProvider (s : db) (d : details) : option string :=
  let byStock :=
    match fullCredentials d with
    | Some (cred :: _) =>
        if Z.eqb (stockId cred) 0 then None
        else
          match find (fun r => andb (Z.eqb (ps_id r) (stockId cred))
                                    (user_exists (provider_user_id r) s))
                  (product_stock s) with
          | Some r => option_map username (find_user (provider_user_id r) s)
          | None => None
          end
    | _ => None
    end in
  match truthy_str byStock with
  | Some n => Some n
  | None =>
      match truthy_str (d_productName d) with
      | Some name =>
          match find (fun p => andb (String.eqb (p_name p) name)
                                    (user_exists (creator_user_id p) s))
                  (products s) with
          | Some p =>
              truthy_str
                (option_map username (find_user (creator_user_id p) s))
          | None => None
          end
      | None => None
      end
  end.

(** What the loop body does to the matching entry. *)
Definition open_ticket (clk : clock) (s : db) (message : string)
    (t : transaction) : transaction :=
  let d0 := tx_details t in
  let d1 :=
    match d0 with
    | Some d =>
        match currentRealProvider s d with
        | Some n => with_provider (Some n) d
        | None => d
        end
    | None => empty_details
    end in
  with_details (Some (with_support (Some message) (Some (today clk)) d1))
    (with_status "Soporte" t).

(** The [for] loop: the first entry that matches is rewritten, and the
    loop stops. *)
Fixpoint support_loop (clk : clock) (s : db) (rnd message incoming : string)
    (history : list transaction) : option (list transaction) :=
  match history with
  | [] => None
  | t :: rest =>
      let t' := ensureOrderCode rnd t in
      if support_match incoming t'
      then Some (open_ticket clk s message t' :: rest)
      else option_map (cons t)
             (support_loop clk s rnd message incoming rest)
  end.

Definition user_send_to_support (clk : clock) (rnd : string) (userId : Z)
    (transactionId : Js.id) (message : string) (s : db)
    : response unit * db :=
  if orb (Z.eqb userId 0)
         (orb (negb (Js.truthy transactionId)) (String.eqb message ""))
  then (Fail 400 InvalidInput, s)
  else
    match find_user userId s with
    | None => (Fail 404 NotFound, s)
    | Some user_ =>
        let incoming := Js.trim (Js.String_ transactionId) in
        match support_loop clk s rnd message incoming
                (transactions_history user_) with
        | None => (Fail 404 NotFound, s)
        | Some history => (Ok tt, set_history userId history s)
        end
    end.

(** ** POST /supplier/handle-support *)

(** [tx.id === purchaseId && tx.status === 'Soporte'] *)
Definition in_support (purchaseId : Js.id) (t : transaction) : bool :=
  andb (Js.strict_eq (tx_id t) purchaseId)
       (String.eqb (tx_status t) "Soporte").

(** The scan of all users for the ticket: the first user whose history
    holds an entry in support with that id, and that entry. *)
Fixpoint find_ticket (purchaseId : Js.id) (us : list user)
    : option (user * transaction) :=
  match us with
  | [] => None
  | u :: rest =>
      match find (in_support purchaseId) (transactions_history u) with
      | Some t => Some (u, t)
      | None => find_ticket purchaseId rest
      end
  end.

(** [updateTransaction(tx)] *)
Definition updateTransaction (purchaseId : Js.id) (newStatus : string)
    (t : transaction) : transaction :=
  if Js.strict_eq (tx_id t) purchaseId then
    with_details
      (Some (with_support None None
               (match tx_details t with Some d => d | None => empty_details end)))
      (with_status newStatus t)
  else t.

(** Days of the subscription as the refund reads them from the label:
    [durationStr.match(/(\d+)\s+Días/)], [parseInt(durationMatch[1], 16)],
    30 when the label is absent or does not match. *)
Definition totalDays (durationStr : option string) : Z :=
  match truthy_str durationStr with
  | Some d =>
      match Js.match_dias d with
      | Some ds => Js.parseInt_digits 16 ds
      | None => 30%Z
      end
  | None => 30%Z
  end.

Definition safeTotalDays (durationStr : option string) : Z :=
  Z.max 1 (totalDays durationStr).

(** [Math.floor(diffTime / oneDay)] *)
Definition daysUsed (clk : clock) (purchasedDate : Z) : Z :=
  ((now clk - purchasedDate) / oneDay)%Z.

Definition daysRemaining (clk : clock) (durationStr : option string)
    (purchasedDate : Z) : Z :=
  Z.max 0 (safeTotalDays durationStr - daysUsed clk purchasedDate).

(** [amountToRefund], after the rounding to two decimals. *)
Definition amountToRefund (clk : clock) (totalAmountPaid : Q)
    (durationStr : option string) (purchasedDate : Z) : Q :=
  let costPerDay := totalAmountPaid / inject_Z (safeTotalDays durationStr) in
  round2 (inject_Z (daysRemaining clk durationStr purchasedDate) * costPerDay).

(** Step d of the refund: give the stock rows back and raise the
    counter. *)
Definition restore_stock (d : details) (s : db) : db :=
  match fullCredentials d with
  | Some (c :: cs) =>
      if str_is (d_delivery d) "A pedido" then s
      else
        let creds := c :: cs in
        let stockIds :=
          filter (fun i => negb (Z.eqb i 0)) (map stockId creds) in
        match stockIds with
        | [] => s
        | _ :: _ =>
            let s1 :=
              update_stock_rows
                (fun r => existsb (Z.eqb (ps_id r)) stockIds) mark_unsold s in
            match find (fun p => str_is (d_productName d) (p_name p))
                    (products s1) with
            | Some p =>
                if Z.eqb (p_id p) 0 then s1
                else
                  update_product (p_id p)
                    (fun q => with_stock (stock q + Z.of_nat (List.length creds)) q)
                    s1
            | None => s1
            end
        end
  | _ => s
  end.

Definition refund_tx (clk : clock) (a : Q) : transaction :=
  plain_tx (Js.IdNum (now clk)) "credit" "Completada" a.

(** The handler.  Answers: 400 missing fields, 404 no ticket in support,
    400 "No hay monto para devolver" ([NothingToRefund]), 500 when the
    ticket has no [details] or no purchase date to split. *)
Definition supplier_handle_support (clk : clock) (purchaseId : Js.id)
    (action : string) (s : db) : response unit * db :=
  if orb (negb (Js.truthy purchaseId)) (String.eqb action "")
  then (Fail 400 InvalidInput, s)
  else
    match find_ticket purchaseId (users s) with
    | None => (Fail 404 NotFound, s)
    | Some (target, targetTx) =>
        let targetUserId := u_id target in
        let userHistory := transactions_history target in
        if Z.eqb targetUserId 0 then (Fail 404 NotFound, s)
        else if String.eqb action "refund" then
          match tx_details targetTx with
          | None => (Fail 500 InternalError, s)
          | Some d =>
              match d_purchaseDate d with
              | None => (Fail 500 InternalError, s)
              | Some purchasedDate =>
                  let amount :=
                    amountToRefund clk (tx_amount targetTx) (d_duration d)
                      purchasedDate in
                  if Qleb amount 0 then (Fail 400 NothingToRefund, s)
                  else
                    match find_user targetUserId s with
                    | None => (Fail 500 InternalError, s)
                    | Some row =>
                        let newBalance := round2 (balance row + amount) in
                        let s1 := restore_stock d s in
                        let updatedHistory :=
                          refund_tx clk amount
                            :: map (updateTransaction purchaseId "Devuelto")
                                 userHistory in
                        (Ok tt,
                         set_balance_history targetUserId newBalance
                           updatedHistory s1)
                    end
              end
          end
        else
          (Ok tt,
           set_history targetUserId
             (map (updateTransaction purchaseId "Completada") userHistory) s)
    end.

(** ** POST /supplier/refund/proportional *)

(** [String(tx.id) === String(id) && tx.type === 'debit'] *)
Definition debit_match (i : Js.id) (t : transaction) : bool :=
  andb (String.eqb (Js.String_ (tx_id t)) (Js.String_ i))
       (String.eqb (tx_type t) "debit").

Definition with_refund (dt : Z) (a : Q) (d : details) : details :=
  {| d_productName := d_productName d; d_provider := d_provider d;
     d_duration := d_duration d; d_purchaseDate := d_purchaseDate d;
     d_expirationDate := d_expirationDate d;
     fullCredentials := fullCredentials d; d_delivery := d_delivery d;
     d_quantity := d_quantity d; d_cost := d_cost d;
     supportMessage := supportMessage d; supportDate := supportDate d;
     refundDate := Some dt; refundAmount := Some a;
     isRenovation := isRenovation d; d_planType := d_planType d |}.

(** [buyerHistory[targetTxIndex]] marked as refunded: the first entry
    that [findIndex] accepts. *)
Fixpoint mark_refunded (clk : clock) (i : Js.id) (a : Q)
    (history : list transaction) : list transaction :=
  match history with
  | [] => []
  | t :: rest =>
      if debit_match i t then
        with_details
          (Some (with_refund (today clk) a
                   (match tx_details t with
                    | Some d => d
                    | None => empty_details
                    end)))
          (with_status "Devuelto" t) :: rest
      else t :: mark_refunded clk i a rest
  end.

Definition refund_debit_tx (clk : clock) (a : Q) (buyerName : string)
    : transaction :=
  {| tx_id := Js.IdNum (now clk); orderCode := None; tx_type := "debit";
     tx_status := "Completada"; tx_amount := a; tx_details := None;
     isCommission := false; isRefund := true; isWithdrawal := false;
     isWithdrawalRefund := false; isRenewal := false; sourceUser := None;
     targetUser := Some buyerName; originalAmount := None;
     buyerUserId := None; buyerTransactionId := Js.IdNone |}.

Definition refund_credit_tx (clk : clock) (a : Q) : transaction :=
  {| tx_id := Js.IdNum (now clk + 1); orderCode := None; tx_type := "credit";
     tx_status := "Completada"; tx_amount := a; tx_details := None;
     isCommission := false; isRefund := true; isWithdrawal := false;
     isWithdrawalRefund := false; isRenewal := false; sourceUser := None;
     targetUser := None; originalAmount := None;
     buyerUserId := None; buyerTransactionId := Js.IdNone |}.

(** The handler.  Answers: 400 invalid data, 404 buyer, 404 transaction,
    400 "ya fue reembolsada" ([AlreadyProcessed]), 500 when the provider
    row is missing, 400 "Saldo insuficiente". *)
Definition supplier_refund_proportional (clk : clock) (buyerUserId_ : Z)
    (buyerTransactionId_ : Js.id) (numericAmount : Q) (providerId : Z)
    (s : db) : response unit * db :=
  if orb (Z.eqb buyerUserId_ 0)
       (orb (negb (Js.truthy buyerTransactionId_))
          (orb (Qleb numericAmount 0) (Z.eqb providerId 0)))
  then (Fail 400 InvalidInput, s)
  else
    match find_user buyerUserId_ s with
    | None => (Fail 404 NotFound, s)
    | Some buyer =>
        let buyerHistory := transactions_history buyer in
        match find (debit_match buyerTransactionId_) buyerHistory with
        | None => (Fail 404 NotFound, s)
        | Some targetTx =>
            if String.eqb (tx_status targetTx) "Devuelto"
            then (Fail 400 AlreadyProcessed, s)
            else
              match find_user providerId s with
              | None => (Fail 500 InternalError, s)
              | Some provider =>
                  if Qltb (balance provider) numericAmount
                  then (Fail 400 InsufficientBalance, s)
                  else
                    let newProvBalance := balance provider - numericAmount in
                    let s1 :=
                      set_balance_history providerId newProvBalance
                        (refund_debit_tx clk numericAmount (username buyer)
                           :: transactions_history provider) s in
                    let newBuyerBalance := balance buyer + numericAmount in
                    let s2 :=
                      set_balance_history buyerUserId_ newBuyerBalance
                        (refund_credit_tx clk numericAmount
                           :: mark_refunded clk buyerTransactionId_
                                numericAmount buyerHistory) s1 in
                    (Ok tt, s2)
              end
        end
    end.

(** ** POST /user/purchase/renovate *)

Definition with_renovation (plan : option string) (c : Q) (e : Z) (d : details)
    : details :=
  {| d_productName := d_productName d; d_provider := d_provider d;
     d_duration := d_duration d; d_purchaseDate := d_purchaseDate d;
     d_expirationDate := Some e;
     fullCredentials := fullCredentials d; d_delivery := d_delivery d;
     d_quantity := d_quantity d; d_cost := Some c;
     supportMessage := supportMessage d; supportDate := supportDate d;
     refundDate := refundDate d; refundAmount := refundAmount d;
     isRenovation := true; d_planType := plan |}.

Definition with_expiration (e : Z) (d : details) : details :=
  {| d_productName := d_productName d; d_provider := d_provider d;
     d_duration := d_duration d; d_purchaseDate := d_purchaseDate d;
     d_expirationDate := Some e;
     fullCredentials := fullCredentials d; d_delivery := d_delivery d;
     d_quantity := d_quantity d; d_cost := d_cost d;
     supportMessage := supportMessage d; supportDate := supportDate d;
     refundDate := refundDate d; refundAmount := refundAmount d;
     isRenovation := isRenovation d; d_planType := d_planType d |}.

(** [history.map(...).flat()]: after every entry whose id prints like
    [purchaseId] the renewal entry is inserted; [None] is the [TypeError]
    of an entry without [details]. *)
Fixpoint renovate_map (purchaseId : Js.id) (newExpiry : Z)
    (renovationTx : transaction) (history : list transaction)
    : option (list transaction) :=
  match history with
  | [] => Some []
  | t :: rest =>
      if String.eqb (Js.String_ (tx_id t)) (Js.String_ purchaseId) then
        match tx_details t with
        | None => None
        | Some d =>
            option_map
              (fun h => with_details (Some (with_expiration newExpiry d)) t
                          :: renovationTx :: h)
              (renovate_map purchaseId newExpiry renovationTx rest)
        end
      else option_map (cons t)
             (renovate_map purchaseId newExpiry renovationTx rest)
  end.

(** The start of the renewed period: the stored expiry when it is still
    ahead, else now. *)
Definition startRenewalDate (clk : clock) (d : details) : Z :=
  match d_expirationDate d with
  | Some e => if (e >? now clk)%Z then e else now clk
  | None => now clk
  end.

Section Calendar.

(** [d.setMonth(d.getMonth() + n)] on an instant: the calendar
    arithmetic of the host's [Date]. *)
Variable addMonths : Z -> Z -> Z.

Definition user_purchase_renovate (clk : clock) (userId : Z)
    (purchaseId : Js.id) (numericMonths : Z) (numericFinalPrice : Q)
    (planType : option string) (s : db) : response unit * db :=
  if orb (Z.eqb userId 0)
       (orb (negb (Js.truthy purchaseId)) (numericMonths <? 1)%Z)
  then (Fail 400 InvalidInput, s)
  else
    match find_user userId s with
    | None => (Fail 404 NotFound, s)
    | Some user_ =>
        if Qltb (balance user_) numericFinalPrice
        then (Fail 400 InsufficientBalance, s)
        else
          let history := transactions_history user_ in
          match find (debit_match purchaseId) history with
          | None => (Fail 404 NotFound, s)
          | Some targetTx =>
              match tx_details targetTx with
              | None => (Fail 500 InternalError, s)
              | Some d =>
                  let originalProviderId :=
                    match find (fun p => str_is (d_productName d) (p_name p))
                            (products s) with
                    | Some p => if Z.eqb (creator_user_id p) 0 then None
                                else Some (creator_user_id p)
                    | None => None
                    end in
                  let newExpiry :=
                    addMonths (startRenewalDate clk d) numericMonths in
                  let renovationTx :=
                    with_details
                      (Some (with_renovation planType numericFinalPrice
                               newExpiry d))
                      (plain_tx (Js.IdNum (now clk)) "debit" "Completada"
                         numericFinalPrice) in
                  match renovate_map purchaseId newExpiry renovationTx
                          history with
                  | None => (Fail 500 InternalError, s)
                  | Some updatedHistory =>
                      let newBuyerBalance :=
                        balance user_ - numericFinalPrice in
                      let s1 := set_balance_history userId newBuyerBalance
                                  updatedHistory s in
                      let s2 :=
                        match originalProviderId with
                        | None => s1
                        | Some pid =>
                            match find_user pid s1 with
                            | None => s1
                            | Some provider =>
                                set_balance_history pid
                                  (balance provider + numericFinalPrice)
                                  ({| tx_id := Js.IdNum (now clk + 1);
                                      orderCode := None; tx_type := "credit";
                                      tx_status := "Completada";
                                      tx_amount := numericFinalPrice;
                                      tx_details := None;
                                      isCommission := true; isRefund := false;
                                      isWithdrawal := false;
                                      isWithdrawalRefund := false;
                                      isRenewal := true;
                                      sourceUser := Some (username user_);
                                      targetUser := None;
                                      originalAmount := None;
                                      buyerUserId := Some userId;
                                      buyerTransactionId :=
                                        Js.IdNum (now clk) |}
                                     :: transactions_history provider) s1
                            end
                        end in
                      (Ok tt, s2)
                  end
              end
          end
    end.

(** ** POST /user/upgrade-to-premium *)

Definition targetRole (currentRole : string) : string :=
  if orb (String.eqb currentRole "proveedor")
         (String.eqb currentRole "Proveedor Premium")
  then "Proveedor Premium" else "Distribuidor Premium".

Definition newExpirationDate (clk : clock) (u : user) (numericMonths : Z) : Z :=
  match premium_expires_at u with
  | Some currentExpiry =>
      if andb (String.eqb (role u) (targetRole (role u)))
              (currentExpiry >? now clk)%Z
      then addMonths currentExpiry numericMonths
      else addMonths (now clk) numericMonths
  | None => addMonths (now clk) numericMonths
  end.

Definition user_upgrade_to_premium (clk : clock) (userId : Z)
    (numericAmount : Q) (numericMonths : Z) (s : db) : response unit * db :=
  if Z.eqb userId 0 then (Fail 400 InvalidInput, s)
  else
    match find_user userId s with
    | None => (Fail 404 NotFound, s)
    | Some user_ =>
        if Qltb (balance user_) numericAmount
        then (Fail 400 InsufficientBalance, s)
        else
          let target := targetRole (role user_) in
          let expiry := newExpirationDate clk user_ numericMonths in
          let newBalance := balance user_ - numericAmount in
          let transaction_ :=
            with_details
              (Some {| d_productName := Some ("Membresía " ++ target);
                       d_provider := Some "Sistema"; d_duration := None;
                       d_purchaseDate := Some (today clk);
                       d_expirationDate := Some expiry;
                       fullCredentials := None; d_delivery := None;
                       d_quantity := None; d_cost := Some numericAmount;
                       supportMessage := None; supportDate := None;
                       refundDate := None; refundAmount := None;
                       isRenovation := false; d_planType := None |})
              (plain_tx (Js.IdNum (now clk)) "debit" "Completada"
                 numericAmount) in
          (Ok tt,
           update_user userId
             (fun u =>
                {| u_id := u_id u; username := username u;
                   balance := newBalance; role := target;
                   referred_by_user_id := referred_by_user_id u;
                   premium_expires_at := Some expiry;
                   transactions_history :=
                     transaction_ :: transactions_history user_ |}) s)
    end.

End Calendar.

(** ** Withdrawals *)

Definition is_pending (w : withdrawal) : bool := String.eqb (w_status w) "Pending".

(** The fee rate: the [withdrawal_fee] setting, or 0.10. *)
Definition feeRate (s : db) : Q :=
  match withdrawal_fee s with
  | Some v => v
  | None => 10 # 100
  end.

(** POST /supplier/withdraw.  Answers: 400 invalid amount, 400 "Ya tienes
    una solicitud en proceso" ([DuplicateRequest]), 404 user, 400 "Monto
    insuficiente" ([InsufficientBalance]). *)
Definition supplier_withdraw (userId : Z) (numericAmount : Q) (s : db)
    : response unit * db :=
  if Qleb numericAmount 0 then (Fail 400 InvalidInput, s)
  else if existsb (fun w => andb (Z.eqb (w_user_id w) userId) (is_pending w))
            (withdrawals s)
  then (Fail 400 DuplicateRequest, s)
  else
    match find_user userId s with
    | None => (Fail 404 NotFound, s)
    | Some user_ =>
        let currentBalance := balance user_ in
        let commissionRate_ := feeRate s in
        let requested := round2 numericAmount in
        let available := round2 currentBalance in
        if Qgtb requested available then (Fail 400 InsufficientBalance, s)
        else
          let fee := numericAmount * commissionRate_ in
          let finalAmount := numericAmount - fee in
          let newBalance := currentBalance - numericAmount in
          let s1 :=
            set_withdrawals
              (withdrawals s
                 ++ [{| w_id := next_withdrawal_id s; w_user_id := userId;
                        amount_original := numericAmount;
                        amount_final := finalAmount;
                        w_status := "Pending" |}])
              (next_withdrawal_id s + 1)%Z s in
          (Ok tt, set_balance userId newBalance s1)
    end.

(** POST /supplier/withdraw/cancel *)
Definition supplier_withdraw_cancel (withdrawalId userId : Z) (s : db)
    : response unit * db :=
  match find (fun w => andb (Z.eqb (w_id w) withdrawalId)
                         (andb (Z.eqb (w_user_id w) userId) (is_pending w)))
          (withdrawals s) with
  | None => (Fail 400 AlreadyProcessed, s)
  | Some w =>
      let amountToReturn := amount_original w in
      let s1 :=
        set_withdrawals
          (filter (fun x => negb (Z.eqb (w_id x) withdrawalId)) (withdrawals s))
          (next_withdrawal_id s) s in
      (Ok tt, add_balance userId amountToReturn s1)
  end.

Definition with_w_status (st : string) (w : withdrawal) : withdrawal :=
  {| w_id := w_id w; w_user_id := w_user_id w;
     amount_original := amount_original w; amount_final := amount_final w;
     w_status := st |}.

Definition set_withdrawal_status (withdrawalId : Z) (st : string) (s : db) : db :=
  set_withdrawals
    (map (fun w => if Z.eqb (w_id w) withdrawalId then with_w_status st w else w)
       (withdrawals s))
    (next_withdrawal_id s) s.

Definition withdrawal_debit_tx (clk : clock) (a : Q) : transaction :=
  {| tx_id := Js.IdNum (now clk + 1); orderCode := None; tx_type := "debit";
     tx_status := "Completada"; tx_amount := a; tx_details := None;
     isCommission := false; isRefund := false; isWithdrawal := true;
     isWithdrawalRefund := false; isRenewal := false; sourceUser := None;
     targetUser := None; originalAmount := None;
     buyerUserId := None; buyerTransactionId := Js.IdNone |}.

Definition withdrawal_refund_tx (clk : clock) (a : Q) : transaction :=
  {| tx_id := Js.IdNum (now clk + 2); orderCode := None; tx_type := "credit";
     tx_status := "Completada"; tx_amount := a; tx_details := None;
     isCommission := false; isRefund := false; isWithdrawal := false;
     isWithdrawalRefund := true; isRenewal := false; sourceUser := None;
     targetUser := None; originalAmount := None;
     buyerUserId := None; buyerTransactionId := Js.IdNone |}.

(** POST /admin/withdraw/manage.  Answers: 404 "Retiro no encontrado",
    400 "ya fue procesado" ([AlreadyProcessed]), 500 when the owner's row
    is missing; any action other than approve or reject answers 200 and
    changes nothing. *)
Definition admin_withdraw_manage (clk : clock) (withdrawalId : Z)
    (action : string) (s : db) : response unit * db :=
  match find (fun w => Z.eqb (w_id w) withdrawalId) (withdrawals s) with
  | None => (Fail 404 NotFound, s)
  | Some w =>
      if negb (is_pending w) then (Fail 400 AlreadyProcessed, s)
      else if String.eqb action "approve" then
        let s1 := set_withdrawal_status withdrawalId "Approved" s in
        match find_user (w_user_id w) s1 with
        | None => (Fail 500 InternalError, s1)
        | Some provider =>
            (Ok tt,
             set_history (w_user_id w)
               (withdrawal_debit_tx clk (amount_final w)
                  :: transactions_history provider) s1)
        end
      else if String.eqb action "reject" then
        let s1 := set_withdrawal_status withdrawalId "Rejected" s in
        let s2 := add_balance (w_user_id w) (amount_original w) s1 in
        match find_user (w_user_id w) s2 with
        | None => (Fail 500 InternalError, s2)
        | Some provider =>
            (Ok tt,
             set_history (w_user_id w)
               (withdrawal_refund_tx clk (amount_original w)
                  :: transactions_history provider) s2)
        end
      else (Ok tt, s)
  end.

(** * Vocabulary of the statements *)

(** ** Stores *)

Definition keeps_id (f : user -> user) : Prop := forall u, u_id (f u) = u_id u.

(** Two stores agree outside the stock table. *)
Definition same_but_stock (s s' : db) : Prop :=
  users s' = users s /\ products s' = products s /\
  withdrawals s' = withdrawals s /\ orders s' = orders s /\
  withdrawal_fee s' = withdrawal_fee s /\
  next_withdrawal_id s' = next_withdrawal_id s.

(** ** Units of an allocation *)

(** Units carried by a list of credentials. *)
Fixpoint units (cs : list credential) : Z :=
  match cs with
  | [] => 0%Z
  | c :: rest => (availableInRow (c_data c) + units rest)%Z
  end.

(** ** The records a purchase hands over *)


(** ** The pool as a sum over the stock table *)

(** What a row of the table adds to the pool of product [pid]. *)
Definition row_units (pid : Z) (r : stock_row) : Z :=
  if andb (Z.eqb (product_id r) pid) (negb (is_sold r))
  then (if unpublished (data r) then 0%Z else availableInRow (data r))
  else 0%Z.

Fixpoint table_units (pid : Z) (rows : list stock_row) : Z :=
  match rows with
  | [] => 0%Z
  | r :: rest => (row_units pid r + table_units pid rest)%Z
  end.

(** The stock table as [AUTOINCREMENT] keeps it: rowids are distinct and
    below the next one. *)
Definition table_wf (s : db) : Prop :=
  NoDup (map ps_id (product_stock s)) /\
  Forall (fun r => (ps_id r < next_stock_id s)%Z) (product_stock s).

(** [products.stock] of product [pid]. *)
Definition cachedStock (pid : Z) (s : db) : Z :=
  match find (fun p => Z.eqb (p_id p) pid) (products s) with
  | Some p => stock p
  | None => 0%Z
  end.

(** ** A small shop, for the concrete runs *)

Module Shop.

Definition ana : user :=
  {| u_id := 1; username := "ana"; balance := 100; role := "Usuario";
     referred_by_user_id := Some 3%Z; premium_expires_at := None;
     transactions_history := [] |}.

Definition vendor : user :=
  {| u_id := 2; username := "vendor"; balance := 50; role := "proveedor";
     referred_by_user_id := None; premium_expires_at := None;
     transactions_history := [] |}.

Definition dario : user :=
  {| u_id := 3; username := "dario"; balance := 0; role := "distribuidor";
     referred_by_user_id := None; premium_expires_at := None;
     transactions_history := [] |}.

Definition plan : product :=
  {| p_id := 1; p_name := "Plan"; p_platform := "tv"; stock := 2;
     creator_user_id := 2; p_duration := Some "30 Días";
     p_delivery := None; p_provider := Some "vendor" |}.

Definition published (q : Z) : stock_data :=
  {| sd_status := Some "Publicado"; sd_quantity := Some q;
     price_sold_per_unit := None; sd_payload := "user:pass" |}.

(** One published, unsold record of quantity 2. *)
Definition batch : stock_row :=
  {| ps_id := 1; product_id := 1; provider_user_id := 2;
     data := published 2; is_sold := false; sold_to_user_id := None |}.

Definition shop : db :=
  {| users := [ana; vendor; dario]; products := [plan];
     product_stock := [batch]; withdrawals := []; orders := [];
     withdrawal_fee := None; next_stock_id := 2;
     next_withdrawal_id := 1 |}.

(** Purchase day: local midnight is instant 0, the request arrives one
    hour later. *)
Definition day0 : clock := {| now := 3600000; today := 0 |}.

(** The same hour, [n] days later. *)
Definition day (n : Z) : clock :=
  {| now := 3600000 + n * oneDay; today := n * oneDay |}.

Definition buy (n : Z) : purchase_req :=
  {| pr_userId := 1; pr_productName := "Plan"; pr_amount := 30;
     pr_platform := "tv"; pr_quantity := n; pr_delivery := None;
     pr_finalPricePerUnit := Some (15 # 1); pr_planType := None |}.

Definition ticket : Js.id := Js.IdStr "#ORD-K3X9QA".

(** A published, unsold record of the plan with rowid [i] and quantity
    [q], and the shop with such records on the shelf and a counter of 3. *)
Definition record (i q : Z) : stock_row :=
  {| ps_id := i; product_id := 1; provider_user_id := 2;
     data := published q; is_sold := false; sold_to_user_id := None |}.

Definition shelf (rows : list stock_row) : db :=
  set_products [with_stock 3 plan] (set_product_stock rows 3 shop).

(** The store after ana bought the whole batch. *)
Definition after_purchase : db := snd (user_purchase day0 "K3X9QA" (buy 2) shop).

(** Rows of the stock table sold to [buyer]. *)
Definition sold_to (buyer : Z) (s : db) : list stock_row :=
  filter (fun r => andb (is_sold r)
                     (match sold_to_user_id r with
                      | Some b => Z.eqb b buyer
                      | None => false
                      end)) (product_stock s).

Definition balance_of (uid : Z) (s : db) : Q :=
  match find_user uid s with
  | Some u => balance u
  | None => 0
  end.

Definition ledger_of (uid : Z) (s : db) : list transaction :=
  match find_user uid s with
  | Some u => transactions_history u
  | None => []
  end.

Definition stock_of (pid : Z) (s : db) : Z := cachedStock pid s.

End Shop.

(** A thirty-day month, standing for the calendar arithmetic of the host
    in the concrete runs. *)
Definition thirtyDays (t months : Z) : Z := (t + months * 30 * oneDay)%Z.

(** ** Approval, entry by entry *)

(** The entry-by-entry rewriting of the approval. *)
Definition approve_entry (transactionId : Js.id) (t : transaction) : transaction :=
  if pending_match transactionId t then with_status "Completada" t else t.

(** The amount left in [amountToAdd]: that of the last match. *)
Fixpoint last_amount (transactionId : Js.id) (history : list transaction)
    (a : Q) : Q :=
  match history with
  | [] => a
  | t :: rest =>
      last_amount transactionId rest
        (if pending_match transactionId t then tx_amount t else a)
  end.

(** The store an approval returns when exactly one pending entry [t]
    carries the id: the user's row is rewritten, then the commission step
    runs. *)
Definition approved_user_store (userId : Z) (u : user)
    (l1 : list transaction) (t : transaction) (l2 : list transaction)
    (s : db) : db :=
  set_balance_history userId (balance u + tx_amount t)
    (l1 ++ with_status "Completada" t :: l2)%list s.

(** The store once the user's row is rewritten by an approval that adds
    [A]: every pending entry under the id is completed. *)
Definition approved_store (userId : Z) (u : user) (transactionId : Js.id)
    (A : Q) (s : db) : db :=
  set_balance_history userId (balance u + A)
    (map (approve_entry transactionId) (transactions_history u)) s.

(** The commission of a referrer with role [r] on a recharge of [A]: the
    product of the doubles, cut to cents. *)
Definition commission_of (A : Q) (r : string) : Q :=
  round2 (to_double (to_double A * commissionRate r)).

(** The conditions under which the approval pays a commission to user
    [r], whose row reads [ref] once the recharging user's row has been
    written. *)
Definition commission_due (u : user) (s1 : db) (A : Q) (r : Z) (ref : user)
    : Prop :=
  truthy_ref (referred_by_user_id u) = Some r /\
  hasPreviousRecharges (transactions_history u) = false /\
  find_user r s1 = Some ref /\
  0 < commission_of A (role ref).

(** A pending recharge of [a] in ana's ledger; dario, a [distribuidor],
    referred her. *)
Module Recharge.

Definition stamp : Z := 1700000000000.

Definition recharge (a : Q) : transaction :=
  plain_tx (Js.IdNum stamp) "credit" "Pendiente" a.

Definition ana (a : Q) : user :=
  write_ledger (balance Shop.ana) [recharge a] Shop.ana.

Definition store (a : Q) : db :=
  set_users [ana a; Shop.vendor; Shop.dario] Shop.shop.

Definition approved (a : Q) : db :=
  snd (admin_transaction_approve Shop.day0 1 (Js.IdNum stamp) (store a)).

End Recharge.

(** ** Withdrawal requests *)

Definition has_pending (uid : Z) (s : db) : bool :=
  existsb (fun w => andb (Z.eqb (w_user_id w) uid) (is_pending w))
    (withdrawals s).

Definition find_withdrawal (wid : Z) (s : db) : option withdrawal :=
  find (fun w => Z.eqb (w_id w) wid) (withdrawals s).

(** The vendor holds 100 and asks to withdraw it all at the default fee. *)
Module Payout.

Definition vendor : user := write_ledger 100 [] Shop.vendor.

Definition store : db := set_users [Shop.ana; vendor; Shop.dario] Shop.shop.

Definition requested : db := snd (supplier_withdraw 2 100 store).

Definition request : withdrawal :=
  {| w_id := 1; w_user_id := 2; amount_original := 100;
     amount_final := 100 - 100 * (10 # 100); w_status := "Pending" |}.

End Payout.

(** ** Forms of an id *)

Fixpoint no_space (s : string) : Prop :=
  match s with
  | EmptyString => True
  | String c s' => Js.is_space c = false /\ no_space s'
  end.

(** The two ways an id stored as the number [n] and the same id supplied
    as text (or the reverse) can meet. *)
Inductive mixed_forms (n : Z) : Js.id -> Js.id -> Prop :=
| stored_number : mixed_forms n (Js.IdNum n) (Js.IdStr (Js.Z_to_string n))
| stored_string : mixed_forms n (Js.IdStr (Js.Z_to_string n)) (Js.IdNum n).

(** ** Tickets *)

Module Support.

(** Status of the entry with id [i] in the ledger of user [uid]. *)
Definition status_of (uid : Z) (i : Js.id) (s : db) : option string :=
  option_map tx_status
    (find (fun t => Js.strict_eq (tx_id t) i) (Shop.ledger_of uid s)).

(** Ana opens a ticket on her purchase, [n] days after buying. *)
Definition opened (n : Z) (s : db) : db :=
  snd (user_send_to_support (Shop.day n) "R4ND0M" 1 Shop.ticket
         "no funciona" s).

(** The provider answers the ticket with a refund, [n] days after the
    purchase. *)
Definition refunded (n : Z) (s : db) : response unit * db :=
  supplier_handle_support (Shop.day n) Shop.ticket "refund" s.

(** The credits that sit in a ledger, oldest last. *)
Definition credits (uid : Z) (s : db) : list Q :=
  map tx_amount
    (filter (fun t => String.eqb (tx_type t) "credit") (Shop.ledger_of uid s)).

End Support.

(** * Further handlers of db.js *)

(** ** checkAndExpirePremium and the role GET /profile/:userId answers *)

Definition with_role_expiry (r : string) (e : option Z) (u : user) : user :=
  {| u_id := u_id u; username := username u; balance := balance u; role := r;
     referred_by_user_id := referred_by_user_id u;
     premium_expires_at := e;
     transactions_history := transactions_history u |}.

(** The demotion table of the function ([newRole]). *)
Definition demoted (currentRole : string) : string :=
  if String.eqb currentRole "Proveedor Premium" then "proveedor"
  else if String.eqb currentRole "Distribuidor Premium" then "distribuidor"
  else "Usuario".

(** [checkAndExpirePremium(user)]: [user] is the row the caller has read;
    the result is the role returned and the store left behind. *)
Definition checkAndExpirePremium (clk : clock) (u : user) (s : db)
    : string * db :=
  match premium_expires_at u with
  | Some expirationDate =>
      if (now clk >? expirationDate)%Z then
        let newRole := demoted (role u) in
        (newRole, update_user (u_id u) (with_role_expiry newRole None) s)
      else (role u, s)
  | None => (role u, s)
  end.

(** The role part of GET /profile/:userId: the row is read, then handed
    to [checkAndExpirePremium]. *)
Definition profile_role (clk : clock) (userId : Z) (s : db)
    : response string * db :=
  match find_user userId s with
  | None => (Fail 404 NotFound, s)
  | Some u =>
      let '(currentRole, s') := checkAndExpirePremium clk u s in
      (Ok currentRole, s')
  end.

(** ** The supplier's stock endpoints *)

(** [finalItemData] of POST /supplier/stock/add.  The generated
    [uniqueCode] and [addedAt] are display fields of the document and,
    like the rest of the payload, are not looked at by any handler. *)
Definition finalItemData (item : stock_data) : stock_data :=
  {| sd_status := Some "Sin publicar";
     sd_quantity := Some (availableInRow item);
     price_sold_per_unit := price_sold_per_unit item;
     sd_payload := sd_payload item |}.

Definition new_unsold_row (productId providerId : Z) (d : stock_data)
    (i : Z) : stock_row :=
  {| ps_id := i; product_id := productId; provider_user_id := providerId;
     data := d; is_sold := false; sold_to_user_id := None |}.

(** The [for (const item of items)] loop of the insertion. *)
Definition insert_items (productId providerId : Z) (items : list stock_data)
    (s : db) : db :=
  fold_left
    (fun st item =>
       insert_stock (new_unsold_row productId providerId (finalItemData item))
         st)
    items s.

(** POST /supplier/stock/add *)
Definition supplier_stock_add (productId providerId : Z)
    (items : list stock_data) (s : db) : response unit * db :=
  match items with
  | [] => (Fail 400 InvalidInput, s)
  | _ :: _ =>
      if orb (Z.eqb productId 0) (Z.eqb providerId 0)
      then (Fail 400 InvalidInput, s)
      else (Ok tt,
            updateProductStock productId
              (insert_items productId providerId items s))
  end.

Definition find_stock (stockId_ : Z) (s : db) : option stock_row :=
  find (fun r => Z.eqb (ps_id r) stockId_) (product_stock s).

Definition with_sd_status (st : string) (d : stock_data) : stock_data :=
  {| sd_status := Some st; sd_quantity := sd_quantity d;
     price_sold_per_unit := price_sold_per_unit d;
     sd_payload := sd_payload d |}.

(** POST /supplier/stock/publish *)
Definition supplier_stock_publish (stockId_ : Z) (s : db)
    : response unit * db :=
  if Z.eqb stockId_ 0 then (Fail 400 InvalidInput, s)
  else
    match find_stock stockId_ s with
    | None => (Fail 404 NotFound, s)
    | Some row =>
        let data_ := with_sd_status "Publicado" (data row) in
        let s1 := update_stock_rows (fun r => Z.eqb (ps_id r) stockId_)
                    (with_data data_) s in
        (Ok tt, updateProductStock (product_id row) s1)
    end.

(** DELETE /supplier/stock/:stockId *)
Definition supplier_stock_delete (stockId_ : Z) (s : db)
    : response unit * db :=
  match find_stock stockId_ s with
  | None => (Fail 404 NotFound, s)
  | Some row =>
      let s1 :=
        set_product_stock
          (filter (fun r => negb (Z.eqb (ps_id r) stockId_)) (product_stock s))
          (next_stock_id s) s in
      (Ok tt, updateProductStock (product_id row) s1)
  end.

(** PUT /supplier/stock/:stockId: the document is replaced, the counter
    is not recomputed. *)
Definition supplier_stock_edit (stockId_ : Z) (data_ : stock_data) (s : db)
    : response unit * db :=
  (Ok tt,
   update_stock_rows (fun r => Z.eqb (ps_id r) stockId_) (with_data data_) s).

(** ** POST /transaction/record and /transaction/cancel *)

Definition transaction_record (userId : Z) (transaction_ : transaction)
    (s : db) : response unit * db :=
  if Z.eqb userId 0 then (Fail 400 InvalidInput, s)
  else
    match find_user userId s with
    | None => (Fail 404 NotFound, s)
    | Some u =>
        (Ok tt,
         set_history userId (transaction_ :: transactions_history u) s)
    end.

(** Answers: 400 missing fields, 404 user, 404 entry, 400 "ya está en
    estado ..." ([AlreadyProcessed]). *)
Definition transaction_cancel (userId : Z) (transactionId : Js.id) (s : db)
    : response unit * db :=
  if orb (Z.eqb userId 0) (negb (Js.truthy transactionId))
  then (Fail 400 InvalidInput, s)
  else
    match find_user userId s with
    | None => (Fail 404 NotFound, s)
    | Some u =>
        let currentHistory := transactions_history u in
        match find (fun t => Js.strict_eq (tx_id t) transactionId)
                currentHistory with
        | None => (Fail 404 NotFound, s)
        | Some transactionToCancel =>
            if negb (String.eqb (tx_status transactionToCancel) "Pendiente")
            then (Fail 400 AlreadyProcessed, s)
            else
              (Ok tt,
               set_history userId
                 (map (fun t => if Js.strict_eq (tx_id t) transactionId
                                then with_status "Cancelada" t else t)
                    currentHistory) s)
        end
    end.

(** ** POST /admin/settings/withdrawal-fee *)

(** [parseFloat(x.toFixed(3))] *)
Definition round3_nonneg (x : Q) : Q :=
  Qmake (Qfloor (x * 1000 + (1 # 2))) 1000.

Definition round3 (x : Q) : Q :=
  if Qlt_le_dec x 0 then - round3_nonneg (- x) else round3_nonneg x.

Definition set_withdrawal_fee (v : option Q) (s : db) : db :=
  {| users := users s; products := products s;
     product_stock := product_stock s; withdrawals := withdrawals s;
     orders := orders s; withdrawal_fee := v;
     next_stock_id := next_stock_id s;
     next_withdrawal_id := next_withdrawal_id s |}.

(** The setting is stored as [numericFee.toFixed(3)] and read back with
    [parseFloat]. *)
Definition admin_settings_withdrawal_fee (numericFee : Q) (s : db)
    : response unit * db :=
  if orb (Qltb numericFee 0) (Qgtb numericFee 1)
  then (Fail 400 InvalidInput, s)
  else (Ok tt, set_withdrawal_fee (Some (round3 numericFee)) s).

(** ** POST /supplier/refund *)

Definition find_product_by_id (pid : Z) (s : db) : option product :=
  find (fun p => Z.eqb (p_id p) pid) (products s).

(** The refund by stock row.  Answers: 404 when the row is absent; 500
    from the [catch] when the product, the buyer (a row that is not sold
    has none) or the provider cannot be read, the writes made so far
    staying in place. *)
Definition supplier_refund (clk : clock) (stockId_ : Z) (refundAmount_ : Q)
    (s : db) : response unit * db :=
  match find_stock stockId_ s with
  | None => (Fail 404 NotFound, s)
  | Some row =>
      let productId := product_id row in
      let providerId := provider_user_id row in
      match find_product_by_id productId s with
      | None => (Fail 500 InternalError, s)
      | Some _ =>
          match match sold_to_user_id row with
                | Some buyerId =>
                    option_map (pair buyerId) (find_user buyerId s)
                | None => None
                end with
          | None => (Fail 500 InternalError, s)
          | Some (buyerId, user_) =>
              let newBuyerBalance := balance user_ + refundAmount_ in
              let s1 :=
                set_balance_history buyerId newBuyerBalance
                  (plain_tx (Js.IdNum (now clk)) "credit" "Devuelto"
                     refundAmount_ :: transactions_history user_) s in
              match find_user providerId s1 with
              | None => (Fail 500 InternalError, s1)
              | Some provider =>
                  let newProviderBalance := balance provider - refundAmount_ in
                  let s2 :=
                    set_balance_history providerId newProviderBalance
                      ({| tx_id := Js.IdNum (now clk + 1); orderCode := None;
                          tx_type := "debit"; tx_status := "Completada";
                          tx_amount := refundAmount_; tx_details := None;
                          isCommission := false; isRefund := true;
                          isWithdrawal := false;
                          isWithdrawalRefund := false; isRenewal := false;
                          sourceUser := None;
                          targetUser := Some (username user_);
                          originalAmount := None; buyerUserId := None;
                          buyerTransactionId := Js.IdNone |}
                         :: transactions_history provider) s1 in
                  let s3 :=
                    update_stock_rows (fun r => Z.eqb (ps_id r) stockId_)
                      mark_unsold s2 in
                  (Ok tt,
                   update_product productId
                     (fun p => with_stock (stock p + 1) p) s3)
              end
          end
      end
  end.

(** ** POST /admin/user/delete *)

(** Answers: 400 without an id, 404 unknown user, 403 for the
    administrator's account (carried here as an [InvalidInput] with its
    status). *)
Definition admin_user_delete (userId : Z) (s : db) : response unit * db :=
  if Z.eqb userId 0 then (Fail 400 InvalidInput, s)
  else
    match find_user userId s with
    | None => (Fail 404 NotFound, s)
    | Some u =>
        if String.eqb (role u) "Admin" then (Fail 403 InvalidInput, s)
        else
          let s1 :=
            set_product_stock
              (filter (fun r => negb (Z.eqb (provider_user_id r) userId))
                 (product_stock s)) (next_stock_id s) s in
          let s2 :=
            set_orders
              (filter (fun o => negb (orb (Z.eqb (buyer_user_id o) userId)
                                          (Z.eqb (o_provider_user_id o) userId)))
                 (orders s1)) s1 in
          let s3 :=
            set_products
              (filter (fun p => negb (Z.eqb (creator_user_id p) userId))
                 (products s2)) s2 in
          let s4 :=
            set_withdrawals
              (filter (fun w => negb (Z.eqb (w_user_id w) userId))
                 (withdrawals s3)) (next_withdrawal_id s3) s3 in
          (Ok tt,
           set_users (filter (fun x => negb (Z.eqb (u_id x) userId)) (users s4))
             s4)
    end.

(** ** POST /admin/user/update *)

(** The fields of the request the handler looks at: [balanceChange]
    parsed, [newRole], and whether a discount and a non-blank password
    came along (they only count as fields to update: the columns they
    write are outside the model). *)
Record user_update_req : Type := {
  balanceChange : option Q;
  newRole : option string;
  hasDiscount : bool;
  hasPassword : bool
}.

Definition valid_role (r : string) : bool :=
  orb (String.eqb r "Usuario")
    (orb (String.eqb r "Distribuidor Premium")
       (orb (String.eqb r "Admin")
          (orb (String.eqb r "distribuidor")
             (orb (String.eqb r "proveedor")
                (String.eqb r "Proveedor Premium"))))).

Definition with_balance_role (b : Q) (r : string) (u : user) : user :=
  {| u_id := u_id u; username := username u; balance := b; role := r;
     referred_by_user_id := referred_by_user_id u;
     premium_expires_at := premium_expires_at u;
     transactions_history := transactions_history u |}.

Definition admin_user_update (userId : Z) (req : user_update_req) (s : db)
    : response unit * db :=
  if Z.eqb userId 0 then (Fail 400 InvalidInput, s)
  else
    match find_user userId s with
    | None => (Fail 404 NotFound, s)
    | Some u =>
        let currentBalance := balance u in
        let updatedBalance :=
          match balanceChange req with
          | Some change => Some (round2 (currentBalance + change))
          | None => None
          end in
        match truthy_str (newRole req) with
        | Some r =>
            if negb (valid_role r) then (Fail 400 InvalidInput, s)
            else
              (Ok tt,
               update_user userId
                 (fun x => with_balance_role
                             (match updatedBalance with
                              | Some b => b
                              | None => balance x
                              end) r x) s)
        | None =>
            match updatedBalance with
            | Some b => (Ok tt, set_balance userId b s)
            | None =>
                if orb (hasDiscount req) (hasPassword req)
                then (Ok tt, s)
                else (Fail 400 InvalidInput, s)
            end
        end
    end.

(** ** POST /user/apply-supplier *)

(** [SUPPLIER_COST] *)
Definition SUPPLIER_COST : Q := 75 # 10.

(** [purchaseTx] *)
Definition rank_tx (clk : clock) : transaction :=
  with_details
    (Some {| d_productName := Some "Rango Distribuidor";
             d_provider := Some "Sistema"; d_duration := None;
             d_purchaseDate := Some (today clk); d_expirationDate := None;
             fullCredentials := None; d_delivery := None;
             d_quantity := None; d_cost := Some SUPPLIER_COST;
             supportMessage := None; supportDate := None;
             refundDate := None; refundAmount := None;
             isRenovation := false; d_planType := Some "Membresía" |})
    (plain_tx (Js.IdNum (now clk)) "debit" "Completada" SUPPLIER_COST).

(** [UPDATE users SET balance = ?, transactions_history = ?,
    role = 'Pending', is_approved = 0, referred_by_user_id = ?] *)
Definition as_applicant (b : Q) (h : list transaction) (r : option Z)
    (u : user) : user :=
  {| u_id := u_id u; username := username u; balance := b; role := "Pending";
     referred_by_user_id := r; premium_expires_at := premium_expires_at u;
     transactions_history := h |}.

(** The handler.  The column [referral_code] is not part of the [user]
    record: [codeOwner] gives, for a code, the id of the first row of the
    users table that holds it ([SELECT id FROM users WHERE referral_code =
    ?]).  Answers: 400 incomplete data, 400 unknown code, 400 own code
    (all [InvalidInput]), 404 user, 400 "Saldo insuficiente". *)
Definition user_apply_supplier (codeOwner : string -> option Z) (clk : clock)
    (userId : Z) (referralCode : string) (s : db) : response unit * db :=
  if orb (Z.eqb userId 0) (String.eqb referralCode "")
  then (Fail 400 InvalidInput, s)
  else
    let normalizedCode := Js.toUpperCase referralCode in
    let validated : option (option Z) :=
      if String.eqb normalizedCode "BLD231" then Some None
      else
        match codeOwner normalizedCode with
        | None => None
        | Some referrerId =>
            if Z.eqb referrerId userId then None else Some (Some referrerId)
        end in
    match validated with
    | None => (Fail 400 InvalidInput, s)
    | Some referrerId =>
        match find_user userId s with
        | None => (Fail 404 NotFound, s)
        | Some user_ =>
            let currentBalance := balance user_ in
            if Qltb currentBalance SUPPLIER_COST
            then (Fail 400 InsufficientBalance, s)
            else
              let newBalance := currentBalance - SUPPLIER_COST in
              let updatedHistory := rank_tx clk :: transactions_history user_ in
              (Ok tt,
               update_user userId
                 (as_applicant newBalance updatedHistory referrerId) s)
        end
    end.

(** ** The answers to an application *)

(** [UPDATE users SET is_approved = ?, role = ? WHERE id = ?]: of the two
    columns only [role] is part of the [user] record. *)
Definition with_role (r : string) (u : user) : user :=
  with_role_expiry r (premium_expires_at u) u.

(** POST /admin/user/approve *)
Definition admin_user_approve (userId : Z) (s : db) : response unit * db :=
  if Z.eqb userId 0 then (Fail 400 InvalidInput, s)
  else (Ok tt, update_user userId (with_role "distribuidor") s).

(** POST /admin/user/reject *)
Definition admin_user_reject (userId : Z) (s : db) : response unit * db :=
  if Z.eqb userId 0 then (Fail 400 InvalidInput, s)
  else (Ok tt, update_user userId (with_role "Usuario") s).

(** POST /user/cancel-supplier-application *)
Definition user_cancel_supplier_application (userId : Z) (s : db)
    : response unit * db :=
  if Z.eqb userId 0 then (Fail 400 InvalidInput, s)
  else (Ok tt, update_user userId (with_role "Usuario") s).

(** ** GET /admin/stats *)

(** The four instants the handler derives from the host's calendar:
    start of the day, of the week (Monday), of the month and of the
    year. *)
Record period_starts : Type := {
  startOfDay : Z;
  startOfWeekTime : Z;
  startOfMonth : Z;
  startOfYear : Z
}.

(** The [recharges] object of the answer. *)
Record recharges : Type := {
  r_day : Q;
  r_week : Q;
  r_month : Q;
  r_year : Q;
  r_total : Q
}.

(** [typeof tx.id === 'number' ? tx.id : 0] *)
Definition txTime (t : transaction) : Z :=
  match tx_id t with
  | Js.IdNum n => n
  | _ => 0%Z
  end.

(** The body of [history.forEach]. *)
Definition count_entry (p : period_starts) (acc : recharges) (t : transaction)
    : recharges :=
  if andb (String.eqb (tx_type t) "credit")
          (String.eqb (tx_status t) "Completada")
  then
    let amount := tx_amount t in
    if (txTime t >? 0)%Z then
      {| r_day := if (txTime t >=? startOfDay p)%Z
                  then r_day acc + amount else r_day acc;
         r_week := if (txTime t >=? startOfWeekTime p)%Z
                   then r_week acc + amount else r_week acc;
         r_month := if (txTime t >=? startOfMonth p)%Z
                    then r_month acc + amount else r_month acc;
         r_year := if (txTime t >=? startOfYear p)%Z
                   then r_year acc + amount else r_year acc;
         r_total := r_total acc + amount |}
    else acc
  else acc.

(** The two nested [forEach] over the users and their ledgers. *)
Definition stats_recharges (p : period_starts) (s : db) : recharges :=
  fold_left
    (fun acc u => fold_left (count_entry p) (transactions_history u) acc)
    (users s)
    {| r_day := 0; r_week := 0; r_month := 0; r_year := 0; r_total := 0 |}.

(** [rolesCount[r]] for a role [r]; a row with an empty role counts as
    [Usuario]. *)
Definition rolesCount (s : db) (r : string) : nat :=
  List.length
    (filter (fun u => String.eqb
                        (if String.eqb (role u) "" then "Usuario" else role u)
                        r) (users s)).

(** The answer of the handler: [totalUsers], [rolesCount], [recharges]. *)
Definition admin_stats (p : period_starts) (s : db)
    : nat * (string -> nat) * recharges :=
  (List.length (users s), rolesCount s, stats_recharges p s).

(** * Vocabulary of the further statements *)

(** Pending withdrawals of a user. *)
Definition pending_of (uid : Z) (ws : list withdrawal) : list withdrawal :=
  filter (fun w => andb (Z.eqb (w_user_id w) uid) (is_pending w)) ws.

(** At most one Pending withdrawal per user. *)
Definition one_pending (s : db) : Prop :=
  forall uid, (List.length (pending_of uid (withdrawals s)) <= 1)%nat.

(** No entry of the ledger is a pending one with this id. *)
Definition settled (transactionId : Js.id) (h : list transaction) : Prop :=
  existsb (pending_match transactionId) h = false.


(** Two stores agree outside the users table. *)
Definition same_but_users (s s' : db) : Prop :=
  products s' = products s /\ product_stock s' = product_stock s /\
  withdrawals s' = withdrawals s /\ orders s' = orders s /\
  withdrawal_fee s' = withdrawal_fee s /\
  next_stock_id s' = next_stock_id s /\
  next_withdrawal_id s' = next_withdrawal_id s.

(** The request with another [amount]. *)
Definition with_amount (a : Q) (r : purchase_req) : purchase_req :=
  {| pr_userId := pr_userId r; pr_productName := pr_productName r;
     pr_amount := a; pr_platform := pr_platform r;
     pr_quantity := pr_quantity r; pr_delivery := pr_delivery r;
     pr_finalPricePerUnit := pr_finalPricePerUnit r;
     pr_planType := pr_planType r |}.

(** No credential of the list comes from the stock row [r]. *)
Definition not_from (r : stock_row) (cs : list credential) : Prop :=
  Forall (fun c => stockId c <> ps_id r) cs.




(** ** Sequences of recharge requests *)

(** The ledger of user [uid] holds a Completed credit entry. *)
Definition recharged (uid : Z) (s : db) : Prop :=
  exists u,
    find_user uid s = Some u /\
    hasPreviousRecharges (transactions_history u) = true.

(** One request of the recharge workflow, by or for any user, whatever
    its answer: an entry is recorded, an id is approved or rejected. *)
Inductive recharge_step (s s' : db) : Prop :=
| step_record (uid : Z) (t : transaction) (r : response unit) :
    transaction_record uid t s = (r, s') -> recharge_step s s'
| step_approve (clk : clock) (uid : Z) (tid : Js.id) (r : response unit) :
    admin_transaction_approve clk uid tid s = (r, s') -> recharge_step s s'
| step_reject (uid : Z) (tid : Js.id) (r : response unit) :
    admin_transaction_reject uid tid s = (r, s') -> recharge_step s s'.

Inductive recharge_steps : db -> db -> Prop :=
| steps_nil (s : db) : recharge_steps s s
| steps_cons (s s1 s2 : db) :
    recharge_step s s1 -> recharge_steps s1 s2 -> recharge_steps s s2.

(** * Properties *)

(** ** Comparisons, rounding and parsing *)

Lemma Qltb_lt a b : Qltb a b = true <-> a < b.
Proof.
  unfold Qltb. rewrite Qlt_alt. destruct (a ?= b); split; congruence.
Qed.

Lemma Qltb_ge a b : Qltb a b = false <-> b <= a.
Proof.
  unfold Qltb. rewrite Qle_alt, <- (Qcompare_antisym a b).
  destruct (a ?= b); simpl; split; congruence.
Qed.

Lemma Qleb_le a b : Qleb a b = true <-> a <= b.
Proof.
  unfold Qleb. rewrite negb_true_iff. apply Qltb_ge.
Qed.

Example round2_tie : round2 (10625 # 1000) == 1063 # 100.
Proof. reflexivity. Qed.

Example parseInt_30_hex : Js.parseInt_digits 16 ["3"; "0"]%char = 48%Z.
Proof. reflexivity. Qed.

Example match_dias_30 : Js.match_dias "30 Días" = Some ["3"; "0"]%char.
Proof. reflexivity. Qed.

Example Z_to_string_ts : Js.Z_to_string 1700000000000 = "1700000000000".
Proof. reflexivity. Qed.

(** ** The users table under updates *)

Lemma write_ledger_keeps_id b h : keeps_id (write_ledger b h).
Proof. intro u. reflexivity. Qed.

Lemma find_user_update (k uid : Z) (f : user -> user) (s : db) :
  keeps_id f ->
  find_user k (update_user uid f s) =
  if Z.eqb k uid then option_map f (find_user k s) else find_user k s.
Proof.
  intro Hf. unfold find_user, update_user. simpl.
  induction (users s) as [|u us IH]; simpl.
  - destruct (Z.eqb k uid); reflexivity.
  - destruct (Z.eqb (u_id u) uid) eqn:Eu.
    + rewrite Hf. destruct (Z.eqb (u_id u) k) eqn:Ek.
      * apply Z.eqb_eq in Eu, Ek.
        assert (E : Z.eqb k uid = true) by (apply Z.eqb_eq; congruence).
        rewrite E. reflexivity.
      * exact IH.
    + destruct (Z.eqb (u_id u) k) eqn:Ek.
      * apply Z.eqb_eq in Ek. apply Z.eqb_neq in Eu.
        assert (E : Z.eqb k uid = false) by (apply Z.eqb_neq; congruence).
        rewrite E. reflexivity.
      * exact IH.
Qed.

Lemma find_user_set_balance_history k uid b h s :
  find_user k (set_balance_history uid b h s) =
  if Z.eqb k uid then option_map (write_ledger b h) (find_user k s)
  else find_user k s.
Proof. apply find_user_update, write_ledger_keeps_id. Qed.

Lemma find_user_set_history k uid h s :
  find_user k (set_history uid h s) =
  if Z.eqb k uid
  then option_map (fun u => write_ledger (balance u) h u) (find_user k s)
  else find_user k s.
Proof. apply find_user_update. intro u. reflexivity. Qed.

Lemma find_user_set_balance k uid b s :
  find_user k (set_balance uid b s) =
  if Z.eqb k uid
  then option_map (fun u => write_ledger b (transactions_history u) u)
         (find_user k s)
  else find_user k s.
Proof. apply find_user_update. intro u. reflexivity. Qed.

Lemma find_user_add_balance k uid a s :
  find_user k (add_balance uid a s) =
  if Z.eqb k uid
  then option_map
         (fun u => write_ledger (balance u + a) (transactions_history u) u)
         (find_user k s)
  else find_user k s.
Proof. apply find_user_update. intro u. reflexivity. Qed.

Lemma same_but_stock_refl s : same_but_stock s s.
Proof. repeat split. Qed.

Lemma same_but_stock_trans s1 s2 s3 :
  same_but_stock s1 s2 -> same_but_stock s2 s3 -> same_but_stock s1 s3.
Proof.
  unfold same_but_stock. intros (A1 & A2 & A3 & A4 & A5 & A6)
    (B1 & B2 & B3 & B4 & B5 & B6).
  repeat split; congruence.
Qed.

Lemma same_but_stock_update sel f s : same_but_stock s (update_stock_rows sel f s).
Proof. repeat split. Qed.

Lemma same_but_stock_insert mk s : same_but_stock s (insert_stock mk s).
Proof. repeat split. Qed.

(** ** The allocation loop *)

Lemma units_app a b : units (a ++ b) = (units a + units b)%Z.
Proof. induction a as [|c a IH]; simpl; [reflexivity | rewrite IH; ring]. Qed.

Lemma insert_sold_copies_spec k pid prov buyer d s cs :
  availableInRow d = 1%Z ->
  forall s' cs',
    insert_sold_copies k pid prov buyer d s cs = (s', cs') ->
    same_but_stock s s' /\ units cs' = (units cs + Z.of_nat k)%Z /\
    List.length cs' = (List.length cs + k)%nat.
Proof.
  intro Hd. revert s cs.
  induction k as [|k IH]; intros s cs s' cs' H.
  - simpl in H. injection H as <- <-. split; [apply same_but_stock_refl|].
    split; [simpl; ring | simpl; lia].
  - simpl in H. apply IH in H. destruct H as (Hs & Hu & Hl).
    split.
    + eapply same_but_stock_trans; [apply same_but_stock_insert | exact Hs].
    + rewrite Hu, Hl, units_app, length_app. simpl. rewrite Hd. split; lia.
Qed.





Lemma find_user_same s s' k : users s' = users s -> find_user k s' = find_user k s.
Proof. unfold find_user. intros ->. reflexivity. Qed.

(** ** The pool under an allocation *)

Lemma realStockCount_table pid s :
  realStockCount (unsold_rows pid s) = table_units pid (product_stock s).
Proof.
  unfold unsold_rows. induction (product_stock s) as [|r T IH]; simpl;
    [reflexivity|].
  unfold row_units at 1.
  destruct (andb (Z.eqb (product_id r) pid) (negb (is_sold r))); simpl;
    rewrite IH; reflexivity.
Qed.

Lemma table_units_app pid a b :
  table_units pid (a ++ b) = (table_units pid a + table_units pid b)%Z.
Proof. induction a as [|r a IH]; simpl; [reflexivity | rewrite IH; ring]. Qed.

Lemma rewrite_absent i f T :
  ~ In i (map ps_id T) ->
  map (fun r => if Z.eqb (ps_id r) i then f r else r) T = T.
Proof.
  induction T as [|r T IH]; simpl; [reflexivity|]. intro H.
  destruct (Z.eqb_spec (ps_id r) i) as [E|_]; [exfalso; apply H; left; exact E|].
  rewrite IH; [reflexivity|]. intro Hin. apply H. right. exact Hin.
Qed.

Lemma rewrite_ids i f T :
  (forall r, ps_id (f r) = ps_id r) ->
  map ps_id (map (fun r => if Z.eqb (ps_id r) i then f r else r) T)
  = map ps_id T.
Proof.
  intro Hf. induction T as [|r T IH]; simpl; [reflexivity|].
  rewrite IH. destruct (Z.eqb (ps_id r) i); [rewrite Hf|]; reflexivity.
Qed.

Lemma rewrite_keeps i f T r :
  In r T -> ps_id r <> i ->
  In r (map (fun x => if Z.eqb (ps_id x) i then f x else x) T).
Proof.
  intros Hin Hne. apply in_map_iff. exists r. split; [|exact Hin].
  destruct (Z.eqb_spec (ps_id r) i); [contradiction | reflexivity].
Qed.

Lemma table_units_rewrite pid f T row :
  NoDup (map ps_id T) -> In row T ->
  table_units pid (map (fun r => if Z.eqb (ps_id r) (ps_id row) then f r else r) T)
  = (table_units pid T - row_units pid row + row_units pid (f row))%Z.
Proof.
  induction T as [|r T IH]; simpl; [contradiction|].
  intros Hnd Hin. inversion Hnd as [|x l Hx Hl]; subst.
  destruct (Z.eqb_spec (ps_id r) (ps_id row)) as [E|Hne].
  - assert (r = row).
    { destruct Hin as [Hin|Hin]; [exact Hin|]. exfalso. apply Hx.
      rewrite E. apply in_map. exact Hin. }
    subst r. rewrite rewrite_absent by exact Hx. lia.
  - destruct Hin as [Hin|Hin]; [congruence|].
    rewrite IH by assumption. lia.
Qed.

Lemma insert_sold_copies_table pid k productId prov buyer d :
  forall s cs s' cs',
    insert_sold_copies k productId prov buyer d s cs = (s', cs') ->
    table_wf s ->
    table_wf s' /\
    (forall r, In r (product_stock s) -> In r (product_stock s')) /\
    table_units pid (product_stock s') = table_units pid (product_stock s).
Proof.
  induction k as [|k IH]; intros s cs s' cs' H [Hnd Hlt]; simpl in H.
  - injection H as <- <-. repeat split; auto.
  - apply IH in H.
    + destruct H as (Hwf & Hin & Hu). split; [exact Hwf|]. split.
      * intros r Hr. apply Hin. simpl. apply in_or_app. left. exact Hr.
      * rewrite Hu. simpl. rewrite table_units_app. simpl.
        unfold row_units. simpl. rewrite andb_false_r. lia.
    + split; simpl.
      * rewrite map_app. simpl. apply NoDup_app.
        -- exact Hnd.
        -- repeat constructor. intros [].
        -- intros x Hx [<-|[]]. apply in_map_iff in Hx.
           destruct Hx as (r & Er & Hr).
           rewrite Forall_forall in Hlt. specialize (Hlt r Hr). lia.
      * apply Forall_app. split.
        -- eapply Forall_impl; [|exact Hlt]. simpl. intros r Hr. lia.
        -- repeat constructor. simpl. lia.
Qed.

Lemma rewrite_wf i f s :
  (forall r, ps_id (f r) = ps_id r) ->
  table_wf s ->
  table_wf (update_stock_rows (fun r => Z.eqb (ps_id r) i) f s).
Proof.
  intros Hf [Hnd Hlt]. split; simpl.
  - rewrite rewrite_ids by exact Hf. exact Hnd.
  - rewrite Forall_forall in *. intros r Hr. apply in_map_iff in Hr.
    destruct Hr as (x & Ex & Hx). specialize (Hlt x Hx).
    destruct (Z.eqb (ps_id x) i); subst r; [rewrite Hf|]; exact Hlt.
Qed.





(** ** Purchase: the records handed over *)





(** ** Purchase: allocation *)



(** The scenario of the specification: three units on the shelf, as a
    record of 2 and a record of 1, and a purchase of 2.  With the record of
    2 first it is consumed whole (one sold record); with the record of 1
    first the record of 2 is split (two sold records).  Either way 2 units
    are sold, 1 unit remains and the counter reads 1. *)
Example purchase_two_of_three :
  (match user_purchase Shop.day0 "K3X9QA" (Shop.buy 2)
           (Shop.shelf [Shop.record 1 2; Shop.record 2 1]) with
   | (Ok creds, s') =>
       List.length creds = 1%nat /\ units creds = 2%Z /\
       realStockCount (unsold_rows 1 s') = 1%Z /\ cachedStock 1 s' = 1%Z
   | (Fail _ _, _) => False
   end) /\
  (match user_purchase Shop.day0 "K3X9QA" (Shop.buy 2)
           (Shop.shelf [Shop.record 1 1; Shop.record 2 2]) with
   | (Ok creds, s') =>
       List.length creds = 2%nat /\ units creds = 2%Z /\
       realStockCount (unsold_rows 1 s') = 1%Z /\ cachedStock 1 s' = 1%Z
   | (Fail _ _, _) => False
   end).
Proof. vm_compute. repeat split. Qed.

(** The failure path, run: a request of 3 against a pool of 2 answers 409
    after the loop has issued its [UPDATE]: the batch is left sold to the
    buyer, who paid nothing; the counter still reads 2 and the pool is
    empty. *)
Example purchase_failure_marks_rows :
  let r := user_purchase Shop.day0 "K3X9QA" (Shop.buy 3) Shop.shop in
  fst r = Fail 409 InsufficientStock /\
  List.length (Shop.sold_to 1 (snd r)) = 1%nat /\
  Shop.balance_of 1 (snd r) == 100 /\
  cachedStock 1 (snd r) = 2%Z /\
  realStockCount (unsold_rows 1 (snd r)) = 0%Z.
Proof. vm_compute. repeat split. Qed.


(** ** Purchase: the two ledgers *)

Lemma allocate_same rows qty pid prov buyer price :
  forall c s cs c' s' cs',
    allocate rows qty pid prov buyer price c s cs = (c', s', cs') ->
    same_but_stock s s'.
Proof.
  induction rows as [|row rest IH]; intros c s cs c' s' cs' H; simpl in H.
  - injection H as <- <- <-. apply same_but_stock_refl.
  - destruct (c >=? qty)%Z.
    + injection H as <- <- <-. apply same_but_stock_refl.
    + destruct (unpublished (data row)); [eapply IH; exact H|].
      destruct (availableInRow (data row) >? qty - c)%Z.
      * destruct (insert_sold_copies _ _ _ _ _ _ _) as [s2 creds] eqn:Ei.
        apply insert_sold_copies_spec in Ei; [|reflexivity].
        destruct Ei as (Hs2 & _). apply IH in H.
        eapply same_but_stock_trans; [|exact H].
        eapply same_but_stock_trans; [|exact Hs2].
        apply same_but_stock_update.
      * apply IH in H. eapply same_but_stock_trans; [|exact H].
        apply same_but_stock_update.
Qed.

Lemma find_user_orders k (b : bool) os s :
  find_user k (if b then set_orders os s else s) = find_user k s.
Proof. destruct b; reflexivity. Qed.

(** What a completed purchase leaves in the rows of the buyer and of the
    provider. *)
Lemma purchase_ledgers clk ordCode req s creds s' u p pv :
  user_purchase clk ordCode req s = (Ok creds, s') ->
  find_user (pr_userId req) s = Some u ->
  find_product (pr_productName req) (pr_platform req) s = Some p ->
  find_user (creator_user_id p) s = Some pv ->
  pr_amount req <= balance u /\
  exists bt pt,
    tx_type bt = "debit" /\ tx_amount bt = pr_amount req /\
    tx_status bt = "Completada" /\
    tx_type pt = "credit" /\ tx_amount pt = pr_amount req /\
    tx_status pt = "Completada" /\
    (creator_user_id p <> pr_userId req ->
     find_user (pr_userId req) s'
       = Some (write_ledger (balance u - pr_amount req)
                 (bt :: transactions_history u) u) /\
     find_user (creator_user_id p) s'
       = Some (write_ledger (balance pv + pr_amount req)
                 (pt :: transactions_history pv) pv)) /\
    (creator_user_id p = pr_userId req ->
     find_user (pr_userId req) s'
       = Some (write_ledger (balance u - pr_amount req + pr_amount req)
                 (pt :: bt :: transactions_history u) u)).
Proof.
  intros H Hu Hp Hpv. unfold user_purchase in H. cbv zeta in H.
  destruct (orb (Z.eqb (pr_userId req) 0) (String.eqb (pr_productName req) ""));
    [discriminate|].
  rewrite Hu in H.
  destruct (Qltb (balance u) (pr_amount req)) eqn:Eb; [discriminate|].
  rewrite Hp in H.
  destruct (allocate _ _ _ _ _ _ _ _ _) as [[c s1] cl] eqn:Ea.
  destruct (c <? pr_quantity req)%Z; [discriminate|].
  destruct (p_duration p) as [dur|]; [|discriminate].
  apply allocate_same in Ea.
  assert (E1 : forall k f, find_user k (update_product (p_id p) f s1)
                           = find_user k s).
  { intros k f. apply find_user_same. simpl. apply Ea. }
  match type of H with
  | context [set_balance_history (pr_userId req) _ (?t :: _) _] =>
      set (bt := t) in *
  end.
  match type of H with
  | context [set_balance_history (creator_user_id p) _ (?t :: _) _] =>
      set (pt := t) in *
  end.
  match type of H with
  | context [find_user (creator_user_id p) ?st] =>
      destruct (find_user (creator_user_id p) st) as [providerData|] eqn:Epv;
        [|discriminate]
  end.
  injection H as _ <-.
  split; [apply Qltb_ge; exact Eb|].
  rewrite find_user_set_balance_history, E1, Hpv in Epv.
  exists bt, pt.
  split; [reflexivity|]. split; [reflexivity|]. split; [reflexivity|].
  split; [reflexivity|]. split; [reflexivity|]. split; [reflexivity|].
  split.
  - intro Hne.
    assert (En : Z.eqb (creator_user_id p) (pr_userId req) = false)
      by (apply Z.eqb_neq; exact Hne).
    assert (En' : Z.eqb (pr_userId req) (creator_user_id p) = false)
      by (apply Z.eqb_neq; congruence).
    rewrite En in Epv. injection Epv as <-.
    rewrite !find_user_orders, !find_user_set_balance_history.
    rewrite !E1, Hu, Hpv, ?En, ?En', !Z.eqb_refl. simpl. split; reflexivity.
  - intro He.
    assert (En : Z.eqb (creator_user_id p) (pr_userId req) = true)
      by (apply Z.eqb_eq; exact He).
    rewrite En in Epv. simpl in Epv. injection Epv as <-.
    assert (pv = u) by congruence. subst pv.
    rewrite find_user_orders, !find_user_set_balance_history.
    rewrite He, Z.eqb_refl, E1, Hu. reflexivity.
Qed.

(** C6.  A completed purchase of amount [A] between distinct users
    leaves the buyer with the former balance minus [A] and the provider
    with the former balance plus [A], and puts one entry of amount [A] at
    the head of each ledger: a debit for the buyer, a credit for the
    provider. *)
Theorem purchase_moves_amount (clk : clock) (ordCode : string)
    (req : purchase_req) (s s' : db) (creds : list credential)
    (u pv : user) (p : product) :
  user_purchase clk ordCode req s = (Ok creds, s') ->
  find_user (pr_userId req) s = Some u ->
  find_product (pr_productName req) (pr_platform req) s = Some p ->
  find_user (creator_user_id p) s = Some pv ->
  creator_user_id p <> pr_userId req ->
  exists u' pv' bt pt,
    find_user (pr_userId req) s' = Some u' /\
    find_user (creator_user_id p) s' = Some pv' /\
    balance u' == balance u - pr_amount req /\
    balance pv' == balance pv + pr_amount req /\
    transactions_history u' = bt :: transactions_history u /\
    transactions_history pv' = pt :: transactions_history pv /\
    tx_type bt = "debit" /\ tx_amount bt == pr_amount req /\
    tx_type pt = "credit" /\ tx_amount pt == pr_amount req.
Proof.
  intros H Hu Hp Hpv Hne.
  destruct (purchase_ledgers _ _ _ _ _ _ _ _ _ H Hu Hp Hpv)
    as (_ & bt & pt & B1 & B2 & _ & P1 & P2 & _ & Hd & _).
  destruct (Hd Hne) as [Eu Epv].
  exists (write_ledger (balance u - pr_amount req)
            (bt :: transactions_history u) u),
         (write_ledger (balance pv + pr_amount req)
            (pt :: transactions_history pv) pv), bt, pt.
  rewrite B2, P2. simpl.
  repeat (split; [first [assumption | reflexivity]|]). reflexivity.
Qed.

(** The theorem at work: ana buys the batch from the vendor for 30. *)
Lemma purchase_moves_amount_witness :
  exists u' pv' bt pt,
    find_user 1 Shop.after_purchase = Some u' /\
    find_user 2 Shop.after_purchase = Some pv' /\
    balance u' == 100 - 30 /\
    balance pv' == 50 + 30 /\
    transactions_history u' = bt :: [] /\
    transactions_history pv' = pt :: [] /\
    tx_type bt = "debit" /\ tx_amount bt == 30 /\
    tx_type pt = "credit" /\ tx_amount pt == 30.
Proof.
  apply (purchase_moves_amount Shop.day0 "K3X9QA" (Shop.buy 2) Shop.shop
           Shop.after_purchase
           (match fst (user_purchase Shop.day0 "K3X9QA" (Shop.buy 2) Shop.shop)
            with Ok c => c | Fail _ _ => [] end)
           Shop.ana Shop.vendor Shop.plan).
  - vm_compute. reflexivity.
  - reflexivity.
  - reflexivity.
  - reflexivity.
  - vm_compute. discriminate.
Defined.

(** ** Recharge approval *)

Lemma approve_map_spec tid h :
  forall f a,
    approve_map tid h f a =
    (map (approve_entry tid) h, orb f (existsb (pending_match tid) h),
     last_amount tid h a).
Proof.
  induction h as [|t rest IH]; intros f a; simpl.
  - rewrite orb_false_r. reflexivity.
  - unfold approve_entry at 1. destruct (pending_match tid t).
    + rewrite IH. simpl. rewrite orb_true_r. reflexivity.
    + rewrite IH. simpl. reflexivity.
Qed.

Lemma map_approve_entry_none tid l :
  existsb (pending_match tid) l = false -> map (approve_entry tid) l = l.
Proof.
  induction l as [|t l IH]; simpl; [reflexivity|].
  intro H. apply orb_false_iff in H. destruct H as [Ht Hl].
  unfold approve_entry at 1. rewrite Ht, IH by exact Hl. reflexivity.
Qed.

Lemma last_amount_none tid l a :
  existsb (pending_match tid) l = false -> last_amount tid l a = a.
Proof.
  revert a. induction l as [|t l IH]; intros a; simpl; [reflexivity|].
  intro H. apply orb_false_iff in H. destruct H as [Ht Hl].
  rewrite Ht. apply IH, Hl.
Qed.

Lemma last_amount_app tid l1 l2 a :
  last_amount tid (l1 ++ l2)%list a = last_amount tid l2 (last_amount tid l1 a).
Proof.
  revert a. induction l1 as [|t l1 IH]; intros a; simpl; [reflexivity|].
  apply IH.
Qed.

Lemma find_user_pay_commission k clk r A n s :
  r <> k -> find_user k (pay_commission clk r A n s) = find_user k s.
Proof.
  intro Hne. unfold pay_commission.
  destruct (find_user r s) as [ref|]; [|reflexivity].
  destruct (Qgtb _ 0); [|reflexivity].
  rewrite find_user_set_balance_history.
  assert (E : Z.eqb k r = false) by (apply Z.eqb_neq; congruence).
  rewrite E. reflexivity.
Qed.

(** A ledger that holds a match holds a last one. *)
Lemma last_match_split tid h :
  existsb (pending_match tid) h = true ->
  exists l1 t l2,
    h = (l1 ++ t :: l2)%list /\ pending_match tid t = true /\
    existsb (pending_match tid) l2 = false.
Proof.
  induction h as [|x r IH]; simpl; [discriminate|].
  intro H. destruct (existsb (pending_match tid) r) eqn:Er.
  - destruct (IH eq_refl) as (l1 & t & l2 & -> & Ht & H2).
    exists (x :: l1), t, l2. repeat split; assumption.
  - rewrite orb_false_r in H. exists [], x, r. repeat split; assumption.
Qed.

Lemma last_amount_last tid l1 t l2 a :
  pending_match tid t = true ->
  existsb (pending_match tid) l2 = false ->
  last_amount tid (l1 ++ t :: l2)%list a = tx_amount t.
Proof.
  intros Ht H2. rewrite last_amount_app. simpl. rewrite Ht.
  apply last_amount_none, H2.
Qed.

Lemma pending_not_completed tid x :
  pending_match tid x = true -> with_status "Completada" x <> x.
Proof.
  intros Hp E. apply (f_equal tx_status) in E. simpl in E.
  unfold pending_match in Hp. apply andb_true_iff in Hp.
  destruct Hp as [_ Hs]. apply String.eqb_eq in Hs. rewrite Hs in E.
  discriminate.
Qed.

Lemma map_approve_entry_changes tid h :
  existsb (pending_match tid) h = true -> map (approve_entry tid) h <> h.
Proof.
  induction h as [|x r IH]; simpl; [discriminate|].
  intros H E. injection E as Ex Er.
  destruct (pending_match tid x) eqn:Ep.
  - unfold approve_entry in Ex. rewrite Ep in Ex.
    exact (pending_not_completed tid x Ep Ex).
  - simpl in H. exact (IH H Er).
Qed.

(** What the handler returns when the ledger holds a match, [t] being the
    last one. *)
Lemma approve_found clk userId tid s u l1 t l2 :
  find_user userId s = Some u ->
  transactions_history u = (l1 ++ t :: l2)%list ->
  pending_match tid t = true ->
  existsb (pending_match tid) l2 = false ->
  admin_transaction_approve clk userId tid s =
  (Ok tt,
   match truthy_ref (referred_by_user_id u) with
   | Some referrerId =>
       if negb (hasPreviousRecharges (transactions_history u))
       then pay_commission clk referrerId (tx_amount t) (username u)
              (approved_store userId u tid (tx_amount t) s)
       else approved_store userId u tid (tx_amount t) s
   | None => approved_store userId u tid (tx_amount t) s
   end).
Proof.
  intros Hu Hh Ht H2. unfold admin_transaction_approve.
  rewrite Hu. cbv zeta. rewrite approve_map_spec. cbv iota beta.
  assert (Hex : existsb (pending_match tid) (transactions_history u) = true).
  { rewrite Hh, existsb_app. simpl. rewrite Ht. apply orb_true_r. }
  assert (Ham : last_amount tid (transactions_history u) 0 = tx_amount t).
  { rewrite Hh. apply last_amount_last; assumption. }
  rewrite Hex, Ham. reflexivity.
Qed.

(** The user's own row after the approval: the amount is added and the
    matches are rewritten; a user who is their own referrer also receives
    the commission, when one is paid. *)
Lemma approve_row clk userId tid s u l1 t l2 :
  find_user userId s = Some u ->
  transactions_history u = (l1 ++ t :: l2)%list ->
  pending_match tid t = true ->
  existsb (pending_match tid) l2 = false ->
  let A := tx_amount t in
  let h' := map (approve_entry tid) (transactions_history u) in
  exists s',
    admin_transaction_approve clk userId tid s = (Ok tt, s') /\
    (find_user userId s' = Some (write_ledger (balance u + A) h' u)
     \/
     truthy_ref (referred_by_user_id u) = Some userId /\
     hasPreviousRecharges (transactions_history u) = false /\
     0 < commission_of A (role u) /\
     find_user userId s'
       = Some (write_ledger (balance u + A + commission_of A (role u))
                 (commission_tx clk (commission_of A (role u)) A (username u)
                    :: h') u)).
Proof.
  intros Hu Hh Ht H2 A h'.
  rewrite (approve_found clk _ _ _ _ _ _ _ Hu Hh Ht H2). fold A.
  set (s1 := approved_store userId u tid A s).
  assert (Hs1 : find_user userId s1 = Some (write_ledger (balance u + A) h' u)).
  { unfold s1, approved_store.
    rewrite find_user_set_balance_history, Z.eqb_refl, Hu. reflexivity. }
  eexists. split; [reflexivity|].
  destruct (truthy_ref (referred_by_user_id u)) as [r|] eqn:Er;
    [|left; exact Hs1].
  destruct (hasPreviousRecharges (transactions_history u)) eqn:Ep;
    simpl negb; cbv iota; [left; exact Hs1|].
  destruct (Z.eq_dec r userId) as [->|Hne].
  - unfold pay_commission. rewrite Hs1. cbv zeta.
    change (role (write_ledger (balance u + A) h' u)) with (role u).
    fold (commission_of A (role u)).
    destruct (Qgtb (commission_of A (role u)) 0) eqn:Eg; [|left; exact Hs1].
    right. split; [reflexivity|]. split; [reflexivity|].
    split; [apply Qltb_lt; exact Eg|].
    rewrite find_user_set_balance_history, Z.eqb_refl, Hs1. reflexivity.
  - left. rewrite find_user_pay_commission by exact Hne. exact Hs1.
Qed.

(** C10 (as amended).  Approval touches the store exactly when the user's
    ledger holds an entry with the given id in status [Pendiente].
    Without one (or without the user) it answers with an error and
    returns the store as it was.  With one or more, the store changes:
    every [Pendiente] entry with the id becomes [Completada], every other
    entry stays, and the user's balance grows by the amount of the last
    of them, [t]; when [t] is the only one, exactly [t] becomes
    [Completada] and the balance grows by exactly its amount.  A user who
    is their own referrer receives, on top, the commission of the
    approval when one is paid, under a commission entry at the head of
    the ledger. *)
Theorem approve_pending (clk : clock) (userId : Z) (transactionId : Js.id)
    (s : db) :
  (find_user userId s = None ->
   admin_transaction_approve clk userId transactionId s
     = (Fail 404 NotFound, s))
  /\
  (forall u,
     find_user userId s = Some u ->
     existsb (pending_match transactionId) (transactions_history u) = false ->
     admin_transaction_approve clk userId transactionId s
       = (Fail 404 NotFound, s))
  /\
  (forall u,
     find_user userId s = Some u ->
     existsb (pending_match transactionId) (transactions_history u) = true ->
     exists s' u' l1 t l2,
       admin_transaction_approve clk userId transactionId s = (Ok tt, s') /\
       s' <> s /\
       find_user userId s' = Some u' /\
       transactions_history u = (l1 ++ t :: l2)%list /\
       pending_match transactionId t = true /\
       existsb (pending_match transactionId) l2 = false /\
       let h' :=
         map (fun x => if pending_match transactionId x
                       then with_status "Completada" x else x)
           (transactions_history u) in
       (existsb (pending_match transactionId) l1 = false ->
        h' = (l1 ++ with_status "Completada" t :: l2)%list) /\
       (balance u' = balance u + tx_amount t /\ transactions_history u' = h'
        \/
        truthy_ref (referred_by_user_id u) = Some userId /\
        hasPreviousRecharges (transactions_history u) = false /\
        0 < commission_of (tx_amount t) (role u) /\
        balance u'
          = balance u + tx_amount t + commission_of (tx_amount t) (role u) /\
        exists ctx,
          transactions_history u' = ctx :: h' /\
          isCommission ctx = true /\
          tx_amount ctx = commission_of (tx_amount t) (role u)) /\
       (truthy_ref (referred_by_user_id u) <> Some userId ->
        balance u' = balance u + tx_amount t /\
        transactions_history u' = h')).
Proof.
  split; [|split].
  - unfold admin_transaction_approve. intros ->. reflexivity.
  - intros u Hu Hnone. unfold admin_transaction_approve. rewrite Hu. cbv zeta.
    rewrite approve_map_spec, Hnone. reflexivity.
  - intros u Hu Hex.
    destruct (last_match_split _ _ Hex) as (l1 & t & l2 & Hh & Ht & H2).
    destruct (approve_row clk userId transactionId s u l1 t l2 Hu Hh Ht H2)
      as (s' & Hrun & Hrow).
    change (fun x => if pending_match transactionId x
                     then with_status "Completada" x else x)
      with (approve_entry transactionId).
    set (h' := map (approve_entry transactionId) (transactions_history u))
      in *.
    assert (Hch : h' <> transactions_history u)
      by (apply map_approve_entry_changes, Hex).
    assert (Hone : existsb (pending_match transactionId) l1 = false ->
                   h' = (l1 ++ with_status "Completada" t :: l2)%list).
    { intro H1. unfold h'. rewrite Hh, map_app. simpl.
      unfold approve_entry at 2. rewrite Ht.
      rewrite !map_approve_entry_none by assumption. reflexivity. }
    destruct Hrow as [Hrow | (Hself & Hp & Hpos & Hrow)].
    + exists s', (write_ledger (balance u + tx_amount t) h' u), l1, t, l2.
      split; [exact Hrun|]. split.
      { intro E. rewrite E, Hu in Hrow. injection Hrow as Hrow.
        apply (f_equal transactions_history) in Hrow. simpl in Hrow.
        apply Hch. symmetry. exact Hrow. }
      split; [exact Hrow|]. split; [exact Hh|]. split; [exact Ht|].
      split; [exact H2|]. cbv zeta. split; [exact Hone|].
      split; [left; split; reflexivity|]. intros _. split; reflexivity.
    + eexists s', _, l1, t, l2.
      split; [exact Hrun|]. split.
      { intro E. rewrite E, Hu in Hrow. injection Hrow as Hrow.
        apply (f_equal (fun x => List.length (transactions_history x)))
          in Hrow.
        simpl in Hrow. unfold h' in Hrow. rewrite length_map in Hrow. lia. }
      split; [exact Hrow|]. split; [exact Hh|]. split; [exact Ht|].
      split; [exact H2|]. cbv zeta. split; [exact Hone|]. split.
      * right. split; [exact Hself|]. split; [exact Hp|].
        split; [exact Hpos|]. split; [reflexivity|].
        eexists. split; [reflexivity|]. split; reflexivity.
      * intro Hn. contradiction.
Qed.

(** C10, the claim as written fails.  Ana records two recharges under one
    id, of 50 and then of 20 (POST /transaction/record stores what it is
    sent).  The approval of that id marks both entries [Completada] and
    adds 50 to her balance: more than one entry changes, and the entry of
    20 is completed without its amount being credited. *)
Lemma approve_pending_counterexample :
  let s0 := snd (transaction_record 1 (Recharge.recharge 50) Shop.shop) in
  let s := snd (transaction_record 1 (Recharge.recharge 20) s0) in
  Shop.ledger_of 1 s = [Recharge.recharge 20; Recharge.recharge 50] /\
  Shop.balance_of 1 s == 100 /\
  pending_match (Js.IdNum Recharge.stamp) (Recharge.recharge 20) = true /\
  pending_match (Js.IdNum Recharge.stamp) (Recharge.recharge 50) = true /\
  match admin_transaction_approve Shop.day0 1 (Js.IdNum Recharge.stamp) s with
  | (Ok _, s') =>
      Shop.ledger_of 1 s'
        = [with_status "Completada" (Recharge.recharge 20);
           with_status "Completada" (Recharge.recharge 50)] /\
      Shop.balance_of 1 s' == 100 + 50 /\
      ~ Shop.balance_of 1 s' == 100 + 20 /\
      ~ Shop.balance_of 1 s' == 100 + 20 + 50
  | (Fail _ _, _) => False
  end.
Proof.
  vm_compute. repeat split; discriminate.
Qed.

(** The theorem at work: an id in another form finds nothing; ana's one
    pending recharge of 50 is completed and credited; of two entries
    under one id both are completed and the last is credited. *)
Lemma approve_pending_witness :
  (admin_transaction_approve Shop.day0 1 (Js.IdStr "1700000000000")
     (Recharge.store 50) = (Fail 404 NotFound, Recharge.store 50))
  /\
  (exists s' u',
     admin_transaction_approve Shop.day0 1 (Js.IdNum Recharge.stamp)
       (Recharge.store 50) = (Ok tt, s') /\
     s' <> Recharge.store 50 /\
     find_user 1 s' = Some u' /\
     balance u' = 100 + 50 /\
     transactions_history u'
       = [with_status "Completada" (Recharge.recharge 50)])
  /\
  (let s := set_users
              [write_ledger 100 [Recharge.recharge 20; Recharge.recharge 50]
                 Shop.ana; Shop.vendor; Shop.dario] Shop.shop in
   exists s' u',
     admin_transaction_approve Shop.day0 1 (Js.IdNum Recharge.stamp) s
       = (Ok tt, s') /\
     find_user 1 s' = Some u' /\
     balance u' = 100 + 50 /\
     transactions_history u'
       = [with_status "Completada" (Recharge.recharge 20);
          with_status "Completada" (Recharge.recharge 50)]).
Proof.
  split; [|split].
  - apply (proj1 (proj2 (approve_pending Shop.day0 1 (Js.IdStr "1700000000000")
                           (Recharge.store 50))) (Recharge.ana 50));
      reflexivity.
  - destruct (proj2 (proj2 (approve_pending Shop.day0 1
                              (Js.IdNum Recharge.stamp) (Recharge.store 50)))
                (Recharge.ana 50) eq_refl eq_refl)
      as (s' & u' & l1 & t & l2 & Hrun & Hne & Hu' & _ & _ & _ & _ & _ & Hplain).
    destruct Hplain as [Hb Hl]; [vm_compute; discriminate|].
    exists s', u'. split; [exact Hrun|]. split; [exact Hne|].
    split; [exact Hu'|].
    vm_compute in Hrun. injection Hrun as <-.
    vm_compute in Hu'. injection Hu' as <-. split; reflexivity.
  - intro s.
    destruct (proj2 (proj2 (approve_pending Shop.day0 1
                              (Js.IdNum Recharge.stamp) s))
                (write_ledger 100 [Recharge.recharge 20; Recharge.recharge 50]
                   Shop.ana) eq_refl eq_refl)
      as (s' & u' & l1 & t & l2 & Hrun & _ & Hu' & _ & _ & _ & _ & _ & Hplain).
    destruct Hplain as [Hb Hl]; [vm_compute; discriminate|].
    exists s', u'. split; [exact Hrun|]. split; [exact Hu'|].
    vm_compute in Hrun. injection Hrun as <-.
    vm_compute in Hu'. injection Hu' as <-. split; reflexivity.
Defined.

Lemma approve_unique clk userId transactionId s u l1 t l2 :
  find_user userId s = Some u ->
  transactions_history u = (l1 ++ t :: l2)%list ->
  pending_match transactionId t = true ->
  existsb (pending_match transactionId) l1 = false ->
  existsb (pending_match transactionId) l2 = false ->
  admin_transaction_approve clk userId transactionId s =
  (Ok tt,
   match truthy_ref (referred_by_user_id u) with
   | Some referrerId =>
       if negb (hasPreviousRecharges (transactions_history u))
       then pay_commission clk referrerId (tx_amount t) (username u)
              (approved_user_store userId u l1 t l2 s)
       else approved_user_store userId u l1 t l2 s
   | None => approved_user_store userId u l1 t l2 s
   end).
Proof.
  intros Hu Hh Ht H1 H2. unfold admin_transaction_approve.
  rewrite Hu. cbv zeta. rewrite approve_map_spec. cbv iota beta.
  assert (Hex : existsb (pending_match transactionId)
                  (transactions_history u) = true).
  { rewrite Hh, existsb_app. simpl. rewrite Ht. apply orb_true_r. }
  assert (Hmap : map (approve_entry transactionId) (transactions_history u)
                 = (l1 ++ with_status "Completada" t :: l2)%list).
  { rewrite Hh, map_app. simpl. unfold approve_entry at 2. rewrite Ht.
    rewrite !map_approve_entry_none by assumption. reflexivity. }
  assert (Ham : last_amount transactionId (transactions_history u) 0
                = tx_amount t).
  { rewrite Hh, last_amount_app. simpl. rewrite Ht.
    apply last_amount_none, H2. }
  rewrite Hex, Hmap, Ham. reflexivity.
Qed.

(** *** The commission *)

(** Rounding to binary64 at work: a value with 53 significant bits is
    kept, a tie goes to the even significand, the smallest subnormal is
    [2 ^ -1074], and half of it rounds to 0. *)
Example to_double_rounds :
  to_double (1 # 3) == 6004799503160661 # 18014398509481984 /\
  to_double (- (1 # 3)) == - (6004799503160661 # 18014398509481984) /\
  to_double 9007199254740991 == 9007199254740991 /\
  to_double 9007199254740993 == 9007199254740992 /\
  to_double 9007199254740995 == 9007199254740996 /\
  to_double (pow2 (-1074)) == pow2 (-1074) /\
  to_double (pow2 (-1075)) == 0 /\
  to_double (3 * pow2 (-1075)) == 2 * pow2 (-1074).
Proof.
  vm_compute. repeat split.
Qed.

(** The literals of the role table, and the product of the approval on
    some amounts: in binary64 [10.5 * 0.15] lies below 1.575, and
    [toFixed(2)] gives 1.57. *)
Example commission_doubles :
  to_double (15 # 100) == 5404319552844595 # 36028797018963968 /\
  to_double (10 # 100) == 3602879701896397 # 36028797018963968 /\
  to_double (105 # 10) == 105 # 10 /\
  to_double (to_double (105 # 10) * to_double (15 # 100))
    == 7093169413108531 # 4503599627370496 /\
  commission_of (105 # 10) "Distribuidor Premium" == 157 # 100 /\
  commission_of (5 # 10) "Distribuidor Premium" == 7 # 100 /\
  commission_of (505 # 10) "Distribuidor Premium" == 757 # 100 /\
  commission_of 50 "Distribuidor Premium" == 750 # 100 /\
  commission_of 50 "distribuidor" == 5 /\
  commission_of 50 "Usuario" == 0.
Proof.
  vm_compute. repeat split.
Qed.

Lemma commission_zero A r : commissionRate r == 0 -> commission_of A r == 0.
Proof.
  intro H. unfold commission_of.
  assert (E : Qnum (to_double A * commissionRate r) = 0%Z).
  { destruct (commissionRate r) as [n d]. unfold Qeq in H. simpl in H.
    simpl. nia. }
  unfold to_double at 1. rewrite E. reflexivity.
Qed.

(** *** Recharge requests keep a Completed credit entry *)

Lemma completed_credit_map (g : transaction -> transaction) h :
  (forall x, andb (String.eqb (tx_status x) "Completada")
                  (String.eqb (tx_type x) "credit") = true -> g x = x) ->
  hasPreviousRecharges h = true -> hasPreviousRecharges (map g h) = true.
Proof.
  intro Hg. unfold hasPreviousRecharges.
  induction h as [|x r IH]; simpl; [discriminate|].
  intro H. apply orb_true_iff in H. apply orb_true_iff.
  destruct H as [H|H].
  - left. rewrite (Hg x H). exact H.
  - right. exact (IH H).
Qed.

Lemma completed_not_pending tid x :
  andb (String.eqb (tx_status x) "Completada")
       (String.eqb (tx_type x) "credit") = true ->
  pending_match tid x = false.
Proof.
  intro H. apply andb_true_iff in H. destruct H as [Hs _].
  apply String.eqb_eq in Hs. unfold pending_match. rewrite Hs.
  apply andb_false_r.
Qed.

Lemma recharged_set_balance_history uid k b h s :
  (forall u, find_user k s = Some u ->
             hasPreviousRecharges (transactions_history u) = true ->
             hasPreviousRecharges h = true) ->
  recharged uid s -> recharged uid (set_balance_history k b h s).
Proof.
  intros Hh (u & Hu & Hp). unfold recharged.
  rewrite find_user_set_balance_history.
  destruct (Z.eqb_spec uid k) as [->|Hne].
  - rewrite Hu. eexists. split; [reflexivity|]. simpl. exact (Hh u Hu Hp).
  - exists u. split; assumption.
Qed.

Lemma recharged_set_history uid k h s :
  (forall u, find_user k s = Some u ->
             hasPreviousRecharges (transactions_history u) = true ->
             hasPreviousRecharges h = true) ->
  recharged uid s -> recharged uid (set_history k h s).
Proof.
  intros Hh (u & Hu & Hp). unfold recharged.
  rewrite find_user_set_history.
  destruct (Z.eqb_spec uid k) as [->|Hne].
  - rewrite Hu. eexists. split; [reflexivity|]. simpl. exact (Hh u Hu Hp).
  - exists u. split; assumption.
Qed.

Lemma recharged_pay_commission uid clk r A n s :
  recharged uid s -> recharged uid (pay_commission clk r A n s).
Proof.
  intro H. unfold pay_commission.
  destruct (find_user r s) as [ref|] eqn:Er; [|exact H].
  cbv zeta. destruct (Qgtb _ 0); [|exact H].
  apply recharged_set_balance_history; [|exact H].
  intros u Hu Hp. reflexivity.
Qed.

Lemma recharged_step uid s s' :
  recharge_step s s' -> recharged uid s -> recharged uid s'.
Proof.
  intros [k t r H | clk k tid r H | k tid r H] Hrec.
  - unfold transaction_record in H.
    destruct (Z.eqb k 0); [injection H as _ <-; exact Hrec|].
    destruct (find_user k s) as [uk|] eqn:Ek;
      [|injection H as _ <-; exact Hrec].
    injection H as _ <-. apply recharged_set_history; [|exact Hrec].
    intros u Hu Hp. rewrite Ek in Hu. injection Hu as <-.
    unfold hasPreviousRecharges in *. simpl. rewrite Hp. apply orb_true_r.
  - unfold admin_transaction_approve in H.
    destruct (find_user k s) as [uk|] eqn:Ek;
      [|injection H as _ <-; exact Hrec].
    cbv zeta in H. rewrite approve_map_spec in H. cbv iota beta in H.
    destruct (existsb (pending_match tid) (transactions_history uk));
      simpl negb in H; cbv iota in H; [|injection H as _ <-; exact Hrec].
    injection H as _ <-.
    assert (H1 : recharged uid
                   (set_balance_history k
                      (balance uk
                       + last_amount tid (transactions_history uk) 0)
                      (map (approve_entry tid) (transactions_history uk)) s)).
    { apply recharged_set_balance_history; [|exact Hrec].
      intros u Hu Hp. rewrite Ek in Hu. injection Hu as <-.
      apply completed_credit_map; [|exact Hp].
      intros x Hx. unfold approve_entry.
      rewrite (completed_not_pending tid x Hx). reflexivity. }
    destruct (truthy_ref (referred_by_user_id uk)); [|exact H1].
    destruct (negb _); [|exact H1].
    apply recharged_pay_commission, H1.
  - unfold admin_transaction_reject in H.
    destruct (find_user k s) as [uk|] eqn:Ek;
      [|injection H as _ <-; exact Hrec].
    cbv zeta in H. destruct (negb _); [injection H as _ <-; exact Hrec|].
    injection H as _ <-. apply recharged_set_history; [|exact Hrec].
    intros u Hu Hp. rewrite Ek in Hu. injection Hu as <-.
    apply completed_credit_map; [|exact Hp].
    intros x Hx. rewrite (completed_not_pending tid x Hx). reflexivity.
Qed.

Lemma recharged_steps uid s s' :
  recharge_steps s s' -> recharged uid s -> recharged uid s'.
Proof.
  induction 1 as [s|s s1 s2 Hstep _ IH]; intro H; [exact H|].
  apply IH, (recharged_step uid s s1 Hstep H).
Qed.

(** An approval for a user whose ledger holds a Completed credit entry
    writes that user's row and nothing else. *)
Lemma approve_recharged clk uid tid s r s' :
  recharged uid s ->
  admin_transaction_approve clk uid tid s = (r, s') ->
  s' = s \/
  exists u l1 t l2,
    find_user uid s = Some u /\
    transactions_history u = (l1 ++ t :: l2)%list /\
    pending_match tid t = true /\
    existsb (pending_match tid) l2 = false /\
    s' = approved_store uid u tid (tx_amount t) s.
Proof.
  intros (u & Hu & Hp) H.
  destruct (existsb (pending_match tid) (transactions_history u)) eqn:Hex.
  - destruct (last_match_split _ _ Hex) as (l1 & t & l2 & Hh & Ht & H2).
    rewrite (approve_found clk _ _ _ _ _ _ _ Hu Hh Ht H2), Hp in H.
    simpl negb in H. cbv iota in H.
    right. exists u, l1, t, l2. repeat split; try assumption.
    destruct (truthy_ref (referred_by_user_id u)); congruence.
  - left. unfold admin_transaction_approve in H. rewrite Hu in H.
    cbv zeta in H. rewrite approve_map_spec, Hex in H. simpl in H.
    congruence.
Qed.

(** C4 (as amended).  Approving the pending entry [t] of amount [A] (the
    last pending entry under the id): the referrer is credited exactly
    when the user has a referrer, the ledger held no Completed credit
    entry before, and the commission is positive; the commission is the
    product [A * rate] as the program computes it, in binary64, cut to
    two decimals by [toFixed], with rate 0.15 for [Distribuidor Premium],
    0.10 for [distribuidor] and [proveedor], 0 for any other role (which
    therefore never earns).  When the ledger holds a Completed credit
    entry the approval pays nothing.  After the approval of a credit
    entry the ledger holds one, and keeps one through every sequence of
    further recordings, approvals and rejections of recharges: none of
    the approvals in or after such a sequence pays a commission on this
    user's recharges. *)
Theorem approve_commission (clk : clock) (userId : Z) (transactionId : Js.id)
    (s : db) (u : user) (l1 l2 : list transaction) (t : transaction) :
  find_user userId s = Some u ->
  transactions_history u = (l1 ++ t :: l2)%list ->
  pending_match transactionId t = true ->
  existsb (pending_match transactionId) l2 = false ->
  let A := tx_amount t in
  let s1 := approved_store userId u transactionId A s in
  exists s2,
    admin_transaction_approve clk userId transactionId s = (Ok tt, s2) /\
    (forall r ref,
       commission_due u s1 A r ref ->
       exists ctx,
         s2 = set_balance_history r (balance ref + commission_of A (role ref))
                (ctx :: transactions_history ref) s1 /\
         tx_type ctx = "credit" /\ tx_status ctx = "Completada" /\
         tx_amount ctx = commission_of A (role ref) /\
         isCommission ctx = true /\ sourceUser ctx = Some (username u)) /\
    ((forall r ref, ~ commission_due u s1 A r ref) -> s2 = s1) /\
    (forall r ref,
       find_user r s1 = Some ref ->
       commissionRate (role ref) == 0 -> ~ commission_due u s1 A r ref) /\
    (forall r,
       commission_of A r
       = round2 (to_double (to_double A * commissionRate r))) /\
    (commissionRate "Distribuidor Premium" = to_double (15 # 100) /\
     commissionRate "distribuidor" = to_double (10 # 100) /\
     commissionRate "proveedor" = to_double (10 # 100) /\
     forall r, r <> "Distribuidor Premium" -> r <> "distribuidor" ->
               r <> "proveedor" -> commissionRate r = 0) /\
    (hasPreviousRecharges (transactions_history u) = true -> s2 = s1) /\
    (tx_type t = "credit" ->
     forall s3,
       recharge_steps s2 s3 ->
       recharged userId s3 /\
       forall clk' tid' r s4,
         admin_transaction_approve clk' userId tid' s3 = (r, s4) ->
         s4 = s3 \/
         exists u3 k1 t3 k2,
           find_user userId s3 = Some u3 /\
           transactions_history u3 = (k1 ++ t3 :: k2)%list /\
           pending_match tid' t3 = true /\
           existsb (pending_match tid') k2 = false /\
           s4 = approved_store userId u3 tid' (tx_amount t3) s3).
Proof.
  intros Hu Hh Ht H2 A s1.
  rewrite (approve_found clk _ _ _ _ _ _ _ Hu Hh Ht H2).
  fold A. fold s1. eexists. split; [reflexivity|].
  split; [|split; [|split; [|split; [|split; [|split]]]]].
  - intros r ref (Hr & Hprev & Href & Hpos).
    rewrite Hr, Hprev. simpl negb. cbv iota.
    unfold pay_commission. rewrite Href. fold (commission_of A (role ref)).
    assert (E : Qgtb (commission_of A (role ref)) 0 = true)
      by (apply Qltb_lt; exact Hpos).
    cbv zeta. rewrite E. eexists. split; [reflexivity|]. repeat split.
  - intro Hno.
    destruct (truthy_ref (referred_by_user_id u)) as [r|] eqn:Er;
      [|reflexivity].
    destruct (hasPreviousRecharges (transactions_history u)) eqn:Eprev;
      [reflexivity|]. simpl negb. cbv iota.
    unfold pay_commission.
    destruct (find_user r s1) as [ref|] eqn:Eref; [|reflexivity].
    fold (commission_of A (role ref)). cbv zeta.
    destruct (Qgtb (commission_of A (role ref)) 0) eqn:Eg; [|reflexivity].
    exfalso. apply (Hno r ref). repeat split; try assumption.
    apply Qltb_lt. exact Eg.
  - intros r ref Href Hrate (_ & _ & _ & Hpos).
    rewrite (commission_zero A (role ref) Hrate) in Hpos. discriminate.
  - intro r. reflexivity.
  - split; [reflexivity|]. split; [reflexivity|]. split; [reflexivity|].
    intros r Ha Hb Hc. unfold commissionRate.
    apply String.eqb_neq in Ha, Hb, Hc. rewrite Ha, Hb, Hc. reflexivity.
  - intro Hprev. rewrite Hprev.
    destruct (truthy_ref (referred_by_user_id u)); reflexivity.
  - intros Hty s3 Hsteps.
    assert (H1 : recharged userId s1).
    { unfold s1, approved_store, recharged.
      rewrite find_user_set_balance_history, Z.eqb_refl, Hu.
      eexists. split; [reflexivity|]. simpl.
      unfold hasPreviousRecharges. rewrite Hh, map_app, existsb_app. simpl.
      unfold approve_entry at 2 3. rewrite Ht. simpl. rewrite Hty. simpl.
      apply orb_true_r. }
    match type of Hsteps with
    | recharge_steps ?st _ => assert (H2' : recharged userId st)
    end.
    { destruct (truthy_ref (referred_by_user_id u)); [|exact H1].
      destruct (negb _); [|exact H1].
      apply recharged_pay_commission, H1. }
    pose proof (recharged_steps userId _ _ Hsteps H2') as H3.
    split; [exact H3|].
    intros clk' tid' r s4 Hrun.
    exact (approve_recharged clk' userId tid' s3 r s4 H3 Hrun).
Qed.

(** C4, the claim as written fails, in three places.
    - Ana has a referrer with an eligible role and no earlier Completed
      credit, yet approving her recharge of 0.04 credits nothing: the
      commission is cut to 0.00 and the handler pays only a positive one.
    - With a [Distribuidor Premium] referrer and a recharge of 10.5 the
      referrer receives 1.57, where [10.5 * 0.15] rounded to two decimals
      is 1.58: the program's product of doubles lies below 1.575.
    - After her recharge of 50 was approved (dario receives 5), ana
      records an entry under the same id and cancels it: the
      cancellation rewrites every entry with the id, the approved one
      included.  Her next recharge of 50 pays dario again. *)
Lemma commission_counterexample :
  (referred_by_user_id (Recharge.ana (4 # 100)) = Some 3%Z /\
   option_map role (find_user 3 (Recharge.store (4 # 100)))
     = Some "distribuidor" /\
   hasPreviousRecharges (transactions_history (Recharge.ana (4 # 100)))
     = false /\
   fst (admin_transaction_approve Shop.day0 1 (Js.IdNum Recharge.stamp)
          (Recharge.store (4 # 100))) = Ok tt /\
   Shop.ledger_of 3 (Recharge.approved (4 # 100)) = [] /\
   Shop.balance_of 3 (Recharge.approved (4 # 100)) == 0)
  /\
  (let s := update_user 3 (with_role "Distribuidor Premium")
              (Recharge.store (105 # 10)) in
   let s' := snd (admin_transaction_approve Shop.day0 1
                    (Js.IdNum Recharge.stamp) s) in
   option_map role (find_user 3 s) = Some "Distribuidor Premium" /\
   round2 ((105 # 10) * (15 # 100)) == 158 # 100 /\
   Shop.balance_of 3 s' == 157 # 100 /\
   map tx_amount (Shop.ledger_of 3 s') = [157 # 100])
  /\
  (let next := plain_tx (Js.IdNum (Recharge.stamp + 1)) "credit" "Pendiente"
                 50 in
   let s1 := Recharge.approved 50 in
   let s2 := snd (transaction_record 1 (Recharge.recharge 20) s1) in
   let s3 := snd (transaction_cancel 1 (Js.IdNum Recharge.stamp) s2) in
   let s4 := snd (transaction_record 1 next s3) in
   let s5 := snd (admin_transaction_approve Shop.day0 1
                    (Js.IdNum (Recharge.stamp + 1)) s4) in
   Shop.balance_of 3 s1 == 5 /\
   map tx_status (Shop.ledger_of 1 s1) = ["Completada"] /\
   map tx_status (Shop.ledger_of 1 s3) = ["Cancelada"; "Cancelada"] /\
   Shop.balance_of 3 s5 == 10 /\
   List.length (Shop.ledger_of 3 s5) = 2%nat).
Proof.
  vm_compute. repeat split.
Qed.

(** A support ticket has the same effect: POST /user/send-to-support on
    the approved recharge sets its status to [Soporte], and the next
    recharge pays the referrer again. *)
Example ticket_on_recharge_pays_again :
  let next := plain_tx (Js.IdNum (Recharge.stamp + 1)) "credit" "Pendiente"
                50 in
  let s1 := Recharge.approved 50 in
  let s2 := snd (user_send_to_support Shop.day0 "R4ND0M" 1
                   (Js.IdNum Recharge.stamp) "no llega" s1) in
  let s3 := snd (transaction_record 1 next s2) in
  let s4 := snd (admin_transaction_approve Shop.day0 1
                   (Js.IdNum (Recharge.stamp + 1)) s3) in
  Shop.balance_of 3 s1 == 5 /\
  map tx_status (Shop.ledger_of 1 s2) = ["Soporte"] /\
  Shop.balance_of 3 s4 == 10.
Proof.
  vm_compute. repeat split.
Qed.

(** The scenario of the specification: ana, referred by the distribuidor
    dario, recharges 50; she gains 50 and dario gains 5.00 with one
    commission entry.  Her next recharge of 50, recorded and approved,
    pays dario nothing. *)
Lemma approve_commission_witness :
  exists s2,
    admin_transaction_approve Shop.day0 1 (Js.IdNum Recharge.stamp)
      (Recharge.store 50) = (Ok tt, s2) /\
    Shop.balance_of 1 s2 == 150 /\
    Shop.balance_of 3 s2 == 5 /\
    List.length (Shop.ledger_of 3 s2) = 1%nat /\
    let next := plain_tx (Js.IdNum (Recharge.stamp + 1)) "credit" "Pendiente"
                  50 in
    let s3 := snd (transaction_record 1 next s2) in
    let s4 := snd (admin_transaction_approve Shop.day0 1
                     (Js.IdNum (Recharge.stamp + 1)) s3) in
    find_user 3 s4 = find_user 3 s3 /\
    Shop.balance_of 1 s4 == 200.
Proof.
  destruct (approve_commission Shop.day0 1 (Js.IdNum Recharge.stamp)
              (Recharge.store 50) (Recharge.ana 50) [] []
              (Recharge.recharge 50) eq_refl eq_refl eq_refl eq_refl)
    as (s2 & Hrun & Hdue & _ & _ & _ & _ & _ & Hlater).
  exists s2. split; [exact Hrun|].
  destruct (Hdue 3%Z Shop.dario) as (ctx & Hs2 & _).
  { repeat split. }
  split; [rewrite Hs2; vm_compute; reflexivity|].
  split; [rewrite Hs2; vm_compute; reflexivity|].
  split; [rewrite Hs2; vm_compute; reflexivity|].
  intros next s3 s4.
  assert (Hsteps : recharge_steps s2 s3).
  { apply (steps_cons s2 s3 s3); [|apply steps_nil].
    apply (step_record s2 s3 1%Z next (fst (transaction_record 1 next s2))).
    unfold s3. apply surjective_pairing. }
  destruct (Hlater eq_refl s3 Hsteps) as (_ & Hno).
  destruct (Hno Shop.day0 (Js.IdNum (Recharge.stamp + 1))
              (fst (admin_transaction_approve Shop.day0 1
                      (Js.IdNum (Recharge.stamp + 1)) s3)) s4)
    as [E | (u3 & k1 & t3 & k2 & _ & _ & _ & _ & E)].
  { unfold s4. apply surjective_pairing. }
  - exfalso. clear Hno Hlater Hsteps Hs2 Hdue.
    vm_compute in Hrun. injection Hrun as <-. vm_compute in E. discriminate.
  - split.
    + rewrite E. unfold approved_store.
      rewrite find_user_set_balance_history. reflexivity.
    + clear E Hno Hlater Hsteps Hs2 Hdue.
      vm_compute in Hrun. injection Hrun as <-. vm_compute. reflexivity.
Defined.

(** ** Withdrawals *)

Lemma find_withdrawal_same s s' wid :
  withdrawals s' = withdrawals s ->
  find_withdrawal wid s' = find_withdrawal wid s.
Proof. unfold find_withdrawal. intros ->. reflexivity. Qed.

Lemma find_withdrawal_set_status wid st s :
  find_withdrawal wid (set_withdrawal_status wid st s)
  = option_map (with_w_status st) (find_withdrawal wid s).
Proof.
  unfold find_withdrawal, set_withdrawal_status. simpl.
  induction (withdrawals s) as [|w ws IH]; simpl; [reflexivity|].
  destruct (Z.eqb (w_id w) wid) eqn:E; simpl; rewrite E; [reflexivity|exact IH].
Qed.

Lemma find_withdrawal_deleted wid ws :
  find (fun w => Z.eqb (w_id w) wid)
    (filter (fun x => negb (Z.eqb (w_id x) wid)) ws) = None.
Proof.
  induction ws as [|w ws IH]; simpl; [reflexivity|].
  destruct (Z.eqb (w_id w) wid) eqn:E; simpl; [exact IH|].
  rewrite E. exact IH.
Qed.

Lemma withdraw_request (userId : Z) (G : Q) (s : db) :
  0 < G ->
  (has_pending userId s = true ->
   supplier_withdraw userId G s = (Fail 400 DuplicateRequest, s)) /\
  (forall u,
     has_pending userId s = false ->
     find_user userId s = Some u ->
     (round2 (balance u) < round2 G ->
      supplier_withdraw userId G s = (Fail 400 InsufficientBalance, s)) /\
     (round2 G <= round2 (balance u) ->
      exists s' w,
        supplier_withdraw userId G s = (Ok tt, s') /\
        withdrawals s' = (withdrawals s ++ [w])%list /\
        w_user_id w = userId /\ w_status w = "Pending" /\
        amount_original w = G /\
        amount_final w = G - G * feeRate s /\
        find_user userId s'
          = Some (write_ledger (balance u - G) (transactions_history u) u))).
Proof.
  intro HG.
  assert (E0 : Qleb G 0 = false).
  { unfold Qleb. apply negb_false_iff, Qltb_lt, HG. }
  unfold supplier_withdraw, has_pending. rewrite E0. split.
  - intros ->. reflexivity.
  - intros u Hnp Hu. rewrite Hnp, Hu. cbv zeta. split.
    + intro Hlt. apply Qltb_lt in Hlt. unfold Qgtb. rewrite Hlt. reflexivity.
    + intro Hle. apply Qltb_ge in Hle. unfold Qgtb. rewrite Hle.
      eexists; eexists. split; [reflexivity|].
      split; [reflexivity|]. split; [reflexivity|]. split; [reflexivity|].
      split; [reflexivity|]. split; [reflexivity|].
      rewrite find_user_set_balance, Z.eqb_refl.
      rewrite (find_user_same s) by reflexivity. rewrite Hu. reflexivity.
Qed.

Lemma withdraw_approve (clk : clock) (wid : Z) (s : db) (w : withdrawal)
    (u : user) :
  find_withdrawal wid s = Some w ->
  is_pending w = true ->
  find_user (w_user_id w) s = Some u ->
  exists s' e,
    admin_withdraw_manage clk wid "approve" s = (Ok tt, s') /\
    find_withdrawal wid s' = Some (with_w_status "Approved" w) /\
    find_user (w_user_id w) s'
      = Some (write_ledger (balance u) (e :: transactions_history u) u) /\
    tx_type e = "debit" /\ tx_status e = "Completada" /\
    tx_amount e = amount_final w.
Proof.
  intros Hw Hp Hu. unfold admin_withdraw_manage.
  fold (find_withdrawal wid s). rewrite Hw, Hp. simpl negb. cbv iota.
  simpl String.eqb. cbv iota zeta.
  rewrite (find_user_same s) by reflexivity. rewrite Hu.
  eexists; eexists. split; [reflexivity|]. split.
  - rewrite (find_withdrawal_same (set_withdrawal_status wid "Approved" s))
      by reflexivity.
    rewrite find_withdrawal_set_status, Hw. reflexivity.
  - rewrite find_user_set_history, Z.eqb_refl.
    rewrite (find_user_same s) by reflexivity. rewrite Hu.
    split; [reflexivity|]. repeat split.
Qed.

Lemma withdraw_reject (clk : clock) (wid : Z) (s : db) (w : withdrawal)
    (u : user) :
  find_withdrawal wid s = Some w ->
  is_pending w = true ->
  find_user (w_user_id w) s = Some u ->
  exists s' e,
    admin_withdraw_manage clk wid "reject" s = (Ok tt, s') /\
    find_withdrawal wid s' = Some (with_w_status "Rejected" w) /\
    find_user (w_user_id w) s'
      = Some (write_ledger (balance u + amount_original w)
                (e :: transactions_history u) u) /\
    tx_type e = "credit" /\ tx_status e = "Completada" /\
    tx_amount e = amount_original w.
Proof.
  intros Hw Hp Hu. unfold admin_withdraw_manage.
  fold (find_withdrawal wid s). rewrite Hw, Hp. simpl negb. cbv iota.
  simpl String.eqb. cbv iota zeta.
  assert (E2 : find_user (w_user_id w)
                 (add_balance (w_user_id w) (amount_original w)
                    (set_withdrawal_status wid "Rejected" s))
               = Some (write_ledger (balance u + amount_original w)
                         (transactions_history u) u)).
  { rewrite find_user_add_balance, Z.eqb_refl.
    rewrite (find_user_same s) by reflexivity. rewrite Hu. reflexivity. }
  rewrite E2.
  eexists; eexists. split; [reflexivity|]. split.
  - rewrite (find_withdrawal_same (set_withdrawal_status wid "Rejected" s))
      by reflexivity.
    rewrite find_withdrawal_set_status, Hw. reflexivity.
  - rewrite find_user_set_history, Z.eqb_refl, E2.
    split; [reflexivity|]. repeat split.
Qed.

Lemma withdraw_cancel (wid userId : Z) (s : db) (w : withdrawal) :
  find (fun x => andb (Z.eqb (w_id x) wid)
                   (andb (Z.eqb (w_user_id x) userId) (is_pending x)))
    (withdrawals s) = Some w ->
  exists s',
    supplier_withdraw_cancel wid userId s = (Ok tt, s') /\
    find_withdrawal wid s' = None /\
    find_user userId s'
      = option_map
          (fun u => write_ledger (balance u + amount_original w)
                      (transactions_history u) u)
          (find_user userId s).
Proof.
  intro Hw. unfold supplier_withdraw_cancel. rewrite Hw.
  eexists. split; [reflexivity|]. split.
  - unfold find_withdrawal, add_balance, update_user. simpl withdrawals.
    apply find_withdrawal_deleted.
  - rewrite find_user_add_balance, Z.eqb_refl.
    rewrite (find_user_same s) by reflexivity. reflexivity.
Qed.

(** C5.  The withdrawal workflow, for a request of gross amount [G > 0]
    at the fee rate [r] of the settings: the stored [withdrawal_fee] when
    there is one (the value the administrator's last accepted
    PUT /admin/settings/withdrawal-fee stored, its argument at three
    decimals), 0.10 when the setting is absent.
    - Creation fails with [DuplicateRequest] when the user has a Pending
      withdrawal; otherwise it fails when [G], rounded to two decimals,
      exceeds the rounded balance; otherwise it records a Pending
      withdrawal of gross [G] and net [G - G * r] and takes [G] off the
      balance, the ledger staying as it was.
    - Approve puts a debit entry of the net amount at the head of the
      ledger and leaves the balance alone.
    - Reject gives [G] back to the balance and puts a credit entry of [G]
      at the head of the ledger.
    - Cancel of a Pending request deletes it and gives [G] back, the
      ledger staying as it was. *)
Theorem withdrawal_workflow (clk : clock) (s : db) :
  (forall r, withdrawal_fee s = Some r -> feeRate s = r) /\
  (withdrawal_fee s = None -> feeRate s = 10 # 100) /\
  (forall numericFee s0,
     admin_settings_withdrawal_fee numericFee s0 = (Ok tt, s) ->
     feeRate s = round3 numericFee) /\
  (forall userId G,
     0 < G ->
     (has_pending userId s = true ->
      supplier_withdraw userId G s = (Fail 400 DuplicateRequest, s)) /\
     (forall u,
        has_pending userId s = false ->
        find_user userId s = Some u ->
        (round2 (balance u) < round2 G ->
         supplier_withdraw userId G s = (Fail 400 InsufficientBalance, s)) /\
        (round2 G <= round2 (balance u) ->
         exists s' w,
           supplier_withdraw userId G s = (Ok tt, s') /\
           withdrawals s' = (withdrawals s ++ [w])%list /\
           w_user_id w = userId /\ w_status w = "Pending" /\
           amount_original w = G /\
           amount_final w = G - G * feeRate s /\
           find_user userId s'
             = Some (write_ledger (balance u - G)
                       (transactions_history u) u)))) /\
  (forall wid w u,
     find_withdrawal wid s = Some w ->
     is_pending w = true ->
     find_user (w_user_id w) s = Some u ->
     (exists s' e,
        admin_withdraw_manage clk wid "approve" s = (Ok tt, s') /\
        find_withdrawal wid s' = Some (with_w_status "Approved" w) /\
        find_user (w_user_id w) s'
          = Some (write_ledger (balance u)
                    (e :: transactions_history u) u) /\
        tx_type e = "debit" /\ tx_status e = "Completada" /\
        tx_amount e = amount_final w) /\
     (exists s' e,
        admin_withdraw_manage clk wid "reject" s = (Ok tt, s') /\
        find_withdrawal wid s' = Some (with_w_status "Rejected" w) /\
        find_user (w_user_id w) s'
          = Some (write_ledger (balance u + amount_original w)
                    (e :: transactions_history u) u) /\
        tx_type e = "credit" /\ tx_status e = "Completada" /\
        tx_amount e = amount_original w)) /\
  (forall wid userId w,
     find (fun x => andb (Z.eqb (w_id x) wid)
                      (andb (Z.eqb (w_user_id x) userId) (is_pending x)))
       (withdrawals s) = Some w ->
     exists s',
       supplier_withdraw_cancel wid userId s = (Ok tt, s') /\
       find_withdrawal wid s' = None /\
       find_user userId s'
         = option_map
             (fun u => write_ledger (balance u + amount_original w)
                         (transactions_history u) u)
             (find_user userId s)).
Proof.
  split.
  { unfold feeRate. intros r ->. reflexivity. }
  split.
  { unfold feeRate. intros ->. reflexivity. }
  split.
  { intros numericFee s0 H. unfold admin_settings_withdrawal_fee in H.
    destruct (orb _ _); [discriminate|]. injection H as <-. reflexivity. }
  split.
  { intros userId G HG. apply withdraw_request, HG. }
  split.
  { intros wid w u Hw Hp Hu. split.
    - apply withdraw_approve; assumption.
    - apply withdraw_reject; assumption. }
  intros wid userId w Hw. apply withdraw_cancel, Hw.
Qed.

(** The scenario of the specification: 100 requested at the default fee
    of 0.10 holds 100 and records a net of 90; approve, reject and cancel
    from there.  Once the administrator has set the fee to 0.05, the same
    request records a net of 95. *)
Lemma withdrawal_workflow_witness :
  (exists s' w,
     supplier_withdraw 2 100 Payout.store = (Ok tt, s') /\
     amount_final w == 90 /\
     withdrawals s' = [w] /\
     Shop.balance_of 2 s' == 0 /\ Shop.ledger_of 2 s' = []) /\
  (exists s' w,
     supplier_withdraw 2 100
       (snd (admin_settings_withdrawal_fee (5 # 100) Payout.store))
     = (Ok tt, s') /\
     amount_final w == 95 /\
     withdrawals s' = [w] /\
     Shop.balance_of 2 s' == 0 /\ Shop.ledger_of 2 s' = []) /\
  supplier_withdraw 2 100 Payout.requested
    = (Fail 400 DuplicateRequest, Payout.requested) /\
  (exists s' e,
     admin_withdraw_manage Shop.day0 1 "approve" Payout.requested = (Ok tt, s') /\
     Shop.balance_of 2 s' == 0 /\ Shop.ledger_of 2 s' = [e] /\
     tx_type e = "debit" /\ tx_amount e == 90) /\
  (exists s' e,
     admin_withdraw_manage Shop.day0 1 "reject" Payout.requested = (Ok tt, s') /\
     Shop.balance_of 2 s' == 100 /\ Shop.ledger_of 2 s' = [e] /\
     tx_type e = "credit" /\ tx_amount e == 100) /\
  (exists s',
     supplier_withdraw_cancel 1 2 Payout.requested = (Ok tt, s') /\
     withdrawals s' = [] /\
     Shop.balance_of 2 s' == 100 /\ Shop.ledger_of 2 s' = []).
Proof.
  destruct (withdrawal_workflow Shop.day0 Payout.store)
    as (_ & Hdef & _ & Hreq & _).
  destruct (withdrawal_workflow Shop.day0
              (snd (admin_settings_withdrawal_fee (5 # 100) Payout.store)))
    as (_ & _ & Hset & Hreq5 & _).
  destruct (withdrawal_workflow Shop.day0 Payout.requested)
    as (_ & _ & _ & Hdup & Hmanage & Hcancel).
  split; [|split; [|split; [|split; [|split]]]].
  - destruct (Hreq 2%Z 100 eq_refl) as (_ & Hnew).
    destruct (Hnew Payout.vendor eq_refl eq_refl) as (_ & Hok).
    destruct Hok as (s' & w & Hrun & Hws & _ & _ & _ & Hnet & Hu).
    { vm_compute. discriminate. }
    exists s', w. split; [exact Hrun|]. split.
    { rewrite Hnet, (Hdef eq_refl). reflexivity. }
    split; [exact Hws|]. unfold Shop.balance_of, Shop.ledger_of.
    rewrite Hu. split; reflexivity.
  - destruct (Hreq5 2%Z 100 eq_refl) as (_ & Hnew).
    destruct (Hnew Payout.vendor eq_refl eq_refl) as (_ & Hok).
    destruct Hok as (s' & w & Hrun & Hws & _ & _ & _ & Hnet & Hu).
    { vm_compute. discriminate. }
    exists s', w. split; [exact Hrun|]. split.
    { rewrite Hnet, (Hset (5 # 100) Payout.store eq_refl).
      vm_compute. reflexivity. }
    split; [exact Hws|]. unfold Shop.balance_of, Shop.ledger_of.
    rewrite Hu. split; reflexivity.
  - destruct (Hdup 2%Z 100 eq_refl) as (Hd & _). apply Hd. reflexivity.
  - destruct (Hmanage 1%Z Payout.request (write_ledger 0 [] Payout.vendor))
      as ((s' & e & Hrun & _ & Hu & Hty & _ & Ham) & _);
      [reflexivity | reflexivity | reflexivity |].
    exists s', e. split; [exact Hrun|].
    change (w_user_id Payout.request) with 2%Z in Hu.
    unfold Shop.balance_of, Shop.ledger_of. rewrite Hu, Ham.
    split; [reflexivity|]. split; [reflexivity|]. split; [exact Hty|].
    reflexivity.
  - destruct (Hmanage 1%Z Payout.request (write_ledger 0 [] Payout.vendor))
      as (_ & (s' & e & Hrun & _ & Hu & Hty & _ & Ham));
      [reflexivity | reflexivity | reflexivity |].
    exists s', e. split; [exact Hrun|].
    change (w_user_id Payout.request) with 2%Z in Hu.
    unfold Shop.balance_of, Shop.ledger_of. rewrite Hu, Ham.
    split; [reflexivity|]. split; [reflexivity|]. split; [exact Hty|].
    reflexivity.
  - destruct (Hcancel 1%Z 2%Z Payout.request eq_refl) as (s' & Hrun & _ & Hu).
    exists s'. split; [exact Hrun|].
    unfold Shop.balance_of, Shop.ledger_of. rewrite Hu.
    injection Hrun as <-. repeat split.
Defined.

(** ** Debits and the sign of the balance *)

Lemma Qmake_100 z : z # 100 == inject_Z z * (1 # 100).
Proof. unfold Qeq, inject_Z, Qmult. simpl. lia. Qed.

Lemma round2_nonneg_near x :
  x - (1 # 200) <= round2_nonneg x /\ round2_nonneg x <= x + (1 # 200).
Proof.
  unfold round2_nonneg. set (y := x * 100 + (1 # 2)).
  pose proof (Qfloor_le y) as Hlo. pose proof (Qlt_floor y) as Hhi.
  rewrite inject_Z_plus in Hhi. rewrite Qmake_100.
  change (inject_Z 1) with 1 in Hhi. unfold y in *.
  split; lra.
Qed.

(** Rounding to two decimals moves a number by at most half a cent. *)
Lemma round2_near x :
  x - (1 # 200) <= round2 x /\ round2 x <= x + (1 # 200).
Proof.
  unfold round2. destruct (Qlt_le_dec x 0) as [Hneg|Hpos].
  - destruct (round2_nonneg_near (- x)) as [Hlo Hhi]. split; lra.
  - apply round2_nonneg_near.
Qed.

Lemma upgrade_balance addMonths clk userId A months s s' u' :
  user_upgrade_to_premium addMonths clk userId A months s = (Ok tt, s') ->
  find_user userId s' = Some u' ->
  0 <= balance u'.
Proof.
  unfold user_upgrade_to_premium. intros H Hu'.
  destruct (Z.eqb userId 0); [discriminate|].
  destruct (find_user userId s) as [u|] eqn:Hu; [|discriminate].
  destruct (Qltb (balance u) A) eqn:Eb; [discriminate|].
  apply Qltb_ge in Eb. injection H as <-.
  rewrite find_user_update in Hu' by (intro; reflexivity).
  rewrite Z.eqb_refl, Hu in Hu'. simpl in Hu'. injection Hu' as <-.
  simpl. lra.
Qed.

Lemma refund_proportional_balance clk buyerId txId A providerId s s' pv' :
  supplier_refund_proportional clk buyerId txId A providerId s = (Ok tt, s') ->
  find_user providerId s' = Some pv' ->
  0 <= balance pv'.
Proof.
  unfold supplier_refund_proportional. intros H Hpv'.
  destruct (orb (Z.eqb buyerId 0) _) eqn:Ev; [discriminate|].
  apply orb_false_iff in Ev. destruct Ev as [_ Ev].
  apply orb_false_iff in Ev. destruct Ev as [_ Ev].
  apply orb_false_iff in Ev. destruct Ev as [EA _].
  unfold Qleb in EA. apply negb_false_iff, Qltb_lt in EA.
  destruct (find_user buyerId s) as [buyer|] eqn:Hb; [|discriminate].
  destruct (find (debit_match txId) (transactions_history buyer)) as [t|];
    [|discriminate].
  destruct (String.eqb (tx_status t) "Devuelto"); [discriminate|].
  destruct (find_user providerId s) as [provider|] eqn:Hp; [|discriminate].
  destruct (Qltb (balance provider) A) eqn:Eb; [discriminate|].
  apply Qltb_ge in Eb. injection H as <-.
  rewrite !find_user_set_balance_history, Z.eqb_refl, Hp in Hpv'.
  destruct (Z.eqb providerId buyerId) eqn:Ei; simpl in Hpv';
    injection Hpv' as <-; simpl.
  - apply Z.eqb_eq in Ei. subst buyerId.
    assert (buyer = provider) by congruence. subst buyer. lra.
  - lra.
Qed.

Lemma withdraw_balance userId G s s' u' :
  supplier_withdraw userId G s = (Ok tt, s') ->
  find_user userId s' = Some u' ->
  - (1 # 100) <= balance u' /\
  (forall u, find_user userId s = Some u ->
             round2 G == G -> round2 (balance u) == balance u ->
             0 <= balance u').
Proof.
  unfold supplier_withdraw. intros H Hu'.
  destruct (Qleb G 0); [discriminate|].
  destruct (existsb _ (withdrawals s)); [discriminate|].
  destruct (find_user userId s) as [u|] eqn:Hu; [|discriminate].
  cbv zeta in H.
  destruct (Qgtb (round2 G) (round2 (balance u))) eqn:Eg; [discriminate|].
  unfold Qgtb in Eg. apply Qltb_ge in Eg. injection H as <-.
  rewrite find_user_set_balance, Z.eqb_refl in Hu'.
  rewrite (find_user_same s) in Hu' by reflexivity.
  rewrite Hu in Hu'. simpl in Hu'. injection Hu' as <-. simpl.
  destruct (round2_near G) as [HG _].
  destruct (round2_near (balance u)) as [_ HB].
  split; [lra|].
  intros u0 Hu0 EG EB. injection Hu0 as <-.
  rewrite EG, EB in Eg. lra.
Qed.

Lemma purchase_balance clk ordCode req s creds s' u p pv u' :
  user_purchase clk ordCode req s = (Ok creds, s') ->
  find_user (pr_userId req) s = Some u ->
  find_product (pr_productName req) (pr_platform req) s = Some p ->
  find_user (creator_user_id p) s = Some pv ->
  creator_user_id p <> pr_userId req \/ 0 <= balance u ->
  find_user (pr_userId req) s' = Some u' ->
  0 <= balance u'.
Proof.
  intros H Hu Hp Hpv Hcase Hu'.
  destruct (purchase_ledgers _ _ _ _ _ _ _ _ _ H Hu Hp Hpv)
    as (Hbal & bt & pt & _ & _ & _ & _ & _ & _ & Hd & Hs).
  destruct (Z.eq_dec (creator_user_id p) (pr_userId req)) as [He|Hne].
  - rewrite (Hs He) in Hu'. injection Hu' as <-. simpl.
    destruct Hcase as [Hc|Hc]; [contradiction | lra].
  - destruct (Hd Hne) as [Eu _]. rewrite Eu in Hu'. injection Hu' as <-.
    simpl. lra.
Qed.

(** C7 (as amended).  After a committed purchase, premium upgrade or
    provider-side proportional refund the debited user's balance is not
    negative: each is guarded by [balance < amount] on the exact values
    (for a purchase where the buyer is also the provider, provided the
    balance was not negative before).  A withdrawal request is guarded on
    the values rounded to two decimals: the balance it leaves is at least
    -0.01, and is not negative when the amount and the balance are
    multiples of 0.01. *)
Theorem debits_guarded (addMonths : Z -> Z -> Z) (clk : clock) (s s' : db) :
  (forall ordCode req creds u p pv u',
     user_purchase clk ordCode req s = (Ok creds, s') ->
     find_user (pr_userId req) s = Some u ->
     find_product (pr_productName req) (pr_platform req) s = Some p ->
     find_user (creator_user_id p) s = Some pv ->
     creator_user_id p <> pr_userId req \/ 0 <= balance u ->
     find_user (pr_userId req) s' = Some u' ->
     0 <= balance u') /\
  (forall userId A months u',
     user_upgrade_to_premium addMonths clk userId A months s = (Ok tt, s') ->
     find_user userId s' = Some u' ->
     0 <= balance u') /\
  (forall buyerId txId A providerId pv',
     supplier_refund_proportional clk buyerId txId A providerId s
       = (Ok tt, s') ->
     find_user providerId s' = Some pv' ->
     0 <= balance pv') /\
  (forall userId G u',
     supplier_withdraw userId G s = (Ok tt, s') ->
     find_user userId s' = Some u' ->
     - (1 # 100) <= balance u' /\
     (forall u, find_user userId s = Some u ->
                round2 G == G -> round2 (balance u) == balance u ->
                0 <= balance u')).
Proof.
  split; [|split; [|split]].
  - intros. eapply purchase_balance; eassumption.
  - intros. eapply upgrade_balance; eassumption.
  - intros. eapply refund_proportional_balance; eassumption.
  - intros. eapply withdraw_balance; eassumption.
Qed.

(** C7, the claim as written fails: with a balance of 10.00 a withdrawal
    request of 10.004 passes the guard, which compares 10.00 with 10.00,
    and commits a balance of -0.004. *)
Lemma withdraw_negative_counterexample :
  let store := set_users [write_ledger 10 [] Shop.vendor] Shop.shop in
  let r := supplier_withdraw 2 (10004 # 1000) store in
  Shop.balance_of 2 store == 10 /\
  fst r = Ok tt /\
  Shop.balance_of 2 (snd r) == - (4 # 1000) /\
  Shop.balance_of 2 (snd r) < 0.
Proof.
  vm_compute. repeat split.
Qed.

(** The theorem at work on a purchase, an upgrade, a proportional
    refund and a withdrawal request. *)
Lemma debits_guarded_witness :
  0 <= Shop.balance_of 1 Shop.after_purchase /\
  0 <= Shop.balance_of 1
         (snd (user_upgrade_to_premium thirtyDays Shop.day0 1 20 1 Shop.shop)) /\
  0 <= Shop.balance_of 2
         (snd (supplier_refund_proportional (Shop.day 1) 1 Shop.ticket 10 2
                 Shop.after_purchase)) /\
  0 <= Shop.balance_of 2 Payout.requested.
Proof.
  split; [|split; [|split]].
  - destruct (debits_guarded thirtyDays Shop.day0 Shop.shop Shop.after_purchase)
      as (Hp & _).
    apply (Hp "K3X9QA" (Shop.buy 2)
             (match fst (user_purchase Shop.day0 "K3X9QA" (Shop.buy 2) Shop.shop)
              with Ok c => c | Fail _ _ => [] end)
             Shop.ana Shop.plan Shop.vendor).
    + vm_compute. reflexivity.
    + reflexivity.
    + reflexivity.
    + reflexivity.
    + left. vm_compute. discriminate.
    + vm_compute. reflexivity.
  - destruct (debits_guarded thirtyDays Shop.day0 Shop.shop
                (snd (user_upgrade_to_premium thirtyDays Shop.day0 1 20 1
                        Shop.shop)))
      as (_ & Hu & _).
    apply (Hu 1%Z 20 1%Z); vm_compute; reflexivity.
  - destruct (debits_guarded thirtyDays (Shop.day 1) Shop.after_purchase
                (snd (supplier_refund_proportional (Shop.day 1) 1 Shop.ticket
                        10 2 Shop.after_purchase)))
      as (_ & _ & Hr & _).
    apply (Hr 1%Z Shop.ticket 10 2%Z); vm_compute; reflexivity.
  - destruct (debits_guarded thirtyDays Shop.day0 Payout.store Payout.requested)
      as (_ & _ & _ & Hw).
    destruct (Hw 2%Z 100 (write_ledger 0 [] Payout.vendor)) as (_ & Hex).
    + vm_compute. reflexivity.
    + vm_compute. reflexivity.
    + apply (Hex Payout.vendor); vm_compute; reflexivity.
Defined.

(** ** Looking an entry up by id *)

Lemma drop_spaces_no_space s : no_space s -> Js.drop_spaces s = s.
Proof. destruct s as [|c s]; simpl; [reflexivity|]. intros [-> _]. reflexivity. Qed.

Lemma rev_string_no_space s : forall acc,
  no_space s -> no_space acc -> no_space (Js.rev_string s acc).
Proof.
  induction s as [|c s IH]; simpl; intros acc Hs Hacc; [exact Hacc|].
  destruct Hs as [Hc Hs]. apply IH; [exact Hs|]. simpl. split; assumption.
Qed.

Lemma rev_string_twice s : forall a b,
  Js.rev_string (Js.rev_string s a) b = Js.rev_string a (s ++ b).
Proof.
  induction s as [|c s IH]; simpl; intros a b; [reflexivity|].
  rewrite IH. reflexivity.
Qed.

Lemma append_empty s : s ++ "" = s.
Proof. induction s as [|c s IH]; simpl; [reflexivity | rewrite IH; reflexivity]. Qed.

Lemma trim_no_space s : no_space s -> Js.trim s = s.
Proof.
  intro H. unfold Js.trim. rewrite (drop_spaces_no_space s H).
  rewrite drop_spaces_no_space by (apply rev_string_no_space; simpl; auto).
  rewrite rev_string_twice. simpl. apply append_empty.
Qed.

Lemma string_of_uint_no_space d : no_space (NilEmpty.string_of_uint d).
Proof. induction d; simpl; auto. Qed.

Lemma Z_to_string_no_space n : no_space (Js.Z_to_string n).
Proof.
  unfold Js.Z_to_string, NilZero.string_of_int, NilZero.string_of_uint.
  destruct (Z.to_int n) as [d|d]; [|simpl; split; [reflexivity|]];
    (destruct d; [simpl; auto | apply string_of_uint_no_space ..]).
Qed.

Lemma Z_to_string_nonempty n : Js.Z_to_string n <> "".
Proof.
  unfold Js.Z_to_string, NilZero.string_of_int, NilZero.string_of_uint.
  destruct (Z.to_int n) as [d|d]; [|discriminate].
  destruct d; discriminate.
Qed.

Lemma find_some_not_none {A} (f : A -> bool) l x :
  In x l -> f x = true -> find f l <> None.
Proof.
  intros Hin Hf Hnone. rewrite (find_none f l Hnone x Hin) in Hf. discriminate.
Qed.

Lemma ensureOrderCode_id rnd t : tx_id (ensureOrderCode rnd t) = tx_id t.
Proof. unfold ensureOrderCode. destruct (nonblank (orderCode t)); reflexivity. Qed.

Lemma support_match_by_id rnd t incoming :
  Js.trim (Js.String_or_empty (tx_id t)) = incoming ->
  incoming <> "" ->
  support_match incoming (ensureOrderCode rnd t) = true.
Proof.
  intros He Hne. unfold support_match. rewrite ensureOrderCode_id, He.
  apply String.eqb_neq in Hne. rewrite Hne, String.eqb_refl. reflexivity.
Qed.

Lemma support_loop_found clk s rnd message incoming h t :
  In t h ->
  support_match incoming (ensureOrderCode rnd t) = true ->
  support_loop clk s rnd message incoming h <> None.
Proof.
  induction h as [|x h IH]; simpl; [contradiction|].
  intros [->|Hin] Hm.
  - rewrite Hm. discriminate.
  - destruct (support_match incoming (ensureOrderCode rnd x)); [discriminate|].
    specialize (IH Hin Hm).
    destruct (support_loop clk s rnd message incoming h); [discriminate|].
    contradiction.
Qed.

Lemma pending_none_of_strict tid h :
  (forall t, In t h -> Js.strict_eq (tx_id t) tid = false) ->
  existsb (pending_match tid) h = false.
Proof.
  induction h as [|x h IH]; simpl; [reflexivity|]. intro H.
  unfold pending_match at 1. rewrite (H x) by (left; reflexivity). simpl.
  apply IH. intros t Ht. apply H. right. exact Ht.
Qed.

Lemma refund_proportional_finds clk buyerId i A providerId s u t :
  find_user buyerId s = Some u ->
  In t (transactions_history u) ->
  debit_match i t = true ->
  fst (supplier_refund_proportional clk buyerId i A providerId s)
    <> Fail 404 NotFound.
Proof.
  intros Hu Hin Hm. unfold supplier_refund_proportional.
  destruct (orb (Z.eqb buyerId 0) _); [simpl; discriminate|].
  rewrite Hu.
  destruct (find (debit_match i) (transactions_history u)) as [x|] eqn:Ef.
  2:{ exfalso. exact (find_some_not_none _ _ _ Hin Hm Ef). }
  destruct (String.eqb (tx_status x) "Devuelto"); [simpl; discriminate|].
  destruct (find_user providerId s); [|simpl; discriminate].
  destruct (Qltb _ A); simpl; discriminate.
Qed.

Lemma renovate_finds addMonths clk userId i months price plan s u t :
  find_user userId s = Some u ->
  In t (transactions_history u) ->
  debit_match i t = true ->
  fst (user_purchase_renovate addMonths clk userId i months price plan s)
    <> Fail 404 NotFound.
Proof.
  intros Hu Hin Hm. unfold user_purchase_renovate.
  destruct (orb (Z.eqb userId 0) _); [simpl; discriminate|].
  rewrite Hu.
  destruct (Qltb (balance u) price); [simpl; discriminate|].
  cbv zeta.
  destruct (find (debit_match i) (transactions_history u)) as [x|] eqn:Ef.
  2:{ exfalso. exact (find_some_not_none _ _ _ Hin Hm Ef). }
  destruct (tx_details x); [|simpl; discriminate].
  destruct (renovate_map _ _ _ _); simpl; discriminate.
Qed.

Lemma send_to_support_finds clk rnd userId i message s u t :
  userId <> 0%Z -> Js.truthy i = true -> message <> "" ->
  find_user userId s = Some u ->
  In t (transactions_history u) ->
  Js.trim (Js.String_or_empty (tx_id t)) = Js.trim (Js.String_ i) ->
  Js.trim (Js.String_ i) <> "" ->
  fst (user_send_to_support clk rnd userId i message s) = Ok tt.
Proof.
  intros Hid Hi Hmsg Hu Hin He Hne. unfold user_send_to_support.
  apply Z.eqb_neq in Hid. apply String.eqb_neq in Hmsg.
  rewrite Hid, Hi, Hmsg, Hu. simpl orb. cbv iota zeta.
  pose proof (support_loop_found clk s rnd message _ _ t Hin
                (support_match_by_id rnd t _ He Hne)) as Hf.
  destruct (support_loop _ _ _ _ _ _); [reflexivity | contradiction].
Qed.

(** C9 (as amended).  An entry [t] of a user's ledger whose id is the
    timestamp [n] in one form, looked up with the same id in the other
    form: send-to-support, the proportional refund and the renewal compare
    the ids as strings and find it; the approval and the rejection of a
    recharge compare with [===], which is false across the two forms, so
    a ledger with no strictly equal id answers 404 and is left as it
    was. *)
Theorem id_lookup (addMonths : Z -> Z -> Z) (clk : clock) (s : db)
    (userId : Z) (u : user) (t : transaction) (n : Z)
    (stored supplied : Js.id) :
  userId <> 0%Z ->
  (0 < n)%Z ->
  find_user userId s = Some u ->
  In t (transactions_history u) ->
  tx_id t = stored ->
  mixed_forms n stored supplied ->
  (forall rnd message,
     message <> "" ->
     fst (user_send_to_support clk rnd userId supplied message s) = Ok tt) /\
  (tx_type t = "debit" ->
   (forall A providerId,
      fst (supplier_refund_proportional clk userId supplied A providerId s)
        <> Fail 404 NotFound) /\
   (forall months price plan,
      fst (user_purchase_renovate addMonths clk userId supplied months
             price plan s) <> Fail 404 NotFound)) /\
  Js.strict_eq stored supplied = false /\
  ((forall x, In x (transactions_history u) ->
              Js.strict_eq (tx_id x) supplied = false) ->
   admin_transaction_approve clk userId supplied s = (Fail 404 NotFound, s) /\
   admin_transaction_reject userId supplied s = (Fail 404 NotFound, s)).
Proof.
  intros Hid Hn Hu Hin Hst Hforms.
  assert (Hstr : Js.String_ stored = Js.String_ supplied)
    by (destruct Hforms; reflexivity).
  assert (Htrim : Js.trim (Js.String_or_empty stored)
                  = Js.trim (Js.String_ supplied))
    by (destruct Hforms; reflexivity).
  assert (Hne : Js.trim (Js.String_ supplied) <> "").
  { destruct Hforms; simpl; rewrite trim_no_space
      by apply Z_to_string_no_space; apply Z_to_string_nonempty. }
  assert (Htruthy : Js.truthy supplied = true).
  { destruct Hforms; simpl.
    - apply negb_true_iff, String.eqb_neq, Z_to_string_nonempty.
    - apply negb_true_iff, Z.eqb_neq. lia. }
  split; [|split; [|split]].
  - intros rnd message Hmsg.
    apply (send_to_support_finds clk rnd userId supplied message s u t);
      try assumption. rewrite Hst. exact Htrim.
  - intro Hty.
    assert (Hm : debit_match supplied t = true).
    { unfold debit_match. rewrite Hst, Hstr, Hty, !String.eqb_refl.
      reflexivity. }
    split.
    + intros A providerId.
      apply (refund_proportional_finds _ _ _ _ _ _ u t); assumption.
    + intros months price plan.
      apply (renovate_finds _ _ _ _ _ _ _ _ u t); assumption.
  - destruct Hforms; reflexivity.
  - intro Hall. apply pending_none_of_strict in Hall. split.
    + unfold admin_transaction_approve. rewrite Hu. cbv zeta.
      rewrite approve_map_spec, Hall. reflexivity.
    + unfold admin_transaction_reject. rewrite Hu. cbv zeta.
      rewrite Hall. reflexivity.
Qed.

(** C9, the claim as written fails: ana's pending recharge has the
    numeric id 1700000000000; approving or rejecting it with the id in
    string form answers 404 and changes nothing. *)
Lemma approve_string_id_counterexample :
  transactions_history (Recharge.ana 50) = [Recharge.recharge 50] /\
  tx_id (Recharge.recharge 50) = Js.IdNum 1700000000000 /\
  tx_status (Recharge.recharge 50) = "Pendiente" /\
  Js.String_ (Js.IdNum 1700000000000) = "1700000000000" /\
  admin_transaction_approve Shop.day0 1 (Js.IdStr "1700000000000")
    (Recharge.store 50) = (Fail 404 NotFound, Recharge.store 50) /\
  admin_transaction_reject 1 (Js.IdStr "1700000000000") (Recharge.store 50)
    = (Fail 404 NotFound, Recharge.store 50).
Proof.
  repeat split.
Qed.

(** The theorem at work on ana's recharge, stored with a numeric id and
    looked up with the id as text. *)
Lemma id_lookup_witness :
  fst (user_send_to_support Shop.day0 "R4ND0M" 1 (Js.IdStr "1700000000000")
         "no funciona" (Recharge.store 50)) = Ok tt /\
  admin_transaction_approve Shop.day0 1 (Js.IdStr "1700000000000")
    (Recharge.store 50) = (Fail 404 NotFound, Recharge.store 50).
Proof.
  destruct (id_lookup thirtyDays Shop.day0 (Recharge.store 50) 1
              (Recharge.ana 50) (Recharge.recharge 50) Recharge.stamp
              (Js.IdNum Recharge.stamp) (Js.IdStr "1700000000000"))
    as (Hsend & _ & _ & Hstrict).
  - discriminate.
  - reflexivity.
  - reflexivity.
  - left. reflexivity.
  - reflexivity.
  - exact (stored_number Recharge.stamp).
  - split.
    + apply Hsend. discriminate.
    + apply Hstrict. intros x [<-|[]]. reflexivity.
Defined.

(** ** Runs of the support and refund workflow *)

(** C3, evaluated.  A purchase of 30 with the label "30 Días": the refund
    reads the label as 48 days ([parseInt] with radix 16), where the
    purchase itself reads 30.  Ten days after the purchase 38 days are
    left and 23.75 is refunded instead of 20.00; thirty-one days after,
    17 days are left and 10.63 is refunded instead of the request failing
    with [NothingToRefund]. *)
Theorem refund_reads_label_in_hexadecimal :
  durationDays "30 Días" = 30%Z /\
  totalDays (Some "30 Días") = 48%Z /\
  daysUsed (Shop.day 10) 0 = 10%Z /\
  daysRemaining (Shop.day 10) (Some "30 Días") 0 = 38%Z /\
  amountToRefund (Shop.day 10) 30 (Some "30 Días") 0 == 2375 # 100 /\
  ~ amountToRefund (Shop.day 10) 30 (Some "30 Días") 0 == 20 /\
  (let r := Support.refunded 10 (Support.opened 10 Shop.after_purchase) in
   fst r = Ok tt /\
   Shop.balance_of 1 Shop.after_purchase == 70 /\
   Shop.balance_of 1 (snd r) == 70 + (2375 # 100)) /\
  daysUsed (Shop.day 31) 0 = 31%Z /\
  amountToRefund (Shop.day 31) 30 (Some "30 Días") 0 == 1063 # 100 /\
  (let r := Support.refunded 31 (Support.opened 31 Shop.after_purchase) in
   fst r = Ok tt /\
   fst r <> Fail 400 NothingToRefund /\
   Shop.balance_of 1 (snd r) == 70 + (1063 # 100)).
Proof.
  vm_compute. repeat split; discriminate.
Qed.

(** C2, evaluated.  The shop starts with the counter equal to the pool
    (2).  Ana buys the batch of quantity 2 whole, the counter and the pool
    drop to 0; the provider refunds her ticket, the batch returns to the
    pool with its quantity 2, and the counter is raised by the number of
    credentials, 1.  The counter reads 1, the pool holds 2. *)
Theorem refund_counter_drift :
  Shop.stock_of 1 Shop.shop = 2%Z /\
  realStockCount (unsold_rows 1 Shop.shop) = 2%Z /\
  Shop.stock_of 1 Shop.after_purchase = 0%Z /\
  realStockCount (unsold_rows 1 Shop.after_purchase) = 0%Z /\
  (let r := Support.refunded 1 (Support.opened 1 Shop.after_purchase) in
   fst r = Ok tt /\
   Shop.stock_of 1 (snd r) = 1%Z /\
   realStockCount (unsold_rows 1 (snd r)) = 2%Z /\
   Shop.stock_of 1 (updateProductStock 1 (snd r)) = 2%Z).
Proof.
  vm_compute. repeat split.
Qed.

(** C8, evaluated.  Ana's purchase is refunded through the proportional
    refund and reaches [Devuelto]; a second proportional refund is
    refused, and so is a handle-support refund.  Send-to-support does not
    look at the status and sets it to [Soporte]; the handle-support refund
    then credits her again for the same purchase. *)
Theorem refunded_purchase_refunded_again :
  let first :=
    supplier_refund_proportional (Shop.day 1) 1 Shop.ticket 10 2
      Shop.after_purchase in
  let again :=
    supplier_refund_proportional (Shop.day 2) 1 Shop.ticket 10 2 (snd first) in
  let reopened := Support.opened 2 (snd first) in
  let second := Support.refunded 2 reopened in
  fst first = Ok tt /\
  Support.status_of 1 Shop.ticket (snd first) = Some "Devuelto" /\
  Shop.balance_of 1 (snd first) == 80 /\
  again = (Fail 400 AlreadyProcessed, snd first) /\
  Support.refunded 2 (snd first) = (Fail 404 NotFound, snd first) /\
  Support.status_of 1 Shop.ticket reopened = Some "Soporte" /\
  fst second = Ok tt /\
  Support.status_of 1 Shop.ticket (snd second) = Some "Devuelto" /\
  80 < Shop.balance_of 1 (snd second) /\
  List.length (Support.credits 1 (snd second)) = 2%nat.
Proof.
  vm_compute. repeat split.
Qed.

(** * Further properties *)

(** ** Premium expiry *)

Lemma find_user_id uid s u : find_user uid s = Some u -> u_id u = uid.
Proof.
  unfold find_user. intro H. apply find_some in H. destruct H as [_ H].
  apply Z.eqb_eq. exact H.
Qed.

Lemma find_user_other k uid f s :
  keeps_id f -> k <> uid ->
  find_user k (update_user uid f s) = find_user k s.
Proof.
  intros Hf Hne. rewrite find_user_update by exact Hf.
  destruct (Z.eqb_spec k uid); [contradiction | reflexivity].
Qed.

Lemma find_user_self uid f s :
  keeps_id f ->
  find_user uid (update_user uid f s) = option_map f (find_user uid s).
Proof.
  intro Hf. rewrite find_user_update by exact Hf. rewrite Z.eqb_refl.
  reflexivity.
Qed.

Lemma with_role_expiry_keeps_id r e : keeps_id (with_role_expiry r e).
Proof. intro u. reflexivity. Qed.

(** X1.  The lazy demotion of GET /profile/:userId.  When the row carries
    an expiry that lies in the past, the read answers the demoted role
    ([Proveedor Premium] to [proveedor], [Distribuidor Premium] to
    [distribuidor], anything else to [Usuario]), stores it, clears the
    expiry and leaves every other row alone; a second read, at any time,
    answers the same role and changes nothing.  When there is no expiry or
    it has not passed, the read answers the stored role and writes
    nothing. *)
Theorem profile_demotes_lapsed_premium (clk : clock) (userId : Z) (s : db)
    (u : user) :
  find_user userId s = Some u ->
  (forall e, premium_expires_at u = Some e -> (e < now clk)%Z ->
     exists s',
       profile_role clk userId s = (Ok (demoted (role u)), s') /\
       find_user userId s'
         = Some (with_role_expiry (demoted (role u)) None u) /\
       (forall k, k <> userId -> find_user k s' = find_user k s) /\
       same_but_users s s' /\
       forall clk', profile_role clk' userId s'
                    = (Ok (demoted (role u)), s')) /\
  ((premium_expires_at u = None \/
    exists e, premium_expires_at u = Some e /\ (now clk <= e)%Z) ->
   profile_role clk userId s = (Ok (role u), s)).
Proof.
  intro Hu. pose proof (find_user_id _ _ _ Hu) as Hid.
  unfold profile_role. rewrite Hu. unfold checkAndExpirePremium. split.
  - intros e He Hlt. rewrite He.
    destruct (Z.gtb_spec (now clk) e) as [_|]; [|lia].
    rewrite Hid. eexists. split; [reflexivity|].
    assert (Hs : find_user userId
                   (update_user userId
                      (with_role_expiry (demoted (role u)) None) s)
                 = Some (with_role_expiry (demoted (role u)) None u)).
    { rewrite find_user_self by apply with_role_expiry_keeps_id.
      rewrite Hu. reflexivity. }
    split; [exact Hs|]. split.
    { intros k Hk. apply find_user_other;
        [apply with_role_expiry_keeps_id | exact Hk]. }
    split; [repeat split|].
    intro clk'. rewrite Hs. reflexivity.
  - intros [Hn|(e & He & Hle)].
    + rewrite Hn. reflexivity.
    + rewrite He. destruct (Z.gtb_spec (now clk) e); [lia | reflexivity].
Qed.

(** A day after the purchase day, ana's premium month, bought on day 0
    with a thirty-day month, has not lapsed; on day 31 it has. *)
Lemma profile_demotes_lapsed_premium_witness :
  let s1 := snd (user_upgrade_to_premium thirtyDays Shop.day0 1 20 1 Shop.shop) in
  (exists s',
     profile_role (Shop.day 31) 1 s1 = (Ok "distribuidor", s') /\
     forall clk', profile_role clk' 1 s' = (Ok "distribuidor", s')) /\
  profile_role (Shop.day 1) 1 s1 = (Ok "Distribuidor Premium", s1).
Proof.
  intro s1.
  assert (Hu : exists u, find_user 1 s1 = Some u /\
                         premium_expires_at u = Some (3600000 + 30 * oneDay)%Z
                         /\ role u = "Distribuidor Premium").
  { eexists. split; [vm_compute; reflexivity|]. split; reflexivity. }
  destruct Hu as (u & Hu & He & Hr).
  destruct (profile_demotes_lapsed_premium (Shop.day 31) 1 s1 u Hu) as [Hlapsed _].
  destruct (profile_demotes_lapsed_premium (Shop.day 1) 1 s1 u Hu) as [_ Hlive].
  split.
  - destruct (Hlapsed _ He) as (s' & Hrun & _ & _ & _ & Hagain).
    { vm_compute. reflexivity. }
    rewrite Hr in Hrun, Hagain. exists s'. split; assumption.
  - rewrite Hlive; [rewrite Hr; reflexivity|].
    right. eexists. split; [exact He|]. vm_compute. discriminate.
Defined.

Lemma demoted_targetRole r :
  demoted (targetRole r)
  = if orb (String.eqb r "proveedor") (String.eqb r "Proveedor Premium")
    then "proveedor" else "distribuidor".
Proof. unfold targetRole. destruct (orb _ _); reflexivity. Qed.

(** X2.  A premium period bought through the upgrade and read through
    the profile.  A successful upgrade stores the premium role and an
    expiry.  Until that expiry the profile answers the premium role and
    writes nothing.  Once it has passed the profile answers [proveedor]
    for a user who was [proveedor] or [Proveedor Premium] when upgrading
    and [distribuidor] for every other user, whatever role they held
    before (a plain [Usuario], or an [Admin], comes out as
    [distribuidor]), and clears the expiry. *)
Theorem premium_period_lifecycle (addMonths : Z -> Z -> Z) (clk : clock)
    (userId : Z) (A : Q) (months : Z) (s s1 : db) (u : user) :
  find_user userId s = Some u ->
  user_upgrade_to_premium addMonths clk userId A months s = (Ok tt, s1) ->
  exists E,
    option_map premium_expires_at (find_user userId s1) = Some (Some E) /\
    option_map role (find_user userId s1) = Some (targetRole (role u)) /\
    (forall clk', (now clk' <= E)%Z ->
       profile_role clk' userId s1 = (Ok (targetRole (role u)), s1)) /\
    (forall clk', (E < now clk')%Z ->
       exists s2,
         profile_role clk' userId s1
           = (Ok (if orb (String.eqb (role u) "proveedor")
                         (String.eqb (role u) "Proveedor Premium")
                  then "proveedor" else "distribuidor"), s2) /\
         option_map premium_expires_at (find_user userId s2) = Some None).
Proof.
  intros Hu H. pose proof (find_user_id _ _ _ Hu) as Hid.
  unfold user_upgrade_to_premium in H.
  destruct (Z.eqb userId 0); [discriminate|]. rewrite Hu in H.
  destruct (Qltb (balance u) A); [discriminate|]. cbv zeta in H.
  injection H as <-.
  set (f := fun x : user => _).
  assert (Hf : keeps_id f) by (intro x; reflexivity).
  assert (Hs1 : find_user userId (update_user userId f s) = Some (f u)).
  { rewrite find_user_self by exact Hf. rewrite Hu. reflexivity. }
  exists (newExpirationDate addMonths clk u months).
  rewrite Hs1. split; [reflexivity|]. split; [reflexivity|].
  unfold profile_role. rewrite Hs1. unfold checkAndExpirePremium.
  simpl premium_expires_at. simpl role. split.
  - intros clk' Hle.
    destruct (Z.gtb_spec (now clk') (newExpirationDate addMonths clk u months));
      [lia | reflexivity].
  - intros clk' Hlt.
    destruct (Z.gtb_spec (now clk') (newExpirationDate addMonths clk u months));
      [|lia].
    rewrite demoted_targetRole. eexists. split; [reflexivity|].
    simpl u_id. rewrite Hid.
    rewrite find_user_self by apply with_role_expiry_keeps_id.
    rewrite Hs1. reflexivity.
Qed.

(** The vendor, a [proveedor], buys a month on day 0 and reads the
    profile on day 1 and on day 31. *)
Lemma premium_period_lifecycle_witness :
  let s1 := snd (user_upgrade_to_premium thirtyDays Shop.day0 2 20 1 Shop.shop) in
  profile_role (Shop.day 1) 2 s1 = (Ok "Proveedor Premium", s1) /\
  fst (profile_role (Shop.day 31) 2 s1) = Ok "proveedor".
Proof.
  intro s1.
  destruct (premium_period_lifecycle thirtyDays Shop.day0 2 20 1
              Shop.shop s1 Shop.vendor eq_refl eq_refl)
    as (E & HE & _ & Hlive & Hlapsed).
  assert (HEv : E = (3600000 + 30 * oneDay)%Z).
  { assert (Hc : option_map premium_expires_at (find_user 2 s1)
                 = Some (Some (3600000 + 30 * oneDay)%Z))
      by (vm_compute; reflexivity).
    rewrite Hc in HE. injection HE as <-. reflexivity. }
  subst E. split.
  - apply Hlive. vm_compute. discriminate.
  - destruct (Hlapsed (Shop.day 31)) as (s2 & Hrun & _);
      [vm_compute; reflexivity|].
    rewrite Hrun. reflexivity.
Defined.

(** ** The counter and the supplier's stock endpoints *)

Lemma cachedStock_set pid n s :
  (exists p, In p (products s) /\ p_id p = pid) ->
  cachedStock pid (update_product pid (with_stock n) s) = n.
Proof.
  unfold cachedStock, update_product. simpl. intros (p & Hin & Hp).
  induction (products s) as [|q ps IH]; simpl; [contradiction|].
  destruct (Z.eqb (p_id q) pid) eqn:E; simpl; rewrite E; [reflexivity|].
  apply IH. destruct Hin as [->|Hin]; [|exact Hin].
  apply Z.eqb_neq in E. contradiction.
Qed.

Lemma cachedStock_other pid pid' f s :
  (forall p, p_id (f p) = p_id p) -> pid' <> pid ->
  cachedStock pid' (update_product pid f s) = cachedStock pid' s.
Proof.
  intros Hf Hne. unfold cachedStock, update_product. simpl.
  induction (products s) as [|q ps IH]; simpl; [reflexivity|].
  destruct (Z.eqb_spec (p_id q) pid) as [E|E].
  - rewrite Hf. destruct (Z.eqb_spec (p_id q) pid'); [congruence | exact IH].
  - destruct (Z.eqb (p_id q) pid'); [reflexivity | exact IH].
Qed.

Lemma recount_counter pid s :
  (exists p, In p (products s) /\ p_id p = pid) ->
  cachedStock pid (updateProductStock pid s)
  = realStockCount (unsold_rows pid (updateProductStock pid s)).
Proof.
  intro H. unfold updateProductStock. rewrite cachedStock_set by exact H.
  reflexivity.
Qed.

Lemma recount_twice pid s :
  updateProductStock pid (updateProductStock pid s) = updateProductStock pid s.
Proof.
  unfold updateProductStock at 1.
  replace (unsold_rows pid (updateProductStock pid s)) with (unsold_rows pid s)
    by reflexivity.
  unfold updateProductStock, update_product, set_products. simpl. f_equal.
  rewrite map_map. apply map_ext. intro p.
  destruct (Z.eqb (p_id p) pid) eqn:E; simpl; rewrite E; reflexivity.
Qed.

(** X3.  [updateProductStock] puts the counter of an existing product on
    the sum of its unsold, published quantities, whatever the counter read
    before; it leaves the other products' counters and every other table
    as they were, and running it again changes nothing. *)
Theorem recount_sets_counter (pid : Z) (s : db) :
  (exists p, In p (products s) /\ p_id p = pid) ->
  cachedStock pid (updateProductStock pid s)
    = realStockCount (unsold_rows pid (updateProductStock pid s)) /\
  (forall pid', pid' <> pid ->
     cachedStock pid' (updateProductStock pid s) = cachedStock pid' s) /\
  product_stock (updateProductStock pid s) = product_stock s /\
  users (updateProductStock pid s) = users s /\
  withdrawals (updateProductStock pid s) = withdrawals s /\
  orders (updateProductStock pid s) = orders s /\
  updateProductStock pid (updateProductStock pid s) = updateProductStock pid s.
Proof.
  intro H. split; [apply recount_counter, H|]. split.
  - intros pid' Hne. apply cachedStock_other; [reflexivity | exact Hne].
  - repeat split. apply recount_twice.
Qed.

(** The shelf with a counter of 3 over a pool of 5. *)
Lemma recount_sets_counter_witness :
  let s := Shop.shelf [Shop.record 1 2; Shop.record 2 3] in
  cachedStock 1 s = 3%Z /\
  cachedStock 1 (updateProductStock 1 s) = 5%Z.
Proof.
  intro s.
  destruct (recount_sets_counter 1 s) as (Hc & _).
  - eexists. split; [left; reflexivity | reflexivity].
  - split; [reflexivity|]. rewrite Hc. reflexivity.
Defined.

Lemma products_insert_items pid prov items :
  forall s, products (insert_items pid prov items s) = products s.
Proof.
  unfold insert_items. induction items as [|i items IH]; intro s; simpl;
    [reflexivity|]. rewrite IH. reflexivity.
Qed.

Lemma users_insert_items pid prov items :
  forall s, users (insert_items pid prov items s) = users s.
Proof.
  unfold insert_items. induction items as [|i items IH]; intro s; simpl;
    [reflexivity|]. rewrite IH. reflexivity.
Qed.

Lemma table_units_insert_items pid' pid prov items :
  forall s,
    table_units pid' (product_stock (insert_items pid prov items s))
    = table_units pid' (product_stock s).
Proof.
  unfold insert_items. induction items as [|i items IH]; intro s; simpl;
    [reflexivity|].
  rewrite IH. simpl. rewrite table_units_app. simpl.
  unfold row_units. simpl. destruct (Z.eqb pid pid'); simpl; lia.
Qed.

Lemma length_insert_items pid prov items :
  forall s,
    List.length (product_stock (insert_items pid prov items s))
    = (List.length (product_stock s) + List.length items)%nat.
Proof.
  unfold insert_items. induction items as [|i items IH]; intro s; simpl;
    [lia|].
  rewrite IH. simpl. rewrite length_app. simpl. lia.
Qed.

Lemma pool_recount pid' pid s :
  realStockCount (unsold_rows pid' (updateProductStock pid s))
  = table_units pid' (product_stock s).
Proof. rewrite realStockCount_table. reflexivity. Qed.

(** X4.  Stock that has just been added is not for sale.  A stock add
    with a product, a provider and at least one item succeeds and appends
    one row per item; the rows enter as [Sin publicar], so the pool of
    every product, and with it what a purchase can allocate, stays as it
    was, and the counter of the product (when there is such a product) is
    put on that pool. *)
Theorem added_stock_is_not_for_sale (productId providerId : Z)
    (items : list stock_data) (s : db) :
  productId <> 0%Z -> providerId <> 0%Z -> items <> [] ->
  exists s',
    supplier_stock_add productId providerId items s = (Ok tt, s') /\
    (forall pid,
       realStockCount (unsold_rows pid s')
       = realStockCount (unsold_rows pid s)) /\
    List.length (product_stock s')
      = (List.length (product_stock s) + List.length items)%nat /\
    ((exists p, In p (products s) /\ p_id p = productId) ->
     cachedStock productId s' = realStockCount (unsold_rows productId s)) /\
    users s' = users s.
Proof.
  intros Hp Hv Hi. unfold supplier_stock_add.
  destruct items as [|i items]; [contradiction|].
  destruct (Z.eqb_spec productId 0); [contradiction|].
  destruct (Z.eqb_spec providerId 0); [contradiction|].
  simpl orb. cbv iota. eexists. split; [reflexivity|].
  split; [|split; [|split]].
  - intro pid. rewrite pool_recount, realStockCount_table.
    apply table_units_insert_items.
  - apply length_insert_items.
  - intro Hex. rewrite recount_counter.
    + rewrite pool_recount, realStockCount_table.
      apply table_units_insert_items.
    + destruct Hex as (p & Hin & Hid). exists p.
      rewrite products_insert_items. split; assumption.
  - apply users_insert_items.
Qed.

(** The vendor adds a record of quantity 4 to the plan. *)
Lemma added_stock_is_not_for_sale_witness :
  let s' := snd (supplier_stock_add 1 2 [Shop.published 4] Shop.shop) in
  realStockCount (unsold_rows 1 s') = 2%Z /\
  List.length (product_stock s') = 2%nat.
Proof.
  intro s'.
  destruct (added_stock_is_not_for_sale 1 2 [Shop.published 4] Shop.shop)
    as (s2 & Hrun & Hpool & Hlen & _); try discriminate.
  assert (Hs : s' = s2) by (unfold s'; rewrite Hrun; reflexivity).
  rewrite Hs, Hpool, Hlen. split; reflexivity.
Defined.

Lemma find_stock_spec stockId_ s row :
  find_stock stockId_ s = Some row ->
  In row (product_stock s) /\ ps_id row = stockId_.
Proof.
  unfold find_stock. intro H. apply find_some in H. destruct H as [Hin H].
  split; [exact Hin | apply Z.eqb_eq; exact H].
Qed.

Lemma filter_absent i T :
  ~ In i (map ps_id T) ->
  filter (fun r => negb (Z.eqb (ps_id r) i)) T = T.
Proof.
  induction T as [|r T IH]; simpl; intro H; [reflexivity|].
  destruct (Z.eqb_spec (ps_id r) i) as [E|E]; simpl.
  - exfalso. apply H. left. exact E.
  - rewrite IH; [reflexivity|]. intro Hin. apply H. right. exact Hin.
Qed.

Lemma table_units_delete pid T row :
  NoDup (map ps_id T) -> In row T ->
  table_units pid (filter (fun r => negb (Z.eqb (ps_id r) (ps_id row))) T)
  = (table_units pid T - row_units pid row)%Z.
Proof.
  induction T as [|r T IH]; simpl; intros Hnd Hin; [contradiction|].
  inversion Hnd as [|x l Hnotin Hnd' Hx]; subst.
  destruct (Z.eqb_spec (ps_id r) (ps_id row)) as [E|E]; simpl.
  - assert (Hr : row = r).
    { destruct Hin as [Hin|Hin]; [symmetry; exact Hin|].
      exfalso. apply Hnotin. rewrite E. apply in_map. exact Hin. }
    subst row. rewrite filter_absent by exact Hnotin. lia.
  - destruct Hin as [Hin|Hin]; [subst; contradiction|].
    rewrite IH by assumption. lia.
Qed.

(** X5.  Publishing puts a row on sale.  For a row of a stock table with
    distinct rowids, a publish request succeeds; when the row is unsold
    and was [Sin publicar] the pool of its product grows by the quantity
    of the row, when the row is sold or was already published the pool
    stays; no other product's pool moves, and the counter of the product
    (when there is such a product) ends on the pool. *)
Theorem publish_puts_row_on_sale (stockId_ : Z) (row : stock_row) (s : db) :
  NoDup (map ps_id (product_stock s)) ->
  stockId_ <> 0%Z ->
  find_stock stockId_ s = Some row ->
  exists s',
    supplier_stock_publish stockId_ s = (Ok tt, s') /\
    realStockCount (unsold_rows (product_id row) s')
      = (realStockCount (unsold_rows (product_id row) s)
         + (if andb (negb (is_sold row)) (unpublished (data row))
            then availableInRow (data row) else 0))%Z /\
    (forall pid, pid <> product_id row ->
       realStockCount (unsold_rows pid s')
       = realStockCount (unsold_rows pid s)) /\
    ((exists p, In p (products s) /\ p_id p = product_id row) ->
     cachedStock (product_id row) s'
       = realStockCount (unsold_rows (product_id row) s')) /\
    users s' = users s.
Proof.
  intros Hnd Hne Hrow. unfold supplier_stock_publish.
  destruct (Z.eqb_spec stockId_ 0); [contradiction|]. rewrite Hrow.
  cbv zeta. eexists. split; [reflexivity|].
  destruct (find_stock_spec _ _ _ Hrow) as [Hin Hid]. subst stockId_.
  assert (Hunits : forall pid,
    table_units pid
      (product_stock
         (update_stock_rows (fun r => Z.eqb (ps_id r) (ps_id row))
            (with_data (with_sd_status "Publicado" (data row))) s))
    = (table_units pid (product_stock s) - row_units pid row
       + row_units pid (with_data (with_sd_status "Publicado" (data row)) row))%Z).
  { intro pid. apply table_units_rewrite; assumption. }
  split; [|split; [|split]].
  - rewrite pool_recount, realStockCount_table, Hunits.
    unfold row_units. simpl. rewrite Z.eqb_refl. simpl.
    change (availableInRow (with_sd_status "Publicado" (data row)))
      with (availableInRow (data row)).
    destruct (is_sold row); simpl; [lia|].
    destruct (unpublished (data row)); simpl; lia.
  - intros pid Hpid. rewrite pool_recount, realStockCount_table, Hunits.
    unfold row_units. simpl.
    destruct (Z.eqb_spec (product_id row) pid); [congruence|]. simpl. lia.
  - intro Hex. apply recount_counter. exact Hex.
  - reflexivity.
Qed.

(** The vendor adds a record of quantity 4 to the plan (it takes rowid 2)
    and publishes it: the pool goes from 2 to 6. *)
Lemma publish_puts_row_on_sale_witness :
  let s1 := snd (supplier_stock_add 1 2 [Shop.published 4] Shop.shop) in
  realStockCount (unsold_rows 1 s1) = 2%Z /\
  realStockCount (unsold_rows 1 (snd (supplier_stock_publish 2 s1))) = 6%Z.
Proof.
  intro s1. split; [reflexivity|].
  assert (Hrow : exists row, find_stock 2 s1 = Some row /\
                             product_id row = 1%Z /\ is_sold row = false /\
                             unpublished (data row) = true /\
                             availableInRow (data row) = 4%Z).
  { eexists. split; [vm_compute; reflexivity|]. repeat split. }
  destruct Hrow as (row & Hrow & Hp & Hs & Hu & Ha).
  destruct (publish_puts_row_on_sale 2 row s1) as (s' & Hrun & Hpool & _).
  - vm_compute. repeat constructor; simpl; intuition discriminate.
  - discriminate.
  - exact Hrow.
  - rewrite Hrun. simpl snd. rewrite Hp in Hpool. rewrite Hpool, Hs, Hu, Ha.
    reflexivity.
Defined.

(** X6.  Deleting a stock row.  For a row of a stock table with distinct
    rowids the delete succeeds, the row is gone, the pool of its product
    drops by what the row contributed (nothing for a sold or unpublished
    row), no other product's pool moves, and the counter of the product
    (when there is such a product) ends on the pool.  The handler does
    not look at [is_sold]: a sold row is deleted like any other. *)
Theorem delete_takes_row_off_sale (stockId_ : Z) (row : stock_row) (s : db) :
  NoDup (map ps_id (product_stock s)) ->
  find_stock stockId_ s = Some row ->
  exists s',
    supplier_stock_delete stockId_ s = (Ok tt, s') /\
    find_stock stockId_ s' = None /\
    realStockCount (unsold_rows (product_id row) s')
      = (realStockCount (unsold_rows (product_id row) s)
         - row_units (product_id row) row)%Z /\
    (forall pid, pid <> product_id row ->
       realStockCount (unsold_rows pid s')
       = realStockCount (unsold_rows pid s)) /\
    ((exists p, In p (products s) /\ p_id p = product_id row) ->
     cachedStock (product_id row) s'
       = realStockCount (unsold_rows (product_id row) s')) /\
    users s' = users s.
Proof.
  intros Hnd Hrow. unfold supplier_stock_delete. rewrite Hrow. cbv zeta.
  eexists. split; [reflexivity|].
  destruct (find_stock_spec _ _ _ Hrow) as [Hin Hid]. subst stockId_.
  split; [|split; [|split; [|split]]].
  - unfold find_stock. simpl.
    destruct (find _ _) as [r|] eqn:E; [|reflexivity].
    apply find_some in E. destruct E as [E1 E2].
    apply filter_In in E1. destruct E1 as [_ E1]. rewrite E2 in E1.
    discriminate.
  - rewrite pool_recount, realStockCount_table. simpl.
    apply table_units_delete; assumption.
  - intros pid Hpid. rewrite pool_recount, realStockCount_table. simpl.
    rewrite table_units_delete by assumption.
    unfold row_units. destruct (Z.eqb_spec (product_id row) pid);
      [congruence|]. simpl. lia.
  - intro Hex. apply recount_counter. exact Hex.
  - reflexivity.
Qed.

(** The vendor deletes the batch of the shop: pool and counter go from 2
    to 0. *)
Lemma delete_takes_row_off_sale_witness :
  let s' := snd (supplier_stock_delete 1 Shop.shop) in
  realStockCount (unsold_rows 1 s') = 0%Z /\ cachedStock 1 s' = 0%Z.
Proof.
  intro s'.
  destruct (delete_takes_row_off_sale 1 Shop.batch Shop.shop)
    as (s2 & Hrun & _ & Hpool & _ & Hc & _).
  - vm_compute. repeat constructor; simpl; intuition.
  - reflexivity.
  - assert (Hs : s' = s2) by (unfold s'; rewrite Hrun; reflexivity).
    change (product_id Shop.batch) with 1%Z in Hc, Hpool.
    rewrite Hs, Hc, Hpool.
    + split; reflexivity.
    + eexists. split; [left; reflexivity | reflexivity].
Defined.

(** X7.  Editing a stock row does not recount.  PUT
    /supplier/stock/:stockId replaces the document of the row and nothing
    else: the products table, and so every counter, is as before, while
    the pool of the row's product moves by the difference between what
    the new and the old document contribute.  A counter that agreed with
    the pool before the edit is off by that difference afterwards. *)
Theorem edit_leaves_counter_stale (stockId_ : Z) (data_ : stock_data)
    (row : stock_row) (s : db) :
  NoDup (map ps_id (product_stock s)) ->
  find_stock stockId_ s = Some row ->
  exists s',
    supplier_stock_edit stockId_ data_ s = (Ok tt, s') /\
    products s' = products s /\ users s' = users s /\
    find_stock stockId_ s' = Some (with_data data_ row) /\
    forall pid,
      realStockCount (unsold_rows pid s')
      = (realStockCount (unsold_rows pid s) - row_units pid row
         + row_units pid (with_data data_ row))%Z.
Proof.
  intros Hnd Hrow. unfold supplier_stock_edit.
  eexists. split; [reflexivity|]. split; [reflexivity|].
  split; [reflexivity|].
  destruct (find_stock_spec _ _ _ Hrow) as [Hin Hid]. split.
  - unfold find_stock in *. simpl. clear Hnd Hin Hid.
    induction (product_stock s) as [|r T IH]; simpl in *; [discriminate|].
    destruct (Z.eqb (ps_id r) stockId_) eqn:E; simpl; rewrite E.
    + injection Hrow as ->. reflexivity.
    + apply IH. exact Hrow.
  - intro pid. subst stockId_. rewrite !realStockCount_table.
    apply table_units_rewrite; assumption.
Qed.

(** The vendor rewrites the batch of the shop (quantity 2) into a
    document of quantity 7: the counter still reads 2 over a pool of 7. *)
Lemma edit_leaves_counter_stale_witness :
  let s' := snd (supplier_stock_edit 1 (Shop.published 7) Shop.shop) in
  cachedStock 1 s' = 2%Z /\ realStockCount (unsold_rows 1 s') = 7%Z.
Proof.
  intro s'.
  destruct (edit_leaves_counter_stale 1 (Shop.published 7) Shop.batch Shop.shop)
    as (s2 & Hrun & Hp & _ & _ & Hpool).
  - vm_compute. repeat constructor; simpl; intuition.
  - reflexivity.
  - assert (Hs : s' = s2) by (unfold s'; rewrite Hrun; reflexivity).
    rewrite Hs, Hpool. unfold cachedStock. rewrite Hp. split; reflexivity.
Defined.

(** ** Recharges: record, approve, reject, cancel *)

Lemma pending_match_with_status tid st t :
  pending_match tid (with_status st t)
  = andb (Js.strict_eq (tx_id t) tid) (String.eqb st "Pendiente").
Proof. reflexivity. Qed.

Lemma settled_approved tid h : settled tid (map (approve_entry tid) h).
Proof.
  unfold settled. induction h as [|t h IH]; simpl; [reflexivity|].
  rewrite IH, orb_false_r. unfold approve_entry.
  destruct (pending_match tid t) eqn:E; [|exact E].
  rewrite pending_match_with_status. apply andb_false_r.
Qed.

Lemma settled_rejected tid h :
  settled tid
    (map (fun t => if pending_match tid t then with_status "Rechazada" t else t)
       h).
Proof.
  unfold settled. induction h as [|t h IH]; simpl; [reflexivity|].
  rewrite IH, orb_false_r.
  destruct (pending_match tid t) eqn:E; [|exact E].
  rewrite pending_match_with_status. apply andb_false_r.
Qed.

Lemma settled_cancelled tid h :
  settled tid
    (map (fun t => if Js.strict_eq (tx_id t) tid
                   then with_status "Cancelada" t else t) h).
Proof.
  unfold settled. induction h as [|t h IH]; simpl; [reflexivity|].
  rewrite IH, orb_false_r.
  destruct (Js.strict_eq (tx_id t) tid) eqn:E.
  - rewrite pending_match_with_status. apply andb_false_r.
  - unfold pending_match. rewrite E. reflexivity.
Qed.

Lemma carried_map tid (f : transaction -> transaction) h :
  (forall t, tx_id (f t) = tx_id t) ->
  existsb (fun t => Js.strict_eq (tx_id t) tid) (map f h)
  = existsb (fun t => Js.strict_eq (tx_id t) tid) h.
Proof.
  intro Hf. induction h as [|t h IH]; simpl; [reflexivity|].
  rewrite Hf, IH. reflexivity.
Qed.

Lemma pending_carried tid h :
  existsb (pending_match tid) h = true ->
  existsb (fun t => Js.strict_eq (tx_id t) tid) h = true.
Proof.
  induction h as [|t h IH]; simpl; [discriminate|].
  intro H. apply orb_true_iff in H. apply orb_true_iff.
  destruct H as [H|H]; [left | right; apply IH; exact H].
  unfold pending_match in H. apply andb_true_iff in H. apply H.
Qed.

Lemma found_carried tid h x :
  find (fun t => Js.strict_eq (tx_id t) tid) h = Some x ->
  existsb (fun t => Js.strict_eq (tx_id t) tid) h = true.
Proof.
  intro H. apply find_some in H. apply existsb_exists. exists x. exact H.
Qed.

(** What the three handlers answer on a ledger without a pending entry of
    the id. *)
Lemma settled_answers userId tid s u :
  find_user userId s = Some u ->
  settled tid (transactions_history u) ->
  (forall clk,
     admin_transaction_approve clk userId tid s = (Fail 404 NotFound, s)) /\
  admin_transaction_reject userId tid s = (Fail 404 NotFound, s) /\
  (userId <> 0%Z -> Js.truthy tid = true ->
   existsb (fun t => Js.strict_eq (tx_id t) tid) (transactions_history u)
     = true ->
   transaction_cancel userId tid s = (Fail 400 AlreadyProcessed, s)).
Proof.
  intros Hu Hs. unfold settled in Hs. split; [|split].
  - intro clk. unfold admin_transaction_approve. rewrite Hu. cbv zeta.
    rewrite approve_map_spec, Hs. reflexivity.
  - unfold admin_transaction_reject. rewrite Hu. cbv zeta. rewrite Hs.
    reflexivity.
  - intros Hn Ht Hc. unfold transaction_cancel.
    destruct (Z.eqb_spec userId 0); [contradiction|]. rewrite Ht. simpl.
    rewrite Hu. cbv zeta.
    destruct (find _ (transactions_history u)) as [x|] eqn:E.
    + apply find_some in E. destruct E as [Hin Hx].
      assert (Hp : pending_match tid x = false).
      { destruct (pending_match tid x) eqn:P; [|reflexivity].
        rewrite <- Hs. symmetry. apply existsb_exists. exists x.
        split; assumption. }
      unfold pending_match in Hp. rewrite Hx in Hp. simpl in Hp.
      rewrite Hp. reflexivity.
    + exfalso. apply existsb_exists in Hc. destruct Hc as (x & Hin & Hx).
      pose proof (find_none _ _ E x Hin) as Hn'. simpl in Hn'.
      rewrite Hx in Hn'. discriminate.
Qed.

Lemma settled_cons tid c h :
  tx_status c = "Completada" -> settled tid h -> settled tid (c :: h).
Proof.
  unfold settled. intros Hc Hh. simpl. rewrite Hh, orb_false_r.
  unfold pending_match. rewrite Hc. apply andb_false_r.
Qed.

(** The commission step leaves every row in place, with at most one
    [Completada] entry put in front of its ledger. *)
Lemma pay_commission_history clk r A n s k x :
  find_user k s = Some x ->
  exists x',
    find_user k (pay_commission clk r A n s) = Some x' /\
    (transactions_history x' = transactions_history x \/
     exists c, tx_status c = "Completada" /\
               transactions_history x' = c :: transactions_history x).
Proof.
  intro Hx. unfold pay_commission.
  destruct (find_user r s) as [referrer|] eqn:Hr;
    [|exists x; split; [exact Hx | left; reflexivity]].
  cbv zeta.
  destruct (Qgtb _ 0); [|exists x; split; [exact Hx | left; reflexivity]].
  unfold set_balance_history.
  rewrite find_user_update by (intro y; reflexivity).
  destruct (Z.eqb_spec k r) as [E|E].
  - subst k. rewrite Hx. simpl. eexists. split; [reflexivity|].
    right. eexists. split; [|simpl; rewrite Hx in Hr; injection Hr as <-;
                              reflexivity].
    reflexivity.
  - exists x. split; [exact Hx | left; reflexivity].
Qed.

(** X8.  A recharge is settled once.  After an approval, a rejection or
    a cancellation of the entry has succeeded, no entry of the ledger is
    pending under that id: a later approval and a later rejection answer
    404 and a later cancellation answers 400, each leaving the store as
    it is.  In particular an approval cannot be replayed to credit the
    amount again; this holds for any ledger, also one that carries the id
    more than once and for a user who is their own referrer. *)
Theorem recharge_settled_once (clk : clock) (userId : Z) (tid : Js.id)
    (s s' : db) :
  admin_transaction_approve clk userId tid s = (Ok tt, s') \/
  admin_transaction_reject userId tid s = (Ok tt, s') \/
  transaction_cancel userId tid s = (Ok tt, s') ->
  (forall clk',
     admin_transaction_approve clk' userId tid s' = (Fail 404 NotFound, s')) /\
  admin_transaction_reject userId tid s' = (Fail 404 NotFound, s') /\
  (userId <> 0%Z -> Js.truthy tid = true ->
   transaction_cancel userId tid s' = (Fail 400 AlreadyProcessed, s')).
Proof.
  intro H.
  assert (Hfin : exists u',
            find_user userId s' = Some u' /\
            settled tid (transactions_history u') /\
            existsb (fun t => Js.strict_eq (tx_id t) tid)
              (transactions_history u') = true).
  { destruct H as [H|[H|H]].
    - unfold admin_transaction_approve in H.
      destruct (find_user userId s) as [u|] eqn:Hu; [|discriminate].
      cbv zeta in H. rewrite approve_map_spec in H. simpl orb in H.
      destruct (existsb (pending_match tid) (transactions_history u)) eqn:Hp;
        [|discriminate].
      simpl negb in H. cbv iota in H. injection H as <-.
      set (s1 := set_balance_history userId _ _ s).
      assert (H1 : find_user userId s1
                   = Some (write_ledger
                             (balance u
                              + last_amount tid (transactions_history u) 0)
                             (map (approve_entry tid) (transactions_history u))
                             u)).
      { unfold s1, set_balance_history.
        rewrite find_user_self by (intro y; reflexivity).
        rewrite Hu. reflexivity. }
      assert (Hc1 : existsb (fun t => Js.strict_eq (tx_id t) tid)
                      (map (approve_entry tid) (transactions_history u))
                    = true).
      { rewrite carried_map; [apply pending_carried; exact Hp|].
        intro t. unfold approve_entry. destruct (pending_match tid t);
          reflexivity. }
      assert (Hdirect : exists u',
                find_user userId s1 = Some u' /\
                settled tid (transactions_history u') /\
                existsb (fun t => Js.strict_eq (tx_id t) tid)
                  (transactions_history u') = true).
      { eexists. split; [exact H1|]. split; [apply settled_approved|].
        exact Hc1. }
      destruct (truthy_ref (referred_by_user_id u)) as [r|]; [|exact Hdirect].
      destruct (negb (hasPreviousRecharges (transactions_history u)));
        [|exact Hdirect].
      destruct (pay_commission_history clk r
                  (last_amount tid (transactions_history u) 0) (username u)
                  s1 userId _ H1) as (x' & Hx' & Hh).
      exists x'. split; [exact Hx'|].
      destruct Hh as [Hh|(c & Hc & Hh)]; rewrite Hh; simpl transactions_history.
      + split; [apply settled_approved | exact Hc1].
      + split; [apply settled_cons; [exact Hc | apply settled_approved]|].
        simpl. rewrite Hc1. apply orb_true_r.
    - unfold admin_transaction_reject in H.
      destruct (find_user userId s) as [u|] eqn:Hu; [|discriminate].
      cbv zeta in H.
      destruct (existsb (pending_match tid) (transactions_history u)) eqn:Hp;
        [|discriminate].
      simpl negb in H. cbv iota in H. injection H as <-.
      eexists. split.
      { unfold set_history. rewrite find_user_self by (intro y; reflexivity).
        rewrite Hu. reflexivity. }
      simpl transactions_history. split; [apply settled_rejected|].
      rewrite carried_map; [apply pending_carried; exact Hp|].
      intro t. destruct (pending_match tid t); reflexivity.
    - unfold transaction_cancel in H.
      destruct (orb _ _); [discriminate|].
      destruct (find_user userId s) as [u|] eqn:Hu; [|discriminate].
      cbv zeta in H.
      destruct (find _ (transactions_history u)) as [x|] eqn:Hx;
        [|discriminate].
      destruct (negb _); [discriminate|]. injection H as <-.
      eexists. split.
      { unfold set_history. rewrite find_user_self by (intro y; reflexivity).
        rewrite Hu. reflexivity. }
      simpl transactions_history. split; [apply settled_cancelled|].
      rewrite carried_map; [apply (found_carried _ _ _ Hx)|].
      intro t. destruct (Js.strict_eq (tx_id t) tid); reflexivity. }
  destruct Hfin as (u' & Hu' & Hs' & Hc').
  destruct (settled_answers userId tid s' u' Hu' Hs') as (Ha & Hr & Hcan).
  split; [exact Ha|]. split; [exact Hr|].
  intros Hn Ht. apply Hcan; assumption.
Qed.

(** Ana's pending recharge of 50 is approved; the approval is sent
    again. *)
Lemma recharge_settled_once_witness :
  let s' := Recharge.approved 50 in
  Shop.balance_of 1 s' == 150 /\
  admin_transaction_approve (Shop.day 1) 1 (Js.IdNum Recharge.stamp) s'
    = (Fail 404 NotFound, s') /\
  transaction_cancel 1 (Js.IdNum Recharge.stamp) s'
    = (Fail 400 AlreadyProcessed, s').
Proof.
  intro s'.
  destruct (recharge_settled_once Shop.day0 1 (Js.IdNum Recharge.stamp)
              (Recharge.store 50) s') as (Ha & _ & Hc).
  - left. reflexivity.
  - split; [vm_compute; reflexivity|]. split.
    + apply Ha.
    + apply Hc; [discriminate | reflexivity].
Defined.

Lemma strict_eq_refl i : Js.strict_eq i i = true.
Proof.
  destruct i; simpl; [apply Z.eqb_refl | apply String.eqb_refl | reflexivity].
Qed.

Lemma map_reject_none tid l :
  existsb (pending_match tid) l = false ->
  map (fun t => if pending_match tid t then with_status "Rechazada" t else t) l
  = l.
Proof.
  induction l as [|x h IH]; [reflexivity|]. simpl. intro H.
  apply orb_false_iff in H. destruct H as [Hx Hh].
  rewrite Hx, (IH Hh). reflexivity.
Qed.

(** X9.  From the request to the balance.  An entry recorded through
    /transaction/record changes no balance.  When the entry is pending
    under an id no pending entry of the ledger carries, and the user is
    not their own referrer, then approving it credits exactly the
    recorded amount and leaves the entry [Completada] at the head of the
    ledger, while rejecting or cancelling it leaves the balance as it
    was.  The amount is whatever the request carried: the handlers put no
    bound on it. *)
Theorem record_then_settle (clk : clock) (userId : Z) (t : transaction)
    (s : db) (u : user) :
  userId <> 0%Z ->
  find_user userId s = Some u ->
  tx_status t = "Pendiente" ->
  Js.truthy (tx_id t) = true ->
  settled (tx_id t) (transactions_history u) ->
  truthy_ref (referred_by_user_id u) <> Some userId ->
  exists s1,
    transaction_record userId t s = (Ok tt, s1) /\
    find_user userId s1
      = Some (write_ledger (balance u) (t :: transactions_history u) u) /\
    (exists s2,
       admin_transaction_approve clk userId (tx_id t) s1 = (Ok tt, s2) /\
       find_user userId s2
         = Some (write_ledger (balance u + tx_amount t)
                   (with_status "Completada" t :: transactions_history u) u)) /\
    (exists s2,
       admin_transaction_reject userId (tx_id t) s1 = (Ok tt, s2) /\
       find_user userId s2
         = Some (write_ledger (balance u)
                   (with_status "Rechazada" t :: transactions_history u) u)) /\
    (exists s2,
       transaction_cancel userId (tx_id t) s1 = (Ok tt, s2) /\
       option_map balance (find_user userId s2) = Some (balance u)).
Proof.
  intros Hn Hu Hst Htr Hfresh Hself.
  pose proof (strict_eq_refl (tx_id t)) as Hrefl.
  unfold transaction_record.
  destruct (Z.eqb_spec userId 0); [contradiction|]. rewrite Hu.
  eexists. split; [reflexivity|].
  set (s1 := set_history userId (t :: transactions_history u) s).
  assert (H1 : find_user userId s1
               = Some (write_ledger (balance u) (t :: transactions_history u) u)).
  { unfold s1, set_history. rewrite find_user_self by (intro y; reflexivity).
    rewrite Hu. reflexivity. }
  assert (Hpm : pending_match (tx_id t) t = true).
  { unfold pending_match. rewrite Hrefl, Hst. reflexivity. }
  split; [exact H1|]. split; [|split].
  - eexists. split.
    + apply (approve_unique clk userId (tx_id t) s1 _ [] t
               (transactions_history u) H1); [reflexivity | exact Hpm
               | reflexivity | exact Hfresh].
    + simpl referred_by_user_id. simpl username.
      assert (Hdirect :
        find_user userId
          (approved_user_store userId
             (write_ledger (balance u) (t :: transactions_history u) u)
             [] t (transactions_history u) s1)
        = Some (write_ledger (balance u + tx_amount t)
                  (with_status "Completada" t :: transactions_history u) u)).
      { unfold approved_user_store, set_balance_history.
        rewrite find_user_self by (intro y; reflexivity).
        rewrite H1. reflexivity. }
      destruct (truthy_ref (referred_by_user_id u)) as [r|] eqn:Hr;
        [|exact Hdirect].
      destruct (negb _); [|exact Hdirect].
      rewrite find_user_pay_commission; [exact Hdirect|].
      intro E. apply Hself. rewrite E. reflexivity.
  - unfold admin_transaction_reject. rewrite H1. cbv zeta.
    simpl transactions_history. simpl existsb. simpl map. rewrite !Hpm.
    rewrite (map_reject_none _ _ Hfresh). simpl.
    eexists. split; [reflexivity|].
    unfold set_history. rewrite find_user_self by (intro y; reflexivity).
    rewrite H1. reflexivity.
  - unfold transaction_cancel.
    destruct (Z.eqb_spec userId 0); [contradiction|]. rewrite Htr. simpl.
    rewrite H1. cbv zeta. simpl transactions_history. simpl find.
    rewrite Hrefl, Hst. simpl. eexists. split; [reflexivity|].
    unfold set_history. rewrite find_user_self by (intro y; reflexivity).
    rewrite H1. reflexivity.
Qed.

(** Ana records a pending recharge of 50 on an empty ledger. *)
Lemma record_then_settle_witness :
  exists s1 s2,
    transaction_record 1 (Recharge.recharge 50) Shop.shop = (Ok tt, s1) /\
    admin_transaction_approve Shop.day0 1 (Js.IdNum Recharge.stamp) s1
      = (Ok tt, s2) /\
    option_map balance (find_user 1 s2) = Some (100 + 50).
Proof.
  destruct (record_then_settle Shop.day0 1 (Recharge.recharge 50) Shop.shop
              Shop.ana) as (s1 & Hrec & _ & (s2 & Happ & Hbal) & _);
    try reflexivity; try discriminate.
  exists s1, s2. split; [exact Hrec|]. split; [exact Happ|].
  rewrite Hbal. reflexivity.
Defined.

(** ** Withdrawals: request, cancel, manage *)

Lemma cancel_refused wid uid s :
  (forall w, In w (withdrawals s) -> w_id w = wid -> is_pending w = false) ->
  supplier_withdraw_cancel wid uid s = (Fail 400 AlreadyProcessed, s).
Proof.
  intro H. unfold supplier_withdraw_cancel.
  destruct (find _ (withdrawals s)) as [w|] eqn:E; [|reflexivity].
  apply find_some in E. destruct E as [Hin E].
  apply andb_true_iff in E. destruct E as [E1 E2].
  apply andb_true_iff in E2. destruct E2 as [_ E2].
  apply Z.eqb_eq in E1. rewrite (H w Hin E1) in E2. discriminate.
Qed.

Lemma manage_refused clk wid action s w :
  find_withdrawal wid s = Some w ->
  (forall x, In x (withdrawals s) -> w_id x = wid -> is_pending x = false) ->
  admin_withdraw_manage clk wid action s = (Fail 400 AlreadyProcessed, s).
Proof.
  intros Hw H. unfold admin_withdraw_manage. unfold find_withdrawal in Hw.
  rewrite Hw. apply find_some in Hw. destruct Hw as [Hin E].
  apply Z.eqb_eq in E. rewrite (H w Hin E). reflexivity.
Qed.

Lemma status_set_settles wid st ws x :
  String.eqb st "Pending" = false ->
  In x (map (fun w => if Z.eqb (w_id w) wid then with_w_status st w else w) ws) ->
  w_id x = wid -> is_pending x = false.
Proof.
  intros Hst Hin Hid. apply in_map_iff in Hin. destruct Hin as (w & Hx & _).
  destruct (Z.eqb_spec (w_id w) wid) as [E|E]; subst x.
  - unfold is_pending. simpl. exact Hst.
  - contradiction.
Qed.

(** X10.  A withdrawal is settled once.  After the administrator has
    approved or rejected a request, managing it again (with any action)
    and cancelling it (for any user) answer 400 and leave the store as it
    is: the refund of a rejection cannot be replayed, and a request that
    was paid out cannot be cancelled for its amount.  After the supplier
    has cancelled a request, managing it answers 404 and cancelling it
    again answers 400, with the store as it is. *)
Theorem withdrawal_settled_once (clk : clock) (wid userId : Z)
    (action : string) (s s' : db) :
  (action = "approve" \/ action = "reject" ->
   admin_withdraw_manage clk wid action s = (Ok tt, s') ->
   (forall clk' action',
      admin_withdraw_manage clk' wid action' s'
      = (Fail 400 AlreadyProcessed, s')) /\
   (forall uid,
      supplier_withdraw_cancel wid uid s' = (Fail 400 AlreadyProcessed, s'))) /\
  (supplier_withdraw_cancel wid userId s = (Ok tt, s') ->
   (forall clk' action',
      admin_withdraw_manage clk' wid action' s' = (Fail 404 NotFound, s')) /\
   (forall uid,
      supplier_withdraw_cancel wid uid s' = (Fail 400 AlreadyProcessed, s'))).
Proof.
  split.
  - intros Hact H.
    assert (Hfin : exists st w,
              String.eqb st "Pending" = false /\
              find_withdrawal wid s = Some w /\
              withdrawals s'
              = map (fun w => if Z.eqb (w_id w) wid
                              then with_w_status st w else w) (withdrawals s)).
    { unfold admin_withdraw_manage in H.
      destruct (find _ (withdrawals s)) as [w|] eqn:Hw; [|discriminate].
      destruct (negb (is_pending w)); [discriminate|].
      destruct Hact as [-> | ->]; simpl in H.
      - destruct (find_user (w_user_id w) _); [|discriminate].
        injection H as <-. exists "Approved", w. repeat split. exact Hw.
      - destruct (find_user (w_user_id w) _); [|discriminate].
        injection H as <-. exists "Rejected", w. repeat split. exact Hw. }
    destruct Hfin as (st & w & Hst & Hw & Hws).
    assert (Hsettled : forall x, In x (withdrawals s') -> w_id x = wid ->
                                 is_pending x = false).
    { intros x Hin Hid. rewrite Hws in Hin.
      apply (status_set_settles wid st (withdrawals s)); assumption. }
    split.
    + intros clk' action'.
      apply (manage_refused clk' wid action' s' (with_w_status st w));
        [|exact Hsettled].
      unfold find_withdrawal in *. rewrite Hws. clear - Hw.
      induction (withdrawals s) as [|x ws IH]; simpl in *; [discriminate|].
      destruct (Z.eqb (w_id x) wid) eqn:E; simpl; rewrite E.
      * injection Hw as ->. reflexivity.
      * apply IH. exact Hw.
    + intro uid. apply cancel_refused. exact Hsettled.
  - intro H. unfold supplier_withdraw_cancel in H.
    destruct (find _ (withdrawals s)) as [w|] eqn:Hw; [|discriminate].
    injection H as <-. split.
    + intros clk' action'. unfold admin_withdraw_manage. simpl withdrawals.
      rewrite find_withdrawal_deleted. reflexivity.
    + intro uid. apply cancel_refused. simpl withdrawals.
      intros x Hin Hid. apply filter_In in Hin. destruct Hin as [_ Hin].
      rewrite Hid, Z.eqb_refl in Hin. discriminate.
Qed.

(** The vendor's request of 100 is rejected by the administrator; the
    rejection is sent again, and the vendor tries to cancel. *)
Lemma withdrawal_settled_once_witness :
  let s' := snd (admin_withdraw_manage Shop.day0 1 "reject" Payout.requested) in
  Shop.balance_of 2 Payout.requested == 0 /\
  Shop.balance_of 2 s' == 100 /\
  admin_withdraw_manage (Shop.day 1) 1 "reject" s'
    = (Fail 400 AlreadyProcessed, s') /\
  supplier_withdraw_cancel 1 2 s' = (Fail 400 AlreadyProcessed, s').
Proof.
  intro s'.
  destruct (withdrawal_settled_once Shop.day0 1 2 "reject" Payout.requested s')
    as [Hm _].
  destruct Hm as [Ha Hc]; [right; reflexivity | reflexivity |].
  split; [vm_compute; reflexivity|]. split; [vm_compute; reflexivity|].
  split; [apply Ha | apply Hc].
Defined.







Lemma pending_of_app uid a b :
  pending_of uid (a ++ b) = (pending_of uid a ++ pending_of uid b)%list.
Proof. apply filter_app. Qed.

Lemma pending_of_none uid ws :
  existsb (fun w => andb (Z.eqb (w_user_id w) uid) (is_pending w)) ws = false ->
  pending_of uid ws = [].
Proof.
  unfold pending_of. induction ws as [|w ws IH]; simpl; [reflexivity|].
  intro H. apply orb_false_iff in H. destruct H as [Hw Hrest].
  rewrite Hw. apply IH. exact Hrest.
Qed.

Lemma pending_of_filter uid (q : withdrawal -> bool) ws :
  (List.length (pending_of uid (filter q ws))
   <= List.length (pending_of uid ws))%nat.
Proof.
  unfold pending_of. induction ws as [|w ws IH]; simpl; [lia|].
  destruct (q w); simpl;
    destruct (andb (Z.eqb (w_user_id w) uid) (is_pending w)); simpl; lia.
Qed.

Lemma pending_of_status uid wid st ws :
  String.eqb st "Pending" = false ->
  (List.length
     (pending_of uid
        (map (fun w => if Z.eqb (w_id w) wid then with_w_status st w else w) ws))
   <= List.length (pending_of uid ws))%nat.
Proof.
  intro Hst. unfold pending_of. induction ws as [|w ws IH]; simpl; [lia|].
  destruct (Z.eqb (w_id w) wid); simpl.
  - unfold is_pending at 1. simpl. rewrite Hst, andb_false_r.
    destruct (andb (Z.eqb (w_user_id w) uid) (is_pending w)); simpl; lia.
  - destruct (andb (Z.eqb (w_user_id w) uid) (is_pending w)); simpl; lia.
Qed.

(** X12.  At most one pending request per user.  If no user has more
    than one [Pending] row in the withdrawals table, this is still so
    after any withdrawal request, any cancellation, any management action
    and any deletion of a user, whatever their arguments and whatever
    they answer. *)
Theorem one_pending_request_per_user (s : db) :
  one_pending s ->
  (forall userId G, one_pending (snd (supplier_withdraw userId G s))) /\
  (forall wid userId, one_pending (snd (supplier_withdraw_cancel wid userId s))) /\
  (forall clk wid action,
     one_pending (snd (admin_withdraw_manage clk wid action s))) /\
  (forall userId, one_pending (snd (admin_user_delete userId s))).
Proof.
  intro H. split; [|split; [|split]].
  - intros userId G. unfold supplier_withdraw.
    destruct (Qleb G 0); [exact H|].
    destruct (existsb _ (withdrawals s)) eqn:Hp; [exact H|].
    destruct (find_user userId s); [|exact H]. cbv zeta.
    destruct (Qgtb _ _); [exact H|].
    intro uid. simpl. rewrite pending_of_app, length_app.
    unfold pending_of at 2. simpl.
    destruct (Z.eqb_spec userId uid) as [E|E]; simpl.
    + subst uid. rewrite (pending_of_none _ _ Hp). simpl. lia.
    + pose proof (H uid). lia.
  - intros wid userId. unfold supplier_withdraw_cancel.
    destruct (find _ (withdrawals s)); [|exact H].
    intro uid. simpl. pose proof (H uid).
    pose proof (pending_of_filter uid
                  (fun x => negb (Z.eqb (w_id x) wid)) (withdrawals s)). lia.
  - intros clk wid action. unfold admin_withdraw_manage.
    destruct (find _ (withdrawals s)) as [w|]; [|exact H].
    destruct (negb (is_pending w)); [exact H|].
    destruct (String.eqb action "approve").
    + assert (Hs : one_pending (set_withdrawal_status wid "Approved" s)).
      { intro uid. simpl. pose proof (H uid).
        pose proof (pending_of_status uid wid "Approved" (withdrawals s)
                      eq_refl). lia. }
      destruct (find_user _ _); exact Hs.
    + destruct (String.eqb action "reject"); [|exact H].
      assert (Hs : one_pending (set_withdrawal_status wid "Rejected" s)).
      { intro uid. simpl. pose proof (H uid).
        pose proof (pending_of_status uid wid "Rejected" (withdrawals s)
                      eq_refl). lia. }
      destruct (find_user _ _); exact Hs.
  - intro userId. unfold admin_user_delete.
    destruct (Z.eqb userId 0); [exact H|].
    destruct (find_user userId s) as [u|]; [|exact H].
    destruct (String.eqb (role u) "Admin"); [exact H|].
    intro uid. simpl. pose proof (H uid).
    pose proof (pending_of_filter uid
                  (fun w => negb (Z.eqb (w_user_id w) userId)) (withdrawals s)).
    lia.
Qed.

(** With the vendor's request pending, a second request of the vendor and
    a first one of dario leave one pending row each. *)
Lemma one_pending_request_per_user_witness :
  one_pending (snd (supplier_withdraw 2 1 Payout.requested)) /\
  one_pending (snd (supplier_withdraw 3 0 Payout.requested)).
Proof.
  assert (H : one_pending Payout.requested).
  { intro uid. unfold pending_of. simpl.
    match goal with |- context [if ?b then _ else _] => destruct b end;
      simpl; lia. }
  destruct (one_pending_request_per_user Payout.requested H) as (Hw & _).
  split; apply Hw.
Defined.

Lemma round3_nonneg_unit x :
  0 <= x -> x <= 1 -> 0 <= round3_nonneg x /\ round3_nonneg x <= 1.
Proof.
  intros H0 H1. unfold round3_nonneg.
  assert (Hlo : (0 <= Qfloor (x * 1000 + (1 # 2)))%Z).
  { change 0%Z with (Qfloor 0). apply Qfloor_resp_le. lra. }
  assert (Hhi : (Qfloor (x * 1000 + (1 # 2)) < 1001)%Z).
  { rewrite Zlt_Qlt. pose proof (Qfloor_le (x * 1000 + (1 # 2))) as Hf.
    change (inject_Z 1001) with 1001. lra. }
  split; unfold Qle; cbn [Qnum Qden]; lia.
Qed.

Lemma round3_unit x : 0 <= x -> x <= 1 -> 0 <= round3 x /\ round3 x <= 1.
Proof.
  intros H0 H1. unfold round3. destruct (Qlt_le_dec x 0) as [Hneg|_].
  - exfalso. apply (Qlt_not_le _ _ Hneg). exact H0.
  - apply round3_nonneg_unit; assumption.
Qed.

(** X13.  The withdrawal fee.  A fee outside [[0, 1]] is refused with 400
    and nothing is written.  A fee inside is stored rounded to three
    decimals, the stored rate again lies in [[0, 1]], and every request
    accepted afterwards records a net amount [G - G * rate] between 0 and
    [G]: with a validated fee the payout is never negative and never more
    than what left the balance. *)
Theorem withdrawal_fee_bounds (fee : Q) (s : db) :
  ((fee < 0 \/ 1 < fee) ->
   admin_settings_withdrawal_fee fee s = (Fail 400 InvalidInput, s)) /\
  (0 <= fee -> fee <= 1 ->
   exists s',
     admin_settings_withdrawal_fee fee s = (Ok tt, s') /\
     feeRate s' = round3 fee /\
     0 <= feeRate s' /\ feeRate s' <= 1 /\
     users s' = users s /\ withdrawals s' = withdrawals s /\
     forall userId G s2,
       supplier_withdraw userId G s' = (Ok tt, s2) ->
       exists w,
         withdrawals s2 = (withdrawals s' ++ [w])%list /\
         amount_original w = G /\
         amount_final w = G - G * round3 fee /\
         0 <= amount_final w /\ amount_final w <= G).
Proof.
  unfold admin_settings_withdrawal_fee. split.
  - intros [H|H].
    + rewrite (proj2 (Qltb_lt fee 0)) by exact H. reflexivity.
    + unfold Qgtb. rewrite (proj2 (Qltb_lt 1 fee)) by exact H.
      rewrite orb_true_r. reflexivity.
  - intros H0 H1.
    rewrite (proj2 (Qltb_ge fee 0)) by exact H0. unfold Qgtb.
    rewrite (proj2 (Qltb_ge 1 fee)) by exact H1. simpl.
    destruct (round3_unit fee H0 H1) as [Hlo Hhi].
    eexists. split; [reflexivity|]. split; [reflexivity|].
    split; [exact Hlo|]. split; [exact Hhi|]. split; [reflexivity|].
    split; [reflexivity|].
    intros userId G s2 H. unfold supplier_withdraw in H.
    destruct (Qleb G 0) eqn:HG; [discriminate|].
    destruct (existsb _ _); [discriminate|].
    destruct (find_user userId _); [|discriminate]. cbv zeta in H.
    destruct (Qgtb _ _); [discriminate|]. injection H as <-.
    eexists. split; [reflexivity|]. split; [reflexivity|].
    split; [reflexivity|]. simpl.
    assert (HGpos : 0 < G).
    { unfold Qleb in HG. apply negb_false_iff in HG. apply Qltb_lt. exact HG. }
    change (feeRate (set_withdrawal_fee (Some (round3 fee)) s))
      with (round3 fee).
    generalize dependent (round3 fee). intros r Hlo Hhi. split; nra.
Qed.

(** A fee of 12.34 per cent is stored as 0.123; a request of the vendor's
    whole 100 then nets 87.7. *)
Lemma withdrawal_fee_bounds_witness :
  exists s',
    admin_settings_withdrawal_fee (1234 # 10000) Payout.store = (Ok tt, s') /\
    feeRate s' == 123 # 1000 /\
    admin_settings_withdrawal_fee (3 # 2) Payout.store
      = (Fail 400 InvalidInput, Payout.store).
Proof.
  destruct (withdrawal_fee_bounds (1234 # 10000) Payout.store) as [_ Hok].
  destruct (withdrawal_fee_bounds (3 # 2) Payout.store) as [Hbad _].
  destruct Hok as (s' & Hrun & Hrate & _); [discriminate | discriminate |].
  exists s'. split; [exact Hrun|]. split.
  - rewrite Hrate. vm_compute. reflexivity.
  - apply Hbad. right. reflexivity.
Defined.

(** ** The refund by stock row *)

Lemma find_stock_update stockId_ f s row :
  (forall r, ps_id (f r) = ps_id r) ->
  find_stock stockId_ s = Some row ->
  find_stock stockId_
    (update_stock_rows (fun r => Z.eqb (ps_id r) stockId_) f s)
  = Some (f row).
Proof.
  intros Hf. unfold find_stock. simpl.
  induction (product_stock s) as [|r T IH]; simpl; [discriminate|].
  destruct (Z.eqb (ps_id r) stockId_) eqn:E; simpl.
  - rewrite Hf, E. intro H. injection H as ->. reflexivity.
  - rewrite E. exact IH.
Qed.

Lemma find_product_update pid f s p :
  (forall x, p_id (f x) = p_id x) ->
  find_product_by_id pid s = Some p ->
  find_product_by_id pid (update_product pid f s) = Some (f p).
Proof.
  intros Hf. unfold find_product_by_id. simpl.
  induction (products s) as [|x T IH]; simpl; [discriminate|].
  destruct (Z.eqb (p_id x) pid) eqn:E; simpl.
  - rewrite Hf, E. intro H. injection H as ->. reflexivity.
  - rewrite E. exact IH.
Qed.

Lemma cachedStock_found pid s p :
  find_product_by_id pid s = Some p -> cachedStock pid s = stock p.
Proof. unfold find_product_by_id, cachedStock. intros ->. reflexivity. Qed.

(** X14.  The refund by stock row moves the amount and frees the row.
    For a sold row whose product, buyer and provider can be read (buyer
    and provider being different users), POST /supplier/refund succeeds
    for any amount: the buyer's balance grows by it under a [Devuelto]
    credit entry, the provider's balance drops by it under a
    [Completada] debit entry flagged [isRefund], the row is unsold
    again and the product's counter is one higher.  Nothing compares the
    amount with the price paid or with the provider's balance.  Once
    done it cannot be replayed: a second refund of the row, with any
    amount, answers 500 and leaves the store as it is. *)
Theorem stock_refund_moves_amount (clk : clock) (stockId_ : Z) (a : Q)
    (s : db) (row : stock_row) (p : product) (buyerId : Z)
    (buyer provider : user) :
  find_stock stockId_ s = Some row ->
  find_product_by_id (product_id row) s = Some p ->
  sold_to_user_id row = Some buyerId ->
  find_user buyerId s = Some buyer ->
  find_user (provider_user_id row) s = Some provider ->
  buyerId <> provider_user_id row ->
  exists s' c d,
    supplier_refund clk stockId_ a s = (Ok tt, s') /\
    find_user buyerId s'
      = Some (write_ledger (balance buyer + a)
                (c :: transactions_history buyer) buyer) /\
    tx_type c = "credit" /\ tx_status c = "Devuelto" /\ tx_amount c = a /\
    find_user (provider_user_id row) s'
      = Some (write_ledger (balance provider - a)
                (d :: transactions_history provider) provider) /\
    tx_type d = "debit" /\ tx_status d = "Completada" /\ tx_amount d = a /\
    isRefund d = true /\
    find_stock stockId_ s' = Some (mark_unsold row) /\
    cachedStock (product_id row) s' = (cachedStock (product_id row) s + 1)%Z /\
    forall clk' a',
      supplier_refund clk' stockId_ a' s' = (Fail 500 InternalError, s').
Proof.
  intros Hrow Hp Hsold Hb Hv Hne.
  pose proof (find_user_id _ _ _ Hb) as Hbid.
  unfold supplier_refund. rewrite Hrow. cbv zeta. rewrite Hp, Hsold, Hb.
  simpl option_map. cbv iota beta.
  set (s1 := set_balance_history buyerId _ _ s).
  assert (Hv1 : find_user (provider_user_id row) s1 = Some provider).
  { unfold s1, set_balance_history.
    rewrite find_user_other; [exact Hv | intro y; reflexivity|].
    intro E. apply Hne. symmetry. exact E. }
  rewrite Hv1.
  set (s2 := set_balance_history (provider_user_id row) _ _ s1).
  set (s3 := update_stock_rows _ mark_unsold s2).
  set (s4 := update_product (product_id row) _ s3).
  assert (Hrow4 : find_stock stockId_ s4 = Some (mark_unsold row)).
  { change (find_stock stockId_ s4)
      with (find_stock stockId_
              (update_stock_rows (fun r => Z.eqb (ps_id r) stockId_)
                 mark_unsold s)).
    apply find_stock_update; [intro r; reflexivity | exact Hrow]. }
  assert (Hp4 : find_product_by_id (product_id row) s4
                = Some (with_stock (stock p + 1) p)).
  { change (find_product_by_id (product_id row) s4)
      with (find_product_by_id (product_id row)
              (update_product (product_id row)
                 (fun x => with_stock (stock x + 1) x) s)).
    apply (find_product_update (product_id row)
             (fun x => with_stock (stock x + 1) x));
      [intro x; reflexivity | exact Hp]. }
  eexists. eexists. eexists. split; [reflexivity|].
  split; [|split; [|split; [|split; [|split; [|split; [|split; [|split;
    [|split; [|split; [|split]]]]]]]]]].
  - change (find_user buyerId s4) with (find_user buyerId s2).
    unfold s2, set_balance_history.
    rewrite find_user_other; [|intro y; reflexivity | exact Hne].
    unfold s1, set_balance_history.
    rewrite find_user_self by (intro y; reflexivity).
    rewrite Hb. reflexivity.
  - reflexivity.
  - reflexivity.
  - reflexivity.
  - change (find_user (provider_user_id row) s4)
      with (find_user (provider_user_id row) s2).
    unfold s2, set_balance_history.
    rewrite find_user_self by (intro y; reflexivity).
    rewrite Hv1. reflexivity.
  - reflexivity.
  - reflexivity.
  - reflexivity.
  - reflexivity.
  - exact Hrow4.
  - rewrite (cachedStock_found _ _ _ Hp4), (cachedStock_found _ _ _ Hp).
    reflexivity.
  - intros clk' a'. rewrite Hrow4. cbv zeta.
    change (product_id (mark_unsold row)) with (product_id row).
    rewrite Hp4. reflexivity.
Qed.

(** Ana bought the batch for 30.  A refund of 500 on the row takes her
    from 70 to 570 and the vendor from 80 to 420 below zero. *)
Lemma stock_refund_moves_amount_witness :
  exists s',
    supplier_refund (Shop.day 1) 1 500 Shop.after_purchase = (Ok tt, s') /\
    Shop.balance_of 1 Shop.after_purchase == 70 /\
    Shop.balance_of 2 Shop.after_purchase == 80 /\
    Shop.balance_of 1 s' == 570 /\
    Shop.balance_of 2 s' == - (420) /\
    supplier_refund (Shop.day 2) 1 500 s' = (Fail 500 InternalError, s').
Proof.
  assert (H : exists row p buyer provider,
            find_stock 1 Shop.after_purchase = Some row /\
            find_product_by_id (product_id row) Shop.after_purchase = Some p /\
            sold_to_user_id row = Some 1%Z /\
            find_user 1 Shop.after_purchase = Some buyer /\
            find_user (provider_user_id row) Shop.after_purchase
              = Some provider /\
            provider_user_id row = 2%Z /\
            balance buyer == 70 /\ balance provider == 80).
  { do 4 eexists. split; [vm_compute; reflexivity|].
    split; [vm_compute; reflexivity|]. split; [reflexivity|].
    split; [vm_compute; reflexivity|]. split; [vm_compute; reflexivity|].
    split; [reflexivity|]. split; vm_compute; reflexivity. }
  destruct H as (row & p & buyer & provider & Hrow & Hp & Hsold & Hb & Hv
                 & Hvid & Hbb & Hvb).
  destruct (stock_refund_moves_amount (Shop.day 1) 1 500 Shop.after_purchase
              row p 1 buyer provider Hrow Hp Hsold Hb Hv)
    as (s' & c & d & Hrun & Hb' & _ & _ & _ & Hv' & _ & _ & _ & _ & _ & _
        & Hagain).
  { rewrite Hvid. discriminate. }
  exists s'. split; [exact Hrun|].
  unfold Shop.balance_of. rewrite Hvid in *. rewrite Hb, Hv, Hb', Hv'.
  simpl balance. split; [exact Hbb|]. split; [exact Hvb|].
  split; [rewrite Hbb; reflexivity|]. split; [rewrite Hvb; reflexivity|].
  apply Hagain.
Defined.

(** ** Deleting a user *)

Lemma find_user_deleted uid us :
  find (fun u => Z.eqb (u_id u) uid)
    (filter (fun x => negb (Z.eqb (u_id x) uid)) us) = None.
Proof.
  induction us as [|x us IH]; simpl; [reflexivity|].
  destruct (Z.eqb (u_id x) uid) eqn:E; simpl; [exact IH|].
  rewrite E. exact IH.
Qed.

Lemma find_user_kept k uid us :
  k <> uid ->
  find (fun u => Z.eqb (u_id u) k)
    (filter (fun x => negb (Z.eqb (u_id x) uid)) us)
  = find (fun u => Z.eqb (u_id u) k) us.
Proof.
  intro Hne. induction us as [|x us IH]; simpl; [reflexivity|].
  destruct (Z.eqb_spec (u_id x) uid) as [E|E]; simpl.
  - destruct (Z.eqb_spec (u_id x) k); [congruence | exact IH].
  - destruct (Z.eqb (u_id x) k); [reflexivity | exact IH].
Qed.

(** X15.  Deleting a user.  The request is refused without any write for
    a missing id (400), an unknown user (404) and a user whose role is
    [Admin] (403).  Otherwise (the five [DELETE] statements taken to
    succeed, as every statement of the embedding) the user's row is gone
    together with every stock row the user provided, every product the
    user created, every withdrawal of the user and every order the user
    bought or provided; the rows of the other users, and their stock
    rows, products and withdrawals, are all still there. *)
Theorem delete_user_cascade (userId : Z) (s : db) :
  (userId = 0%Z -> admin_user_delete userId s = (Fail 400 InvalidInput, s)) /\
  (userId <> 0%Z -> find_user userId s = None ->
   admin_user_delete userId s = (Fail 404 NotFound, s)) /\
  (forall u,
     userId <> 0%Z -> find_user userId s = Some u -> role u = "Admin" ->
     admin_user_delete userId s = (Fail 403 InvalidInput, s)) /\
  (forall u,
     userId <> 0%Z -> find_user userId s = Some u -> role u <> "Admin" ->
     exists s',
       admin_user_delete userId s = (Ok tt, s') /\
       find_user userId s' = None /\
       (forall k, k <> userId -> find_user k s' = find_user k s) /\
       (forall r, In r (product_stock s') <->
                  In r (product_stock s) /\ provider_user_id r <> userId) /\
       (forall p, In p (products s') <->
                  In p (products s) /\ creator_user_id p <> userId) /\
       (forall w, In w (withdrawals s') <->
                  In w (withdrawals s) /\ w_user_id w <> userId) /\
       (forall o, In o (orders s') <->
                  In o (orders s) /\ buyer_user_id o <> userId
                  /\ o_provider_user_id o <> userId)).
Proof.
  unfold admin_user_delete. split; [|split; [|split]].
  - intros ->. reflexivity.
  - intros Hn Hu. destruct (Z.eqb_spec userId 0); [contradiction|].
    rewrite Hu. reflexivity.
  - intros u Hn Hu Hr. destruct (Z.eqb_spec userId 0); [contradiction|].
    rewrite Hu, Hr. reflexivity.
  - intros u Hn Hu Hr. destruct (Z.eqb_spec userId 0); [contradiction|].
    rewrite Hu. destruct (String.eqb_spec (role u) "Admin"); [contradiction|].
    cbv zeta. eexists. split; [reflexivity|].
    split; [|split; [|split; [|split; [|split]]]].
    + unfold find_user. simpl. apply find_user_deleted.
    + intros k Hk. unfold find_user. simpl. apply find_user_kept. exact Hk.
    + intro r. simpl. rewrite filter_In, negb_true_iff, Z.eqb_neq. reflexivity.
    + intro p. simpl. rewrite filter_In, negb_true_iff, Z.eqb_neq. reflexivity.
    + intro w. simpl. rewrite filter_In, negb_true_iff, Z.eqb_neq. reflexivity.
    + intro o. simpl.
      rewrite filter_In, negb_true_iff, orb_false_iff, !Z.eqb_neq. reflexivity.
Qed.

(** The vendor is deleted from the shop: the plan and its batch go with
    the account, ana stays. *)
Lemma delete_user_cascade_witness :
  exists s',
    admin_user_delete 2 Shop.shop = (Ok tt, s') /\
    find_user 2 s' = None /\ find_user 1 s' = Some Shop.ana /\
    ~ In Shop.plan (products s') /\ ~ In Shop.batch (product_stock s').
Proof.
  destruct (delete_user_cascade 2 Shop.shop) as (_ & _ & _ & H).
  destruct (H Shop.vendor) as (s' & Hrun & Hgone & Hkept & Hrows & Hprods & _);
    [discriminate | reflexivity | discriminate |].
  exists s'. split; [exact Hrun|]. split; [exact Hgone|]. split.
  - rewrite Hkept; [reflexivity | discriminate].
  - split.
    + intro Hin. apply Hprods in Hin. destruct Hin as [_ Hin]. apply Hin.
      reflexivity.
    + intro Hin. apply Hrows in Hin. destruct Hin as [_ Hin]. apply Hin.
      reflexivity.
Defined.

(** X16.  A deleted referrer earns nothing and blocks nothing.  The
    deletion does not touch the [referred_by_user_id] of the users the
    deleted account referred.  When such a user's first recharge is
    approved afterwards (one pending entry under the id), the approval
    succeeds, credits the user with the amount and writes to no other
    row: the commission step reads no referrer and is skipped. *)
Theorem deleted_referrer_earns_nothing (clk : clock) (referrerId userId : Z)
    (tid : Js.id) (s0 s : db) (u : user) (l1 l2 : list transaction)
    (t : transaction) :
  admin_user_delete referrerId s0 = (Ok tt, s) ->
  find_user userId s0 = Some u ->
  referred_by_user_id u = Some referrerId ->
  userId <> referrerId ->
  transactions_history u = (l1 ++ t :: l2)%list ->
  pending_match tid t = true ->
  existsb (pending_match tid) l1 = false ->
  existsb (pending_match tid) l2 = false ->
  find_user userId s = Some u /\
  exists s',
    admin_transaction_approve clk userId tid s = (Ok tt, s') /\
    find_user userId s'
      = Some (write_ledger (balance u + tx_amount t)
                (l1 ++ with_status "Completada" t :: l2)%list u) /\
    (forall k, k <> userId -> find_user k s' = find_user k s).
Proof.
  intros Hdel Hu Href Hne Hh Hp H1 H2.
  unfold admin_user_delete in Hdel.
  destruct (Z.eqb_spec referrerId 0) as [|Hn0]; [discriminate|].
  destruct (find_user referrerId s0) as [r|]; [|discriminate].
  destruct (String.eqb (role r) "Admin"); [discriminate|].
  cbv zeta in Hdel. injection Hdel as <-.
  set (s := set_users _ _).
  assert (Hu' : find_user userId s = Some u).
  { unfold s, find_user. simpl. rewrite find_user_kept by exact Hne.
    exact Hu. }
  assert (Hgone : find_user referrerId s = None).
  { unfold s, find_user. simpl. apply find_user_deleted. }
  split; [exact Hu'|].
  eexists. split.
  - apply (approve_unique clk userId tid s u l1 t l2 Hu' Hh Hp H1 H2).
  - rewrite Href. simpl truthy_ref.
    destruct (Z.eqb_spec referrerId 0); [contradiction|].
    assert (Hskip : pay_commission clk referrerId (tx_amount t) (username u)
                      (approved_user_store userId u l1 t l2 s)
                    = approved_user_store userId u l1 t l2 s).
    { unfold pay_commission, approved_user_store, set_balance_history.
      rewrite find_user_other;
        [rewrite Hgone; reflexivity | intro y; reflexivity|].
      intro E. apply Hne. symmetry. exact E. }
    rewrite Hskip.
    assert (Hsame : (if negb (hasPreviousRecharges (transactions_history u))
                     then approved_user_store userId u l1 t l2 s
                     else approved_user_store userId u l1 t l2 s)
                    = approved_user_store userId u l1 t l2 s).
    { destruct (negb _); reflexivity. }
    rewrite Hsame. unfold approved_user_store, set_balance_history. split.
    + rewrite find_user_self by (intro y; reflexivity). rewrite Hu'.
      reflexivity.
    + intros k Hk. apply find_user_other; [intro y; reflexivity | exact Hk].
Qed.

(** Dario, who referred ana, is deleted; ana's pending recharge of 50 is
    then approved. *)
Lemma deleted_referrer_earns_nothing_witness :
  exists s s',
    admin_user_delete 3 (Recharge.store 50) = (Ok tt, s) /\
    admin_transaction_approve Shop.day0 1 (Js.IdNum Recharge.stamp) s
      = (Ok tt, s') /\
    option_map balance (find_user 1 s') = Some (100 + 50) /\
    find_user 2 s' = Some Shop.vendor.
Proof.
  destruct (deleted_referrer_earns_nothing Shop.day0 3 1
              (Js.IdNum Recharge.stamp) (Recharge.store 50)
              (snd (admin_user_delete 3 (Recharge.store 50)))
              (Recharge.ana 50) [] [] (Recharge.recharge 50))
    as (_ & s' & Hrun & Hbal & Hrest); try reflexivity; try discriminate.
  eexists. exists s'. split; [reflexivity|]. split; [exact Hrun|].
  split; [rewrite Hbal; reflexivity|].
  rewrite Hrest; [reflexivity | discriminate].
Defined.

(** ** Further properties of the purchase *)

(** X17.  The purchase trusts the amount of the request.  The handler
    compares the amount only with the buyer's balance: for two requests
    that differ in nothing but the amount, both within the balance (zero
    and negative amounts included), the answer, the credentials handed
    over, the stock table and the products table are the same.  Nothing
    relates what is charged to the product or to the quantity. *)
Theorem purchase_trusts_amount (clk : clock) (ordCode : string)
    (req : purchase_req) (a a' : Q) (s : db) (u : user) :
  find_user (pr_userId req) s = Some u ->
  a <= balance u -> a' <= balance u ->
  fst (user_purchase clk ordCode (with_amount a req) s)
    = fst (user_purchase clk ordCode (with_amount a' req) s) /\
  product_stock (snd (user_purchase clk ordCode (with_amount a req) s))
    = product_stock (snd (user_purchase clk ordCode (with_amount a' req) s)) /\
  products (snd (user_purchase clk ordCode (with_amount a req) s))
    = products (snd (user_purchase clk ordCode (with_amount a' req) s)).
Proof.
  intros Hu Ha Ha'. unfold user_purchase, with_amount.
  cbn [pr_userId pr_productName pr_amount pr_platform pr_quantity pr_delivery
       pr_finalPricePerUnit pr_planType].
  cbv zeta.
  destruct (orb _ _); [repeat split|]. rewrite Hu.
  rewrite (proj2 (Qltb_ge (balance u) a)) by exact Ha.
  rewrite (proj2 (Qltb_ge (balance u) a')) by exact Ha'.
  destruct (find_product _ _ s) as [p|]; [|repeat split].
  destruct (allocate _ _ _ _ _ _ _ _ _) as [[c s1] cs].
  destruct (c <? pr_quantity req)%Z; [repeat split|].
  destruct (p_duration p) as [durationStr|]; [|repeat split].
  unfold set_balance_history.
  rewrite !find_user_update by (intro y; reflexivity).
  destruct (Z.eqb (creator_user_id p) (pr_userId req)).
  - destruct (find_user (creator_user_id p) _); simpl option_map; cbv iota;
      [|repeat split].
    destruct (orb _ _); repeat split.
  - destruct (find_user (creator_user_id p) _); [|repeat split].
    destruct (orb _ _); repeat split.
Qed.

(** Ana's request for the batch, priced 30, is sent with amount 0: the
    same two units are handed over and her balance stays at 100. *)
Lemma purchase_trusts_amount_witness :
  fst (user_purchase Shop.day0 "K3X9QA" (with_amount 0 (Shop.buy 2)) Shop.shop)
    = fst (user_purchase Shop.day0 "K3X9QA" (Shop.buy 2) Shop.shop) /\
  Shop.balance_of 1
    (snd (user_purchase Shop.day0 "K3X9QA" (with_amount 0 (Shop.buy 2))
            Shop.shop)) == 100.
Proof.
  destruct (purchase_trusts_amount Shop.day0 "K3X9QA" (Shop.buy 2) 0 30
              Shop.shop Shop.ana eq_refl) as (Hfst & _).
  - discriminate.
  - discriminate.
  - split; [exact Hfst | vm_compute; reflexivity].
Defined.

Lemma NoDup_ids_inj (T : list stock_row) a b :
  NoDup (map ps_id T) -> In a T -> In b T -> ps_id a = ps_id b -> a = b.
Proof.
  induction T as [|x T IH]; simpl; intros Hnd Ha Hb E; [contradiction|].
  inversion Hnd as [|y l Hnotin Hnd' Hy]; subst.
  destruct Ha as [Ha|Ha], Hb as [Hb|Hb].
  - congruence.
  - subst a. exfalso. apply Hnotin. rewrite E. apply in_map. exact Hb.
  - subst b. exfalso. apply Hnotin. rewrite <- E. apply in_map. exact Ha.
  - apply IH; assumption.
Qed.

Lemma insert_sold_copies_untouched r k pid prov buyer d :
  forall s cs s' cs',
    insert_sold_copies k pid prov buyer d s cs = (s', cs') ->
    table_wf s -> In r (product_stock s) -> not_from r cs ->
    table_wf s' /\ In r (product_stock s') /\ not_from r cs'.
Proof.
  induction k as [|k IH]; intros s cs s' cs' H Hwf Hin Hcs; simpl in H.
  - injection H as <- <-. auto.
  - apply IH in H; [exact H | | |].
    + destruct (insert_sold_copies_table pid 1 pid prov buyer d s cs _ _
                  eq_refl Hwf) as (Hwf' & _). exact Hwf'.
    + simpl. apply in_or_app. left. exact Hin.
    + apply Forall_app. split; [exact Hcs|]. repeat constructor. simpl.
      destruct Hwf as [_ Hlt]. rewrite Forall_forall in Hlt.
      specialize (Hlt r Hin). lia.
Qed.

Lemma allocate_untouched r qty pid prov buyer price rows :
  forall c s cs c' s' cs',
    (forall row, In row rows -> unpublished (data row) = false ->
                 ps_id row <> ps_id r) ->
    table_wf s -> In r (product_stock s) -> not_from r cs ->
    allocate rows qty pid prov buyer price c s cs = (c', s', cs') ->
    table_wf s' /\ In r (product_stock s') /\ not_from r cs'.
Proof.
  induction rows as [|row rows IH]; intros c s cs c' s' cs' Hrows Hwf Hin Hcs H;
    simpl in H.
  - injection H as <- <- <-. auto.
  - destruct (c >=? qty)%Z.
    { injection H as <- <- <-. auto. }
    assert (Hrest : forall x, In x rows -> unpublished (data x) = false ->
                              ps_id x <> ps_id r).
    { intros x Hx. apply Hrows. right. exact Hx. }
    destruct (unpublished (data row)) eqn:Hun.
    { apply (IH _ _ _ _ _ _ Hrest Hwf Hin Hcs H). }
    assert (Hne : ps_id row <> ps_id r).
    { apply Hrows; [left; reflexivity | exact Hun]. }
    destruct (availableInRow (data row) >? qty - c)%Z.
    + cbv zeta in H.
      destruct (insert_sold_copies _ _ _ _ _ _ _) as [s2 creds] eqn:Hins.
      apply insert_sold_copies_untouched with (r := r) in Hins.
      * destruct Hins as (Hwf2 & Hin2 & Hcs2).
        apply (IH _ _ _ _ _ _ Hrest Hwf2 Hin2 Hcs2 H).
      * apply rewrite_wf; [intro x; reflexivity | exact Hwf].
      * simpl. apply rewrite_keeps; [exact Hin|]. intro E. apply Hne.
        symmetry. exact E.
      * exact Hcs.
    + cbv zeta in H. apply (IH _ _ _ _ _ _ Hrest) in H; [exact H | | |].
      * apply rewrite_wf; [intro x; reflexivity | exact Hwf].
      * simpl. apply rewrite_keeps; [exact Hin|]. intro E. apply Hne.
        symmetry. exact E.
      * apply Forall_app. split; [exact Hcs|]. repeat constructor. exact Hne.
Qed.

(** X18.  A purchase never sells stock that is not published.  On a
    stock table with distinct rowids below the next one, a row whose
    document reads [Sin publicar] is in the table after the purchase
    exactly as it was before, whatever the request and whatever the
    answer, and no credential handed to the buyer comes from it. *)
Theorem purchase_skips_unpublished (clk : clock) (ordCode : string)
    (req : purchase_req) (s : db) (r : stock_row) :
  table_wf s ->
  In r (product_stock s) ->
  unpublished (data r) = true ->
  In r (product_stock (snd (user_purchase clk ordCode req s))) /\
  forall creds,
    fst (user_purchase clk ordCode req s) = Ok creds -> not_from r creds.
Proof.
  intros Hwf Hin Hun. unfold user_purchase. cbv zeta.
  destruct (orb _ _); [split; [exact Hin | discriminate]|].
  destruct (find_user _ s) as [u|]; [|split; [exact Hin | discriminate]].
  destruct (Qltb _ _); [split; [exact Hin | discriminate]|].
  destruct (find_product _ _ s) as [p|]; [|split; [exact Hin | discriminate]].
  destruct (allocate _ _ _ _ _ _ _ _ _) as [[c s1] cs] eqn:Hal.
  apply allocate_untouched with (r := r) in Hal;
    [| |exact Hwf | exact Hin | constructor].
  - destruct Hal as (_ & Hin1 & Hcs).
    destruct (c <? pr_quantity req)%Z; [split; [exact Hin1 | discriminate]|].
    destruct (p_duration p); [|split; [exact Hin1 | discriminate]].
    destruct (find_user (creator_user_id p) _);
      [|split; [exact Hin1 | discriminate]].
    destruct (orb _ _); (split; [exact Hin1|]);
      intros creds E; injection E as <-; exact Hcs.
  - intros row Hrow Hpub E.
    unfold unsold_rows in Hrow. apply filter_In in Hrow.
    destruct Hrow as [Hrow _].
    assert (row = r) by (apply (NoDup_ids_inj (product_stock s));
                         [apply Hwf | assumption | assumption | exact E]).
    subst row. rewrite Hun in Hpub. discriminate.
Qed.

(** The plan has an unpublished record of 5 next to a published one of 1;
    ana asks for 2: the request fails for lack of stock and the
    unpublished record stays. *)
Lemma purchase_skips_unpublished_witness :
  let hidden :=
    {| ps_id := 2; product_id := 1; provider_user_id := 2;
       data := finalItemData (Shop.published 5); is_sold := false;
       sold_to_user_id := None |} in
  let s := Shop.shelf [Shop.record 1 1; hidden] in
  fst (user_purchase Shop.day0 "K3X9QA" (Shop.buy 2) s)
    = Fail 409 InsufficientStock /\
  In hidden (product_stock (snd (user_purchase Shop.day0 "K3X9QA" (Shop.buy 2) s))).
Proof.
  intros hidden s. split; [reflexivity|].
  apply (purchase_skips_unpublished Shop.day0 "K3X9QA" (Shop.buy 2) s hidden).
  - split; simpl.
    + repeat constructor; simpl; intuition discriminate.
    + repeat constructor; simpl; lia.
  - right. left. reflexivity.
  - reflexivity.
Defined.

Lemma allocate_orders rows qty pid prov buyer price c s cs c' s' cs' :
  allocate rows qty pid prov buyer price c s cs = (c', s', cs') ->
  orders s' = orders s.
Proof. intro H. apply allocate_same in H. apply H. Qed.

(** X19.  Orders.  A purchase that succeeds appends exactly one row to
    the orders table when the request or the product says [A pedido],
    carrying the buyer's transaction id, the buyer, the product's creator,
    the product, the quantity and the amount, and leaves the orders table
    alone otherwise; a purchase that is refused never writes an order. *)
Theorem purchase_order_row (clk : clock) (ordCode : string)
    (req : purchase_req) (s : db) (p : product) :
  find_product (pr_productName req) (pr_platform req) s = Some p ->
  (forall creds s',
     user_purchase clk ordCode req s = (Ok creds, s') ->
     orders s'
     = if orb (str_is (pr_delivery req) "A pedido")
              (str_is (p_delivery p) "A pedido")
       then (orders s
               ++ [{| purchase_id := Js.IdStr ("#ORD-" ++ ordCode);
                      buyer_user_id := pr_userId req;
                      o_provider_user_id := creator_user_id p;
                      o_product_id := p_id p;
                      o_quantity := pr_quantity req;
                      total_price := pr_amount req |}])%list
       else orders s) /\
  (forall c e s',
     user_purchase clk ordCode req s = (Fail c e, s') ->
     orders s' = orders s).
Proof.
  intro Hp. unfold user_purchase. cbv zeta. rewrite Hp.
  destruct (orb (Z.eqb _ _) _);
    [split; [discriminate | intros c e s' H; injection H as _ _ <-; reflexivity]|].
  destruct (find_user _ s) as [u|];
    [|split; [discriminate
             | intros c e s' H; injection H as _ _ <-; reflexivity]].
  destruct (Qltb _ _);
    [split; [discriminate | intros c e s' H; injection H as _ _ <-; reflexivity]|].
  destruct (allocate _ _ _ _ _ _ _ _ _) as [[c s1] cs] eqn:Hal.
  apply allocate_orders in Hal.
  destruct (c <? pr_quantity req)%Z;
    [split; [discriminate
            | intros c0 e s' H; injection H as _ _ <-; exact Hal]|].
  destruct (p_duration p);
    [|split; [discriminate
             | intros c0 e s' H; injection H as _ _ <-; exact Hal]].
  destruct (find_user (creator_user_id p) _);
    [|split; [discriminate
             | intros c0 e s' H; injection H as _ _ <-; exact Hal]].
  split; [|discriminate].
  intros creds s' H. injection H as _ <-.
  destruct (orb _ _); simpl; rewrite Hal; reflexivity.
Qed.

(** Ana's purchase of the batch, made on request, leaves one order of 2
    units for 30 with the vendor. *)
Lemma purchase_order_row_witness :
  let req := {| pr_userId := 1; pr_productName := "Plan"; pr_amount := 30;
                pr_platform := "tv"; pr_quantity := 2;
                pr_delivery := Some "A pedido";
                pr_finalPricePerUnit := Some (15 # 1);
                pr_planType := None |} in
  List.length (orders (snd (user_purchase Shop.day0 "K3X9QA" req Shop.shop)))
    = 1%nat /\
  orders Shop.after_purchase = [].
Proof.
  intro req.
  destruct (purchase_order_row Shop.day0 "K3X9QA" req Shop.shop Shop.plan
              eq_refl) as [Hok _].
  destruct (purchase_order_row Shop.day0 "K3X9QA" (Shop.buy 2) Shop.shop
              Shop.plan eq_refl) as [Hok' _].
  assert (E : exists creds s',
            user_purchase Shop.day0 "K3X9QA" req Shop.shop = (Ok creds, s')).
  { do 2 eexists. vm_compute. reflexivity. }
  assert (E' : exists creds s',
            user_purchase Shop.day0 "K3X9QA" (Shop.buy 2) Shop.shop
            = (Ok creds, s')).
  { do 2 eexists. vm_compute. reflexivity. }
  destruct E as (creds & s' & E). destruct E' as (creds' & s'' & E').
  split.
  - rewrite E. simpl snd. rewrite (Hok _ _ E). reflexivity.
  - unfold Shop.after_purchase. rewrite E'. simpl snd. rewrite (Hok' _ _ E').
    reflexivity.
Defined.

(** ** The sale link and the proportional refund *)

(** The two entries a purchase between different users writes. *)
Lemma purchase_link clk ordCode req s creds s' u p pv :
  user_purchase clk ordCode req s = (Ok creds, s') ->
  find_user (pr_userId req) s = Some u ->
  find_product (pr_productName req) (pr_platform req) s = Some p ->
  find_user (creator_user_id p) s = Some pv ->
  creator_user_id p <> pr_userId req ->
  pr_userId req <> 0%Z /\
  exists bt pt,
    tx_id bt = Js.IdStr ("#ORD-" ++ ordCode) /\
    tx_type bt = "debit" /\ tx_status bt = "Completada" /\
    tx_amount bt = pr_amount req /\
    buyerUserId pt = Some (pr_userId req) /\
    buyerTransactionId pt = Js.IdStr ("#ORD-" ++ ordCode) /\
    find_user (pr_userId req) s'
      = Some (write_ledger (balance u - pr_amount req)
                (bt :: transactions_history u) u) /\
    find_user (creator_user_id p) s'
      = Some (write_ledger (balance pv + pr_amount req)
                (pt :: transactions_history pv) pv).
Proof.
  intros H Hu Hp Hpv Hne. unfold user_purchase in H. cbv zeta in H.
  destruct (Z.eqb_spec (pr_userId req) 0) as [|Hn0]; [discriminate|].
  destruct (String.eqb (pr_productName req) ""); [discriminate|].
  simpl orb in H. cbv iota in H.
  rewrite Hu in H.
  destruct (Qltb (balance u) (pr_amount req)) eqn:Eb; [discriminate|].
  rewrite Hp in H.
  destruct (allocate _ _ _ _ _ _ _ _ _) as [[c s1] cl] eqn:Ea.
  destruct (c <? pr_quantity req)%Z; [discriminate|].
  destruct (p_duration p) as [dur|]; [|discriminate].
  apply allocate_same in Ea.
  assert (E1 : forall k f, find_user k (update_product (p_id p) f s1)
                           = find_user k s).
  { intros k f. apply find_user_same. simpl. apply Ea. }
  match type of H with
  | context [set_balance_history (pr_userId req) _ (?t :: _) _] =>
      set (bt := t) in *
  end.
  match type of H with
  | context [set_balance_history (creator_user_id p) _ (?t :: _) _] =>
      set (pt := t) in *
  end.
  match type of H with
  | context [find_user (creator_user_id p) ?st] =>
      destruct (find_user (creator_user_id p) st) as [providerData|] eqn:Epv;
        [|discriminate]
  end.
  injection H as _ <-.
  split; [exact Hn0|].
  rewrite find_user_set_balance_history, E1, Hpv in Epv.
  assert (En : Z.eqb (creator_user_id p) (pr_userId req) = false)
    by (apply Z.eqb_neq; exact Hne).
  assert (En' : Z.eqb (pr_userId req) (creator_user_id p) = false)
    by (apply Z.eqb_neq; congruence).
  rewrite En in Epv. injection Epv as <-.
  exists bt, pt.
  split; [reflexivity|]. split; [reflexivity|]. split; [reflexivity|].
  split; [reflexivity|]. split; [reflexivity|]. split; [reflexivity|].
  rewrite !find_user_orders, !find_user_set_balance_history.
  rewrite !E1, Hu, Hpv, ?En, ?En', !Z.eqb_refl. simpl. split; reflexivity.
Qed.

Lemma debit_match_self t :
  tx_type t = "debit" -> debit_match (tx_id t) t = true.
Proof.
  intro H. unfold debit_match. rewrite H, String.eqb_refl. reflexivity.
Qed.

(** X20.  The sale link.  The credit entry a purchase leaves with the
    product's creator records the buyer and the buyer's transaction id
    ([buyerUserId], [buyerTransactionId]).  Sent back as they are to
    POST /supplier/refund/proportional with an amount [R] that is
    positive and within the creator's balance, they find the purchase:
    the refund succeeds, the creator pays [R], the buyer receives [R],
    and the purchase entry reads [Devuelto]. *)
Theorem sale_link_refund (clk clk' : clock) (ordCode : string)
    (req : purchase_req) (s s' : db) (creds : list credential)
    (u pv : user) (p : product) (R : Q) :
  user_purchase clk ordCode req s = (Ok creds, s') ->
  find_user (pr_userId req) s = Some u ->
  find_product (pr_productName req) (pr_platform req) s = Some p ->
  find_user (creator_user_id p) s = Some pv ->
  creator_user_id p <> pr_userId req ->
  creator_user_id p <> 0%Z ->
  0 < R -> R <= balance pv + pr_amount req ->
  exists pt rest buyerId s'' bu pu e,
    option_map transactions_history (find_user (creator_user_id p) s')
      = Some (pt :: rest) /\
    buyerUserId pt = Some buyerId /\
    supplier_refund_proportional clk' buyerId (buyerTransactionId pt) R
      (creator_user_id p) s' = (Ok tt, s'') /\
    find_user (pr_userId req) s'' = Some bu /\
    balance bu = balance u - pr_amount req + R /\
    find_user (creator_user_id p) s'' = Some pu /\
    balance pu = balance pv + pr_amount req - R /\
    In e (transactions_history bu) /\
    tx_id e = Js.IdStr ("#ORD-" ++ ordCode) /\ tx_status e = "Devuelto".
Proof.
  intros H Hu Hp Hpv Hne Hp0 HR HRle.
  destruct (purchase_link _ _ _ _ _ _ _ _ _ H Hu Hp Hpv Hne)
    as (Hn0 & bt & pt & Hid & Hty & Hst & Ham & Hbu & Hbt & Hb' & Hp').
  exists pt, (transactions_history pv), (pr_userId req).
  unfold supplier_refund_proportional. rewrite Hbt.
  destruct (Z.eqb_spec (pr_userId req) 0); [contradiction|].
  destruct (Z.eqb_spec (creator_user_id p) 0); [contradiction|].
  assert (HRq : Qleb R 0 = false).
  { unfold Qleb. apply negb_false_iff. apply Qltb_lt. exact HR. }
  rewrite HRq. simpl orb. cbv iota.
  rewrite Hb'. cbv zeta. cbn [transactions_history write_ledger find].
  rewrite <- Hid, (debit_match_self bt Hty), Hst. simpl String.eqb. cbv iota.
  rewrite Hp'. simpl balance.
  rewrite (proj2 (Qltb_ge (balance pv + pr_amount req) R)) by exact HRle.
  simpl transactions_history. simpl username.
  eexists. eexists. eexists. eexists.
  split; [reflexivity|]. split; [exact Hbu|].
  split; [reflexivity|].
  assert (En : pr_userId req <> creator_user_id p) by congruence.
  split; [|split; [|split; [|split; [|split; [|split]]]]].
  - unfold set_balance_history.
    rewrite find_user_self by (intro y; reflexivity).
    rewrite find_user_other; [|intro y; reflexivity | exact En].
    rewrite Hb'. reflexivity.
  - reflexivity.
  - unfold set_balance_history.
    rewrite find_user_other; [|intro y; reflexivity | exact Hne].
    rewrite find_user_self by (intro y; reflexivity).
    rewrite Hp'. reflexivity.
  - reflexivity.
  - simpl transactions_history. right. simpl mark_refunded.
    rewrite (debit_match_self bt Hty). left. reflexivity.
  - simpl. rewrite Hid. reflexivity.
  - reflexivity.
Qed.

(** Ana's purchase of the batch for 30; the vendor refunds 10 through the
    link of the sale entry. *)
Lemma sale_link_refund_witness :
  exists pt rest s'',
    Shop.ledger_of 2 Shop.after_purchase = pt :: rest /\
    buyerUserId pt = Some 1%Z /\
    buyerTransactionId pt = Shop.ticket /\
    supplier_refund_proportional (Shop.day 1) 1 (buyerTransactionId pt) 10 2
      Shop.after_purchase = (Ok tt, s'') /\
    Shop.balance_of 1 s'' == 80 /\ Shop.balance_of 2 s'' == 70.
Proof.
  assert (E : exists creds,
            user_purchase Shop.day0 "K3X9QA" (Shop.buy 2) Shop.shop
            = (Ok creds, Shop.after_purchase)).
  { eexists. vm_compute. reflexivity. }
  destruct E as (creds & E).
  destruct (sale_link_refund Shop.day0 (Shop.day 1) "K3X9QA" (Shop.buy 2)
              Shop.shop Shop.after_purchase creds Shop.ana Shop.vendor
              Shop.plan 10 E eq_refl eq_refl eq_refl)
    as (pt & rest & b & s'' & bu & pu & e & Hh & Hb & Hrun & Hbu & Hbb & Hpu
        & Hpb & _); try discriminate; try reflexivity.
  assert (Hpt : Shop.ledger_of 2 Shop.after_purchase = pt :: rest).
  { unfold Shop.ledger_of.
    change (creator_user_id Shop.plan) with 2%Z in Hh.
    destruct (find_user 2 Shop.after_purchase); simpl in Hh;
      [injection Hh as ->; reflexivity | discriminate]. }
  assert (Hlink : buyerUserId pt = Some 1%Z /\
                  buyerTransactionId pt = Shop.ticket).
  { assert (Hc : Shop.ledger_of 2 Shop.after_purchase = pt :: rest) by exact Hpt.
    vm_compute in Hc. injection Hc as Hc _. rewrite <- Hc.
    split; reflexivity. }
  destruct Hlink as [Hl1 Hl2].
  assert (b = 1%Z) by congruence. subst b.
  exists pt, rest, s''. split; [exact Hpt|]. split; [exact Hl1|].
  split; [exact Hl2|]. split; [exact Hrun|].
  change (creator_user_id Shop.plan) with 2%Z in Hpu.
  change (pr_userId (Shop.buy 2)) with 1%Z in Hbu.
  unfold Shop.balance_of. rewrite Hbu, Hpu, Hbb, Hpb.
  split; vm_compute; reflexivity.
Defined.

Lemma find_mark_refunded clk i a h t :
  find (debit_match i) h = Some t ->
  exists t',
    find (debit_match i) (mark_refunded clk i a h) = Some t' /\
    tx_status t' = "Devuelto".
Proof.
  induction h as [|x h IH]; simpl; [discriminate|].
  destruct (debit_match i x) eqn:E.
  - intros _. eexists. simpl.
    assert (E' : debit_match i
                   (with_details
                      (Some (with_refund (today clk) a
                               match tx_details x with
                               | Some d => d
                               | None => empty_details
                               end)) (with_status "Devuelto" x)) = true)
      by exact E.
    rewrite E'. split; reflexivity.
  - intro H. simpl. rewrite E. apply IH. exact H.
Qed.

(** X21.  A proportional refund is not replayed.  After POST
    /supplier/refund/proportional has succeeded for a purchase, the same
    request for that purchase, at any later time, for any valid amount
    and any provider, answers 400 "ya fue reembolsada" and leaves the
    store as it is. *)
Theorem proportional_refund_once (clk clk' : clock) (buyerId : Z)
    (tid : Js.id) (R R' : Q) (providerId providerId' : Z) (s s' : db) :
  supplier_refund_proportional clk buyerId tid R providerId s = (Ok tt, s') ->
  0 < R' -> providerId' <> 0%Z ->
  supplier_refund_proportional clk' buyerId tid R' providerId' s'
    = (Fail 400 AlreadyProcessed, s').
Proof.
  intros H HR' Hp'. unfold supplier_refund_proportional in H.
  destruct (Z.eqb_spec buyerId 0) as [|Hb0]; [discriminate|].
  destruct (Js.truthy tid) eqn:Ht; [|discriminate].
  destruct (Qleb R 0); [discriminate|].
  destruct (Z.eqb providerId 0); [discriminate|].
  simpl orb in H. cbv iota in H.
  destruct (find_user buyerId s) as [buyer|] eqn:Hb; [|discriminate].
  cbv zeta in H.
  destruct (find (debit_match tid) (transactions_history buyer))
    as [t|] eqn:Hfind; [|discriminate].
  destruct (String.eqb (tx_status t) "Devuelto"); [discriminate|].
  destruct (find_user providerId s) as [provider|] eqn:Hpv; [|discriminate].
  destruct (Qltb (balance provider) R); [discriminate|].
  injection H as <-.
  unfold supplier_refund_proportional.
  destruct (Z.eqb_spec buyerId 0); [contradiction|]. rewrite Ht.
  assert (HRq : Qleb R' 0 = false).
  { unfold Qleb. apply negb_false_iff. apply Qltb_lt. exact HR'. }
  rewrite HRq. destruct (Z.eqb_spec providerId' 0); [contradiction|].
  simpl orb. cbv iota.
  assert (Hb' : exists x,
            find_user buyerId
              (set_balance_history buyerId (balance buyer + R)
                 (refund_credit_tx clk R
                    :: mark_refunded clk tid R (transactions_history buyer))
                 (set_balance_history providerId (balance provider - R)
                    (refund_debit_tx clk R (username buyer)
                       :: transactions_history provider) s))
            = Some x /\
            transactions_history x
            = refund_credit_tx clk R
                :: mark_refunded clk tid R (transactions_history buyer)).
  { unfold set_balance_history at 1.
    rewrite find_user_self by (intro y; reflexivity).
    destruct (find_user buyerId (set_balance_history providerId _ _ s))
      as [x|] eqn:Hx.
    - eexists. split; reflexivity.
    - exfalso. unfold set_balance_history in Hx.
      rewrite find_user_update in Hx by (intro y; reflexivity).
      rewrite Hb in Hx. destruct (Z.eqb buyerId providerId); discriminate. }
  destruct Hb' as (x & Hx & Hh). rewrite Hx. cbv zeta. rewrite Hh.
  simpl find.
  destruct (find_mark_refunded clk tid R _ _ Hfind) as (t' & Hf' & Hs').
  unfold debit_match at 1. simpl tx_type. simpl String.eqb.
  rewrite andb_false_r. rewrite Hf', Hs'. reflexivity.
Qed.

(** The vendor refunds 10 of ana's purchase, then asks again for 5. *)
Lemma proportional_refund_once_witness :
  let s' := snd (supplier_refund_proportional (Shop.day 1) 1 Shop.ticket 10 2
                   Shop.after_purchase) in
  supplier_refund_proportional (Shop.day 2) 1 Shop.ticket 5 2 s'
    = (Fail 400 AlreadyProcessed, s').
Proof.
  intro s'.
  apply (proportional_refund_once (Shop.day 1) (Shop.day 2) 1 Shop.ticket
           10 5 2 2 Shop.after_purchase s').
  - vm_compute. reflexivity.
  - reflexivity.
  - discriminate.
Defined.

(** ** Tickets *)

Lemma restore_stock_users d s : users (restore_stock d s) = users s.
Proof.
  unfold restore_stock. destruct (fullCredentials d) as [[|c cs]|];
    try reflexivity.
  destruct (str_is (d_delivery d) "A pedido"); [reflexivity|]. cbv zeta.
  destruct (filter _ _); [reflexivity|].
  destruct (find _ _) as [p|]; [|reflexivity].
  destruct (Z.eqb (p_id p) 0); reflexivity.
Qed.

(** X22.  The refund of a ticket is paid by no one.  When POST
    /supplier/handle-support succeeds with action [refund], the buyer's
    row is the only row of the users table that changes: the balance
    grows by a positive amount (rounded to two decimals) under a credit
    entry of that amount.  No other balance is debited for it, the
    provider's included; the two other refunds ([/supplier/refund],
    [/supplier/refund/proportional]) take the amount from the provider. *)
Theorem support_refund_paid_by_no_one (clk : clock) (purchaseId : Js.id)
    (s s' : db) :
  supplier_handle_support clk purchaseId "refund" s = (Ok tt, s') ->
  exists buyerId row a c h,
    find_user buyerId s = Some row /\
    0 < a /\
    find_user buyerId s'
      = Some (write_ledger (round2 (balance row + a)) (c :: h) row) /\
    tx_type c = "credit" /\ tx_amount c = a /\
    (forall k, k <> buyerId -> find_user k s' = find_user k s).
Proof.
  intro H. unfold supplier_handle_support in H.
  destruct (orb _ _); [discriminate|].
  destruct (find_ticket purchaseId (users s)) as [[target targetTx]|];
    [|discriminate].
  cbv zeta in H. destruct (Z.eqb (u_id target) 0); [discriminate|].
  simpl String.eqb in H. cbv iota in H.
  destruct (tx_details targetTx) as [d|]; [|discriminate].
  destruct (d_purchaseDate d) as [purchasedDate|]; [|discriminate].
  destruct (Qleb _ 0) eqn:Ha; [discriminate|].
  destruct (find_user (u_id target) s) as [row|] eqn:Hrow; [|discriminate].
  injection H as <-.
  exists (u_id target), row. eexists. eexists. eexists.
  split; [exact Hrow|]. split.
  { unfold Qleb in Ha. apply negb_false_iff in Ha. apply Qltb_lt. exact Ha. }
  assert (Hsame : forall k, find_user k (restore_stock d s) = find_user k s).
  { intro k. apply find_user_same. apply restore_stock_users. }
  split; [|split; [|split]].
  - unfold set_balance_history.
    rewrite find_user_self by (intro y; reflexivity).
    rewrite Hsame, Hrow. reflexivity.
  - reflexivity.
  - reflexivity.
  - intros k Hk. unfold set_balance_history.
    rewrite find_user_other; [apply Hsame | intro y; reflexivity | exact Hk].
Qed.

(** Ana's purchase of 30 goes to support and is refunded ten days later:
    she is credited, the vendor still holds the 80 of the sale. *)
Lemma support_refund_paid_by_no_one_witness :
  let s1 := Support.opened 2 Shop.after_purchase in
  let s2 := snd (supplier_handle_support (Shop.day 10) Shop.ticket "refund" s1) in
  Shop.balance_of 2 s1 == 80 /\ Shop.balance_of 2 s2 == 80 /\
  Shop.balance_of 1 s1 < Shop.balance_of 1 s2.
Proof.
  intros s1 s2.
  destruct (support_refund_paid_by_no_one (Shop.day 10) Shop.ticket s1 s2)
    as (b & row & a & c & h & Hrow & Ha & Hb & _ & _ & Hrest).
  - vm_compute. reflexivity.
  - split; [vm_compute; reflexivity|]. split; vm_compute; reflexivity.
Defined.

Lemma balance_update_user k uid f s :
  keeps_id f -> (forall u, balance (f u) = balance u) ->
  option_map balance (find_user k (update_user uid f s))
  = option_map balance (find_user k s).
Proof.
  intros Hf Hb. rewrite find_user_update by exact Hf.
  destruct (Z.eqb k uid); [|reflexivity].
  destruct (find_user k s); simpl; [rewrite Hb|]; reflexivity.
Qed.

(** X23.  Opening and closing a ticket moves no money and no stock.
    POST /user/send-to-support, whatever it answers, and POST
    /supplier/handle-support with any action other than [refund],
    whatever it answers, leave every balance, the products table and the
    stock table as they were. *)
Theorem tickets_move_no_money (clk : clock) (rnd : string) (userId : Z)
    (tid purchaseId : Js.id) (message action : string) (s : db) :
  ((forall k,
      option_map balance
        (find_user k (snd (user_send_to_support clk rnd userId tid message s)))
      = option_map balance (find_user k s)) /\
   products (snd (user_send_to_support clk rnd userId tid message s))
     = products s /\
   product_stock (snd (user_send_to_support clk rnd userId tid message s))
     = product_stock s) /\
  (action <> "refund" ->
   (forall k,
      option_map balance
        (find_user k (snd (supplier_handle_support clk purchaseId action s)))
      = option_map balance (find_user k s)) /\
   products (snd (supplier_handle_support clk purchaseId action s))
     = products s /\
   product_stock (snd (supplier_handle_support clk purchaseId action s))
     = product_stock s).
Proof.
  split.
  - unfold user_send_to_support.
    destruct (orb _ _); [repeat split|].
    destruct (find_user userId s) as [u|]; [|repeat split]. cbv zeta.
    destruct (support_loop _ _ _ _ _ _) as [h|]; [|repeat split].
    simpl snd. split; [|split; reflexivity].
    intro k. unfold set_history. apply balance_update_user.
    + intro y. reflexivity.
    + intro y. reflexivity.
  - intro Hact. unfold supplier_handle_support.
    destruct (orb _ _); [repeat split|].
    destruct (find_ticket purchaseId (users s)) as [[target targetTx]|];
      [|repeat split].
    cbv zeta. destruct (Z.eqb (u_id target) 0); [repeat split|].
    destruct (String.eqb_spec action "refund"); [contradiction|].
    simpl snd. split; [|split; reflexivity].
    intro k. unfold set_history. apply balance_update_user.
    + intro y. reflexivity.
    + intro y. reflexivity.
Qed.

(** Ana's ticket on her purchase is opened and then closed by the vendor
    with action [resolve]. *)
Lemma tickets_move_no_money_witness :
  let s1 := snd (user_send_to_support (Shop.day 2) "ZZZZZZ" 1 Shop.ticket
                   "no funciona" Shop.after_purchase) in
  let s2 := snd (supplier_handle_support (Shop.day 3) Shop.ticket "resolve" s1) in
  Support.status_of 1 Shop.ticket s1 = Some "Soporte" /\
  Support.status_of 1 Shop.ticket s2 = Some "Completada" /\
  option_map balance (find_user 1 s2)
    = option_map balance (find_user 1 Shop.after_purchase) /\
  product_stock s2 = product_stock Shop.after_purchase.
Proof.
  intros s1 s2.
  destruct (tickets_move_no_money (Shop.day 2) "ZZZZZZ" 1 Shop.ticket
              Shop.ticket "no funciona" "resolve" Shop.after_purchase)
    as [(Hb1 & _ & Hs1) _].
  destruct (tickets_move_no_money (Shop.day 3) "ZZZZZZ" 1 Shop.ticket
              Shop.ticket "no funciona" "resolve" s1)
    as [_ Hclose].
  destruct Hclose as (Hb2 & _ & Hs2); [discriminate|].
  split; [vm_compute; reflexivity|]. split; [vm_compute; reflexivity|].
  split.
  - unfold s2. rewrite Hb2. unfold s1. apply Hb1.
  - unfold s2. rewrite Hs2. unfold s1. apply Hs1.
Defined.

Lemma no_space_substring s : forall a b,
  no_space s -> no_space (substring a b s).
Proof.
  induction s as [|c s IH]; intros a b H.
  - destruct a, b; exact I.
  - destruct H as [Hc Hs]. destruct a as [|a]; simpl.
    + destruct b as [|b]; [exact I|]. split; [exact Hc | apply IH; exact Hs].
    + apply IH. exact Hs.
Qed.

Lemma upper_char_no_space c :
  Js.is_space c = false -> Js.is_space (Js.upper_char c) = false.
Proof.
  destruct c as [[] [] [] [] [] [] [] []]; vm_compute; intro H;
    first [reflexivity | exact H].
Qed.

Lemma no_space_toUpperCase s : no_space s -> no_space (Js.toUpperCase s).
Proof.
  induction s as [|c s IH]; simpl; [auto|]. intros [Hc Hs].
  split; [apply upper_char_no_space; exact Hc | apply IH; exact Hs].
Qed.

Lemma support_loop_at clk s rnd message incoming l1 t l2 :
  (forall x, In x l1 -> support_match incoming (ensureOrderCode rnd x) = false) ->
  support_match incoming (ensureOrderCode rnd t) = true ->
  support_loop clk s rnd message incoming (l1 ++ t :: l2)
  = Some (l1 ++ open_ticket clk s message (ensureOrderCode rnd t) :: l2)%list.
Proof.
  intros H1 Ht. induction l1 as [|x l1 IH]; simpl.
  - rewrite Ht. reflexivity.
  - rewrite (H1 x) by (left; reflexivity).
    rewrite IH; [reflexivity|]. intros y Hy. apply H1. right. exact Hy.
Qed.

(** X24.  A ledger entry without an order code is found by the code the
    handler makes up for it.  For an entry whose id is the number [n] and
    that carries no [orderCode], send-to-support computes the code
    [#ORD-] followed by the last six characters of the decimal form of
    [n]; a request that names that code (and that no earlier entry of the
    ledger answers to) opens the ticket on that entry, stores the code in
    it, and changes no other entry. *)
Theorem legacy_entry_found_by_code (clk : clock) (rnd : string) (userId n : Z)
    (message : string) (s : db) (u : user) (l1 l2 : list transaction)
    (t : transaction) :
  userId <> 0%Z -> message <> "" ->
  find_user userId s = Some u ->
  transactions_history u = (l1 ++ t :: l2)%list ->
  tx_id t = Js.IdNum n -> orderCode t = None ->
  (forall x, In x l1 ->
     support_match
       ("#ORD-" ++ Js.toUpperCase (Js.slice_last6 (Js.Z_to_string n)))
       (ensureOrderCode rnd x) = false) ->
  exists s' t',
    user_send_to_support clk rnd userId
      (Js.IdStr ("#ORD-" ++ Js.toUpperCase (Js.slice_last6 (Js.Z_to_string n))))
      message s = (Ok tt, s') /\
    find_user userId s'
      = Some (write_ledger (balance u) (l1 ++ t' :: l2)%list u) /\
    tx_id t' = Js.IdNum n /\ tx_status t' = "Soporte" /\
    tx_amount t' = tx_amount t /\
    orderCode t'
      = Some ("#ORD-" ++ Js.toUpperCase (Js.slice_last6 (Js.Z_to_string n))).
Proof.
  intros Hn Hm Hu Hh Hid Hcode Hl1.
  set (code := "#ORD-" ++ Js.toUpperCase (Js.slice_last6 (Js.Z_to_string n)))
    in *.
  assert (Hns : no_space code).
  { unfold code. simpl. repeat split.
    apply no_space_toUpperCase. apply no_space_substring.
    apply Z_to_string_no_space. }
  assert (Htrim : Js.trim code = code) by (apply trim_no_space; exact Hns).
  assert (Hne : String.eqb code "" = false) by reflexivity.
  assert (Het : ensureOrderCode rnd t = with_orderCode (Some code) t).
  { unfold ensureOrderCode. rewrite Hcode. simpl nonblank. cbv iota zeta.
    rewrite Hid. simpl Js.String_or_empty.
    rewrite (trim_no_space _ (Z_to_string_no_space n)).
    destruct (String.eqb_spec (Js.Z_to_string n) "") as [E|_];
      [exfalso; apply (Z_to_string_nonempty n E) | reflexivity]. }
  assert (Hmatch : support_match code (ensureOrderCode rnd t) = true).
  { rewrite Het. unfold support_match. cbv zeta.
    cbn [orderCode with_orderCode]. cbv iota.
    rewrite Htrim, Hne, String.eqb_refl. simpl. apply orb_true_r. }
  unfold user_send_to_support.
  destruct (Z.eqb_spec userId 0); [contradiction|].
  destruct (String.eqb_spec message ""); [contradiction|].
  assert (Htr : Js.truthy (Js.IdStr code) = true) by reflexivity.
  rewrite Htr. simpl orb. cbv iota. rewrite Hu. cbv zeta.
  simpl Js.String_. rewrite Htrim, Hh.
  rewrite (support_loop_at clk s rnd message code l1 t l2 Hl1 Hmatch).
  eexists. eexists. split; [reflexivity|]. split.
  - unfold set_history. rewrite find_user_self by (intro y; reflexivity).
    rewrite Hu. reflexivity.
  - rewrite Het. split; [exact Hid|]. repeat split.
Qed.

(** A recharge entry with id 1700000000000 and no order code in ana's
    ledger is found under [#ORD-000000]. *)
Lemma legacy_entry_found_by_code_witness :
  exists s',
    user_send_to_support (Shop.day 1) "ZZZZZZ" 1 (Js.IdStr "#ORD-000000")
      "consulta" (Recharge.store 50) = (Ok tt, s') /\
    option_map orderCode
      (find (fun t => Js.strict_eq (tx_id t) (Js.IdNum Recharge.stamp))
         (Shop.ledger_of 1 s'))
    = Some (Some "#ORD-000000").
Proof.
  destruct (legacy_entry_found_by_code (Shop.day 1) "ZZZZZZ" 1 Recharge.stamp
              "consulta" (Recharge.store 50) (Recharge.ana 50) [] []
              (Recharge.recharge 50))
    as (s' & t' & Hrun & Hu' & Hid & _ & _ & Hcode);
    try reflexivity; try discriminate.
  - intros x [].
  - exists s'. split; [exact Hrun|].
    unfold Shop.ledger_of. rewrite Hu'. simpl. rewrite Hid. simpl.
    rewrite Hcode. reflexivity.
Defined.

(** ** The administrator's update of a user *)

Lemma with_balance_role_keeps_id g r :
  keeps_id (fun x => with_balance_role (g x) r x).
Proof. intro u. reflexivity. Qed.

(** X25.  A role set by the administrator and the stored expiry.  POST
    /admin/user/update writes the role (one of the six it accepts) and
    leaves [premium_expires_at] and the ledger as they are.  So for a
    user without a stored expiry the role stays at every later profile
    read, a premium role included; and for a user whose stored expiry has
    passed, the next profile read replaces the role the administrator
    has just set by its demotion ([Usuario] for [Admin], [Usuario],
    [distribuidor] and [proveedor]). *)
Theorem admin_role_and_expiry (userId : Z) (r : string) (change : option Q)
    (d pw : bool) (s : db) (u : user) :
  userId <> 0%Z -> valid_role r = true ->
  find_user userId s = Some u ->
  exists s' u',
    admin_user_update userId
      {| balanceChange := change; newRole := Some r; hasDiscount := d;
         hasPassword := pw |} s = (Ok tt, s') /\
    find_user userId s' = Some u' /\
    role u' = r /\
    premium_expires_at u' = premium_expires_at u /\
    transactions_history u' = transactions_history u /\
    (premium_expires_at u = None ->
     forall clk, profile_role clk userId s' = (Ok r, s')) /\
    (forall e clk, premium_expires_at u = Some e -> (e < now clk)%Z ->
       fst (profile_role clk userId s') = Ok (demoted r)).
Proof.
  intros Hn Hv Hu. pose proof (find_user_id _ _ _ Hu) as Hid.
  unfold admin_user_update.
  destruct (Z.eqb_spec userId 0); [contradiction|]. rewrite Hu. cbv zeta.
  simpl newRole. simpl truthy_str.
  destruct (String.eqb_spec r "") as [E|_]; [rewrite E in Hv; discriminate|].
  rewrite Hv. simpl negb.
  cbv iota.
  eexists. eexists. split; [reflexivity|].
  assert (Hs' : forall g,
            find_user userId
              (update_user userId (fun x => with_balance_role (g x) r x) s)
            = Some (with_balance_role (g u) r u)).
  { intro g. rewrite find_user_self by apply with_balance_role_keeps_id.
    rewrite Hu. reflexivity. }
  split; [apply Hs'|].
  split; [reflexivity|]. split; [reflexivity|]. split; [reflexivity|].
  split.
  - intros He clk. unfold profile_role. rewrite Hs'.
    unfold checkAndExpirePremium. simpl premium_expires_at. rewrite He.
    reflexivity.
  - intros e clk He Hlt. unfold profile_role. rewrite Hs'.
    unfold checkAndExpirePremium. simpl premium_expires_at. rewrite He.
    destruct (Z.gtb_spec (now clk) e); [reflexivity | lia].
Qed.

(** Ana buys a month of premium on day 0; on day 40, before any profile
    read, the administrator makes her [Admin]; the next profile read
    answers [Usuario]. *)
Lemma admin_role_and_expiry_witness :
  let s1 := snd (user_upgrade_to_premium thirtyDays Shop.day0 1 20 1 Shop.shop) in
  let s2 := snd (admin_user_update 1
                   {| balanceChange := None; newRole := Some "Admin";
                      hasDiscount := false; hasPassword := false |} s1) in
  option_map role (find_user 1 s2) = Some "Admin" /\
  fst (profile_role (Shop.day 40) 1 s2) = Ok "Usuario".
Proof.
  intros s1 s2.
  assert (Hu : exists u, find_user 1 s1 = Some u /\
                         premium_expires_at u = Some (3600000 + 30 * oneDay)%Z).
  { eexists. split; [vm_compute; reflexivity | reflexivity]. }
  destruct Hu as (u & Hu & He).
  destruct (admin_role_and_expiry 1 "Admin" None false false s1 u)
    as (s' & u' & Hrun & Hu' & Hr & _ & _ & _ & Hlapsed);
    [discriminate | reflexivity | exact Hu |].
  assert (Hs : s2 = s') by (unfold s2; rewrite Hrun; reflexivity).
  rewrite Hs, Hu'. simpl. rewrite Hr. split; [reflexivity|].
  apply (Hlapsed _ (Shop.day 40) He). vm_compute. reflexivity.
Defined.

(** ** Refusals *)

Ltac refusal :=
  repeat match goal with
    | H : (if ?b then _ else _) = (Fail _ _, _) |- _ => destruct b
    | H : match ?x with _ => _ end = (Fail _ _, _) |- _ => destruct x
    | H : (Ok _, _) = (Fail _ _, _) |- _ => discriminate H
    | H : (Fail _ _, _) = (Fail _ _, _) |- _ =>
        injection H as <- <- <-
    end;
  try reflexivity; try contradiction.

(** X26.  A refusal writes nothing.  Whenever one of these handlers
    answers with a status other than 500, the store it leaves is the
    store it found: recharge record, cancel, approval and rejection,
    withdrawal request, cancel and management, fee setting, premium
    upgrade, renewal, the proportional refund and the refund by stock
    row, the two ticket handlers, the stock add, publish and delete, and
    the administrator's update and deletion of a user.  For the purchase
    the same holds for every status other than 409 and 500. *)
Theorem refusals_write_nothing (addMonths : Z -> Z -> Z) (clk : clock)
    (s s' : db) (c : Z) (e : error) :
  c <> 500%Z ->
  (forall userId t,
     transaction_record userId t s = (Fail c e, s') -> s' = s) /\
  (forall userId tid,
     transaction_cancel userId tid s = (Fail c e, s') -> s' = s) /\
  (forall userId tid,
     admin_transaction_approve clk userId tid s = (Fail c e, s') -> s' = s) /\
  (forall userId tid,
     admin_transaction_reject userId tid s = (Fail c e, s') -> s' = s) /\
  (forall userId G,
     supplier_withdraw userId G s = (Fail c e, s') -> s' = s) /\
  (forall wid userId,
     supplier_withdraw_cancel wid userId s = (Fail c e, s') -> s' = s) /\
  (forall wid action,
     admin_withdraw_manage clk wid action s = (Fail c e, s') -> s' = s) /\
  (forall fee,
     admin_settings_withdrawal_fee fee s = (Fail c e, s') -> s' = s) /\
  (forall userId A months,
     user_upgrade_to_premium addMonths clk userId A months s = (Fail c e, s') ->
     s' = s) /\
  (forall userId purchaseId months price plan,
     user_purchase_renovate addMonths clk userId purchaseId months price plan s
       = (Fail c e, s') -> s' = s) /\
  (forall buyerId tid R providerId,
     supplier_refund_proportional clk buyerId tid R providerId s
       = (Fail c e, s') -> s' = s) /\
  (forall stockId_ R,
     supplier_refund clk stockId_ R s = (Fail c e, s') -> s' = s) /\
  (forall rnd userId tid message,
     user_send_to_support clk rnd userId tid message s = (Fail c e, s') ->
     s' = s) /\
  (forall purchaseId action,
     supplier_handle_support clk purchaseId action s = (Fail c e, s') ->
     s' = s) /\
  (forall productId providerId items,
     supplier_stock_add productId providerId items s = (Fail c e, s') ->
     s' = s) /\
  (forall stockId_,
     supplier_stock_publish stockId_ s = (Fail c e, s') -> s' = s) /\
  (forall stockId_,
     supplier_stock_delete stockId_ s = (Fail c e, s') -> s' = s) /\
  (forall userId req,
     admin_user_update userId req s = (Fail c e, s') -> s' = s) /\
  (forall userId,
     admin_user_delete userId s = (Fail c e, s') -> s' = s) /\
  (forall ordCode req,
     c <> 409%Z ->
     user_purchase clk ordCode req s = (Fail c e, s') -> s' = s).
Proof.
  intro Hc.
  repeat match goal with |- _ /\ _ => split end.
  - intros userId t H. unfold transaction_record in H. refusal.
  - intros userId tid H. unfold transaction_cancel in H. cbv zeta in H.
    refusal.
  - intros userId tid H. unfold admin_transaction_approve in H.
    cbv zeta in H. refusal.
  - intros userId tid H. unfold admin_transaction_reject in H.
    cbv zeta in H. refusal.
  - intros userId G H. unfold supplier_withdraw in H. cbv zeta in H. refusal.
  - intros wid userId H. unfold supplier_withdraw_cancel in H. cbv zeta in H.
    refusal.
  - intros wid action H. unfold admin_withdraw_manage in H. cbv zeta in H.
    refusal.
  - intros fee H. unfold admin_settings_withdrawal_fee in H. refusal.
  - intros userId A months H. unfold user_upgrade_to_premium in H.
    cbv zeta in H. refusal.
  - intros userId purchaseId months price plan H.
    unfold user_purchase_renovate in H. cbv zeta in H. refusal.
  - intros buyerId tid R providerId H.
    unfold supplier_refund_proportional in H. cbv zeta in H. refusal.
  - intros stockId_ R H. unfold supplier_refund in H. cbv zeta in H. refusal.
  - intros rnd userId tid message H. unfold user_send_to_support in H.
    cbv zeta in H. refusal.
  - intros purchaseId action H. unfold supplier_handle_support in H.
    cbv zeta in H. refusal.
  - intros productId providerId items H. unfold supplier_stock_add in H.
    refusal.
  - intros stockId_ H. unfold supplier_stock_publish in H. cbv zeta in H.
    refusal.
  - intros stockId_ H. unfold supplier_stock_delete in H. cbv zeta in H.
    refusal.
  - intros userId req H. unfold admin_user_update in H. cbv zeta in H.
    refusal.
  - intros userId H. unfold admin_user_delete in H. cbv zeta in H. refusal.
  - intros ordCode req Hc' H. unfold user_purchase in H. cbv zeta in H.
    refusal.
Qed.

(** The vendor's second request while the first is pending, and a
    proportional refund above the vendor's balance. *)
Lemma refusals_write_nothing_witness :
  snd (supplier_withdraw 2 1 Payout.requested) = Payout.requested /\
  snd (supplier_refund_proportional (Shop.day 1) 1 Shop.ticket 500 2
         Shop.after_purchase) = Shop.after_purchase.
Proof.
  split.
  - destruct (refusals_write_nothing thirtyDays Shop.day0 Payout.requested
                (snd (supplier_withdraw 2 1 Payout.requested)) 400
                DuplicateRequest) as (_ & _ & _ & _ & H & _);
      [discriminate|].
    apply (H 2%Z 1). reflexivity.
  - destruct (refusals_write_nothing thirtyDays (Shop.day 1)
                Shop.after_purchase
                (snd (supplier_refund_proportional (Shop.day 1) 1 Shop.ticket
                        500 2 Shop.after_purchase)) 400
                InsufficientBalance)
      as (_ & _ & _ & _ & _ & _ & _ & _ & _ & _ & H & _);
      [discriminate|].
    apply (H 1%Z Shop.ticket 500 2%Z). vm_compute. reflexivity.
Defined.

(** ** Applying for the supplier rank *)

(** X27.  The application for the supplier rank.  When POST
    /user/apply-supplier succeeds, the applicant has paid exactly 7.50
    out of a balance that covered it, under one debit entry; the role is
    [Pending] whatever it was before; the referrer stored is the owner
    of the code (none for the system code [BLD231]) and is never the
    applicant; and no other row of the users table has changed.  The
    commission step of the recharge approval therefore never pays a user
    for their own recharge through a referrer set here. *)
Theorem apply_supplier_referrer (codeOwner : string -> option Z) (clk : clock)
    (userId : Z) (referralCode : string) (s s' : db) :
  user_apply_supplier codeOwner clk userId referralCode s = (Ok tt, s') ->
  exists u u' e,
    find_user userId s = Some u /\
    find_user userId s' = Some u' /\
    SUPPLIER_COST <= balance u /\
    balance u' = balance u - SUPPLIER_COST /\
    transactions_history u' = e :: transactions_history u /\
    tx_type e = "debit" /\ tx_amount e = SUPPLIER_COST /\
    role u' = "Pending" /\
    referred_by_user_id u' <> Some userId /\
    (referred_by_user_id u'
     = if String.eqb (Js.toUpperCase referralCode) "BLD231" then None
       else codeOwner (Js.toUpperCase referralCode)) /\
    (forall k, k <> userId -> find_user k s' = find_user k s).
Proof.
  intro H. unfold user_apply_supplier in H.
  destruct (orb _ _); [discriminate|]. cbv zeta in H.
  set (validated :=
         if String.eqb (Js.toUpperCase referralCode) "BLD231" then Some None
         else match codeOwner (Js.toUpperCase referralCode) with
              | Some referrerId =>
                  if Z.eqb referrerId userId then None
                  else Some (Some referrerId)
              | None => None
              end) in *.
  destruct validated as [r|] eqn:Hval; [|discriminate].
  assert (Hr : r <> Some userId /\
               r = if String.eqb (Js.toUpperCase referralCode) "BLD231"
                   then None
                   else codeOwner (Js.toUpperCase referralCode)).
  { unfold validated in Hval.
    destruct (String.eqb (Js.toUpperCase referralCode) "BLD231").
    - injection Hval as <-. split; [discriminate | reflexivity].
    - destruct (codeOwner (Js.toUpperCase referralCode)) as [rid|];
        [|discriminate].
      destruct (Z.eqb_spec rid userId); [discriminate|].
      injection Hval as <-. split; [congruence | reflexivity]. }
  destruct Hr as [Hself Hcode].
  destruct (find_user userId s) as [u|] eqn:Hu; [|discriminate].
  destruct (Qltb (balance u) SUPPLIER_COST) eqn:Hb; [discriminate|].
  injection H as <-.
  exists u. eexists. eexists. split; [reflexivity|]. split.
  { rewrite find_user_self by (intro y; reflexivity). rewrite Hu.
    reflexivity. }
  split; [apply Qltb_ge; exact Hb|].
  split; [reflexivity|]. split; [reflexivity|]. split; [reflexivity|].
  split; [reflexivity|]. split; [reflexivity|].
  split; [exact Hself|]. split; [exact Hcode|].
  intros k Hk. apply find_user_other; [intro y; reflexivity | exact Hk].
Qed.

(** Ana, holding 100, applies with dario's code [dar10]. *)
Lemma apply_supplier_referrer_witness :
  let owner := fun c : string => if String.eqb c "DAR10" then Some 3%Z else None in
  let s' := snd (user_apply_supplier owner Shop.day0 1 "dar10" Shop.shop) in
  Shop.balance_of 1 s' == 925 # 10 /\
  option_map referred_by_user_id (find_user 1 s') = Some (Some 3%Z).
Proof.
  intros owner s'.
  destruct (apply_supplier_referrer owner Shop.day0 1 "dar10" Shop.shop s')
    as (u & u' & e & Hu & Hu' & _ & Hb & _ & _ & _ & _ & _ & Hr & _).
  - reflexivity.
  - unfold Shop.balance_of. rewrite Hu'. simpl option_map. rewrite Hb, Hr.
    assert (Hu0 : find_user 1 Shop.shop = Some Shop.ana) by reflexivity.
    rewrite Hu0 in Hu. injection Hu as <-.
    split; [vm_compute; reflexivity | reflexivity].
Defined.

(** ** The administrator's statistics *)











(** X29.  The fee of an application is not returned.  After a successful
    application for the supplier rank, the applicant's cancellation and
    the administrator's rejection both succeed and leave the applicant's
    row as the application wrote it (balance 7.50 below what it was, the
    debit entry in the ledger, the referrer in place) with the role set
    to [Usuario]; the administrator's approval leaves it so with the role
    set to [distribuidor]. *)
Theorem application_fee_is_kept (codeOwner : string -> option Z) (clk : clock)
    (userId : Z) (referralCode : string) (s s1 : db) (u : user) :
  find_user userId s = Some u ->
  user_apply_supplier codeOwner clk userId referralCode s = (Ok tt, s1) ->
  exists u1,
    find_user userId s1 = Some u1 /\
    balance u1 = balance u - SUPPLIER_COST /\
    (exists s2,
       user_cancel_supplier_application userId s1 = (Ok tt, s2) /\
       find_user userId s2 = Some (with_role "Usuario" u1)) /\
    (exists s2,
       admin_user_reject userId s1 = (Ok tt, s2) /\
       find_user userId s2 = Some (with_role "Usuario" u1)) /\
    (exists s2,
       admin_user_approve userId s1 = (Ok tt, s2) /\
       find_user userId s2 = Some (with_role "distribuidor" u1)).
Proof.
  intros Hu H. unfold user_apply_supplier in H.
  destruct (Z.eqb_spec userId 0) as [|Hn]; [discriminate|].
  destruct (String.eqb referralCode ""); [discriminate|].
  simpl orb in H. cbv iota zeta in H.
  match type of H with
  | match ?v with _ => _ end = _ => destruct v as [r|]; [|discriminate]
  end.
  rewrite Hu in H.
  destruct (Qltb (balance u) SUPPLIER_COST); [discriminate|].
  injection H as <-.
  set (s1 := update_user userId _ s).
  assert (H1 : find_user userId s1
               = Some (as_applicant (balance u - SUPPLIER_COST)
                         (rank_tx clk :: transactions_history u) r u)).
  { unfold s1. rewrite find_user_self by (intro y; reflexivity). rewrite Hu.
    reflexivity. }
  assert (Hrole : forall r',
            find_user userId (update_user userId (with_role r') s1)
            = Some (with_role r'
                      (as_applicant (balance u - SUPPLIER_COST)
                         (rank_tx clk :: transactions_history u) r u))).
  { intro r'. rewrite find_user_self by (intro y; reflexivity). rewrite H1.
    reflexivity. }
  eexists. split; [exact H1|]. split; [reflexivity|].
  unfold user_cancel_supplier_application, admin_user_reject,
    admin_user_approve.
  destruct (Z.eqb_spec userId 0); [contradiction|].
  split; [|split]; eexists; (split; [reflexivity | apply Hrole]).
Qed.

(** Ana applies with dario's code and cancels: she is a [Usuario] with
    92.50. *)
Lemma application_fee_is_kept_witness :
  let owner := fun c : string => if String.eqb c "DAR10" then Some 3%Z else None in
  let s1 := snd (user_apply_supplier owner Shop.day0 1 "dar10" Shop.shop) in
  let s2 := snd (user_cancel_supplier_application 1 s1) in
  Shop.balance_of 1 s2 == 925 # 10 /\
  option_map role (find_user 1 s2) = Some "Usuario".
Proof.
  intros owner s1 s2.
  destruct (application_fee_is_kept owner Shop.day0 1 "dar10" Shop.shop s1
              Shop.ana eq_refl eq_refl)
    as (u1 & Hu1 & Hb & (s2' & Hcancel & Hrow) & _).
  assert (Hs2 : s2 = s2') by (unfold s2; rewrite Hcancel; reflexivity).
  unfold Shop.balance_of. rewrite Hs2, Hrow. simpl option_map.
  change (balance (with_role "Usuario" u1)) with (balance u1). rewrite Hb.
  split; [vm_compute; reflexivity | reflexivity].
Defined.
